(** * Build Hotspot Analyzer: the pure-Python analysis pipeline

    A shallow embedding of [python/bha/types.py] and of the pure-Python
    paths of [python/bha/__init__.py]: [Duration], the trace model,
    [CompilationUnit.from_json], [AnalysisResult.from_compilation_units]
    and [Analyzer._generate_suggestions_python], followed by the
    properties of these functions.

    Python values are modelled as the code uses them:
    - [int] is [Z] (unbounded);
    - [float] is IEEE 754 binary64, taken from the Standard Library's
      [SpecFloat] at precision 53 and maximal exponent 1024, so that every
      operation computes and can be reasoned about;
    - [str] is [string], compared bytewise (code-point order on UTF-8);
    - a [dict] is an insertion-ordered association list with unique keys,
      since [sorted] sees the items in insertion order;
    - a raised exception is the [Raise] case of [result]. *)

From Stdlib Require Import ZArith List String Ascii Bool Lia.
From Stdlib Require Import SpecFloat Sorted Permutation.
From Stdlib Require Import DecimalString.
Import ListNotations.

Local Open Scope string_scope.
Local Open Scope list_scope.
Local Open Scope Z_scope.

(** ** Python exceptions and fallible computations *)

Inductive exn : Type :=
| OverflowError   (* int(inf), or an int too large to convert to float *)
| ValueError      (* int(nan) *)
| RuntimeError.   (* raised by Analyzer itself *)

Inductive result (A : Type) : Type :=
| Return (a : A)
| Raise (e : exn).

Arguments Return {A} a.
Arguments Raise {A} e.

Definition bind {A B : Type} (m : result A) (k : A -> result B) : result B :=
  match m with
  | Return a => k a
  | Raise e => Raise e
  end.

Notation "x <- m ;; k" := (bind m (fun x => k))
  (at level 61, m at next level, right associativity).

(** A [for] loop whose body may raise: the first exception ends the loop. *)
Fixpoint for_each {A S : Type} (body : S -> A -> result S) (l : list A) (s : S)
  : result S :=
  match l with
  | [] => Return s
  | x :: l' => s' <- body s x ;; for_each body l' s'
  end.

(** ** Python floats: IEEE 754 binary64 *)

Module Float.

Definition prec : Z := 53.
Definition emax : Z := 1024.

Definition float : Type := spec_float.

Definition mul : float -> float -> float := SFmul prec emax.
Definition add : float -> float -> float := SFadd prec emax.
Definition div : float -> float -> float := SFdiv prec emax.
Definition ltb : float -> float -> bool := SFltb.
Definition leb : float -> float -> bool := SFleb.

(** The nearest float to the integer [z], ties to even; an infinity when
    [z] is out of range. Exact for the literals below. *)
Definition of_Z (z : Z) : float := binary_normalize prec emax z 0 false.

(** [float(z)] for a Python int, as in [z / 1_000_000.0]: raises
    OverflowError when [z] rounds out of the float range. *)
Definition of_int (z : Z) : result float :=
  match of_Z z with
  | S754_infinity _ => Raise OverflowError
  | f => Return f
  end.

(** [int(f)]: truncation toward zero. *)
Definition to_int (f : float) : result Z :=
  match f with
  | S754_zero _ => Return 0
  | S754_infinity _ => Raise OverflowError
  | S754_nan => Raise ValueError
  | S754_finite s m e =>
      let a := if 0 <=? e then Z.shiftl (Zpos m) e
               else Z.shiftr (Zpos m) (- e) in
      Return (if s then - a else a)
  end.

(** The literal [0.3]: the float nearest to 3/10. *)
Definition lit_0_3 : float := div (of_Z 3) (of_Z 10).

(** The literal [1_000_000.0]. *)
Definition lit_1e6 : float := of_Z 1000000.

(** [x > y] on floats; false when either is a NaN. *)
Definition gtb (x y : float) : bool := ltb y x.

(** The integer nearest to the finite float [m * 2^e], ties to even. *)
Definition round_half_even (m : positive) (e : Z) : Z :=
  if 0 <=? e then Z.shiftl (Zpos m) e
  else
    let q := Z.shiftr (Zpos m) (- e) in
    let r := Zpos m - Z.shiftl q (- e) in
    let half := Z.shiftl 1 (- e - 1) in
    match r ?= half with
    | Lt => q
    | Gt => q + 1
    | Eq => if Z.even q then q else q + 1
    end.

Definition digits (n : Z) : string :=
  NilZero.string_of_uint (N.to_uint (Z.to_N n)).

(** [f"{x:.0f}"]: no fractional digits, ties to even, the sign kept
    even when the digits are zero. *)
Definition format_0f (x : float) : string :=
  match x with
  | S754_zero s => (if s then "-0" else "0")
  | S754_infinity s => (if s then "-inf" else "inf")
  | S754_nan => "nan"
  | S754_finite s m e =>
      String.append (if s then "-" else "") (digits (round_half_even m e))
  end.

End Float.

(** ** Python dicts: insertion-ordered association lists *)

Module Dict.
Section WithValue.
Context {V : Type}.

Definition dict : Type := list (string * V).

(** [d.get(k, default)] *)
Fixpoint get (d : dict) (k : string) (default : V) : V :=
  match d with
  | [] => default
  | (k', v) :: d' => if String.eqb k k' then v else get d' k default
  end.

(** [d[k] = v]: an existing key keeps its position, a new key goes
    last. *)
Fixpoint set (d : dict) (k : string) (v : V) : dict :=
  match d with
  | [] => [(k, v)]
  | (k', v') :: d' =>
      if String.eqb k k' then (k', v) :: d' else (k', v') :: set d' k v
  end.

(** [k in d] *)
Fixpoint mem (d : dict) (k : string) : bool :=
  match d with
  | [] => false
  | (k', _) :: d' => String.eqb k k' || mem d' k
  end.

Definition items (d : dict) : list (string * V) := d.
Definition keys (d : dict) : list string := map fst d.
Definition values (d : dict) : list V := map snd d.
Definition len (d : dict) : Z := Z.of_nat (List.length d).
End WithValue.
Arguments dict V : clear implicits.
End Dict.

(** ** [sorted(xs, key=..., reverse=True)]

    Python's [sorted] is stable, also with [reverse=True]: the result is in
    descending key order and elements with equal keys keep the order they
    have in [xs]. On keys that are totally ordered this determines the
    result; it is computed here by insertion. [ltb a b] is the [<] of the
    keys. *)
Section Sorted.
Context {A K : Type} (key : A -> K) (ltb : K -> K -> bool).

Fixpoint insert_desc (x : A) (l : list A) : list A :=
  match l with
  | [] => [x]
  | y :: l' =>
      if ltb (key x) (key y) then y :: insert_desc x l' else x :: y :: l'
  end.

Fixpoint sorted_reverse (l : list A) : list A :=
  match l with
  | [] => []
  | x :: l' => insert_desc x (sorted_reverse l')
  end.
End Sorted.

(** [sum(xs)] over ints. *)
Definition sum (xs : list Z) : Z := fold_left Z.add xs 0.

(** [len(xs)] *)
Definition len {A : Type} (xs : list A) : Z := Z.of_nat (List.length xs).

(** [xs[:10]] *)
Definition slice_10 {A : Type} (xs : list A) : list A := firstn 10 xs.

(** A number as a caller or [json.load] supplies it: an int or a float. *)
Inductive number : Type :=
| NInt (z : Z)
| NFloat (f : Float.float).

(** [int(x * k)] for an int constant [k]: on an int the product is an int;
    on a float it is the float product with [float(k)], which [int]
    truncates. *)
Definition int_of_scaled (x : number) (k : Z) : result Z :=
  match x with
  | NInt z => Return (z * k)
  | NFloat f => Float.to_int (Float.mul f (Float.of_Z k))
  end.

(** ** types.py: Duration *)

Module Duration.

(** Time in nanoseconds: the [_ns] attribute, a Python int. *)
Record t : Type := Duration { nanoseconds : Z }.

(** [Duration()]: the default of every Duration field. *)
Definition default : t := Duration 0.

Definition from_nanoseconds (ns : Z) : t := Duration ns.

(** [cls(int(us * 1000))] *)
Definition from_microseconds (us : number) : result t :=
  ns <- int_of_scaled us 1000 ;; Return (Duration ns).

(** [cls(int(ms * 1_000_000))] *)
Definition from_milliseconds (ms : number) : result t :=
  ns <- int_of_scaled ms 1000000 ;; Return (Duration ns).

(** [cls(int(s * 1_000_000_000))] *)
Definition from_seconds (s : number) : result t :=
  ns <- int_of_scaled s 1000000000 ;; Return (Duration ns).

(** [self._ns / 1000.0] *)
Definition microseconds (self : t) : result Float.float :=
  f <- Float.of_int (nanoseconds self) ;;
  Return (Float.div f (Float.of_Z 1000)).

(** [self._ns / 1_000_000.0] *)
Definition milliseconds (self : t) : result Float.float :=
  f <- Float.of_int (nanoseconds self) ;;
  Return (Float.div f Float.lit_1e6).

(** [self._ns / 1_000_000_000.0] *)
Definition seconds (self : t) : result Float.float :=
  f <- Float.of_int (nanoseconds self) ;;
  Return (Float.div f (Float.of_Z 1000000000)).

Definition __eq__ (self other : t) : bool :=
  nanoseconds self =? nanoseconds other.
Definition __lt__ (self other : t) : bool :=
  nanoseconds self <? nanoseconds other.
Definition __le__ (self other : t) : bool :=
  nanoseconds self <=? nanoseconds other.
Definition __gt__ (self other : t) : bool :=
  nanoseconds self >? nanoseconds other.
Definition __ge__ (self other : t) : bool :=
  nanoseconds self >=? nanoseconds other.

Definition __add__ (self other : t) : t :=
  Duration (nanoseconds self + nanoseconds other).

Definition __sub__ (self other : t) : t :=
  Duration (nanoseconds self - nanoseconds other).

End Duration.

(** ** types.py: enumerations *)

Inductive CompilerType : Type :=
| UNKNOWN | CLANG | GCC | MSVC | INTEL | NVCC.

Inductive SuggestionType : Type :=
| PCH | FORWARD_DECLARATION | INCLUDE_OPTIMIZATION | TEMPLATE_OPTIMIZATION
| HEADER_SPLIT | PIMPL | UNITY_BUILD | MODULE_MIGRATION | CUSTOM.

Module Priority.
Inductive t : Type := LOW | MEDIUM | HIGH | CRITICAL.
Definition value (p : t) : Z :=
  match p with LOW => 1 | MEDIUM => 2 | HIGH => 3 | CRITICAL => 4 end.
(** [p.name] *)
Definition name (p : t) : string :=
  match p with
  | LOW => "LOW" | MEDIUM => "MEDIUM" | HIGH => "HIGH" | CRITICAL => "CRITICAL"
  end.
(** [Priority(v)]: the member with value [v], ValueError when there is
    none. *)
Definition of_value (v : Z) : result t :=
  if v =? 1 then Return LOW
  else if v =? 2 then Return MEDIUM
  else if v =? 3 then Return HIGH
  else if v =? 4 then Return CRITICAL
  else Raise ValueError.
End Priority.

Module Confidence.
Inductive t : Type := LOW | MEDIUM | HIGH.
Definition value (c : t) : Z :=
  match c with LOW => 1 | MEDIUM => 2 | HIGH => 3 end.
(** [c.name] *)
Definition name (c : t) : string :=
  match c with LOW => "LOW" | MEDIUM => "MEDIUM" | HIGH => "HIGH" end.
(** [Confidence(v)] *)
Definition of_value (v : Z) : result t :=
  if v =? 1 then Return LOW
  else if v =? 2 then Return MEDIUM
  else if v =? 3 then Return HIGH
  else Raise ValueError.
End Confidence.

(** [t.value] for a SuggestionType *)
Definition SuggestionType_value (t : SuggestionType) : string :=
  match t with
  | PCH => "pch"
  | FORWARD_DECLARATION => "forward_declaration"
  | INCLUDE_OPTIMIZATION => "include_optimization"
  | TEMPLATE_OPTIMIZATION => "template_optimization"
  | HEADER_SPLIT => "header_split"
  | PIMPL => "pimpl"
  | UNITY_BUILD => "unity_build"
  | MODULE_MIGRATION => "module_migration"
  | CUSTOM => "custom"
  end.

(** [SuggestionType(v)]: the member with value [v], ValueError when there
    is none. *)
Definition SuggestionType_of_value (v : string) : result SuggestionType :=
  if String.eqb v "pch" then Return PCH
  else if String.eqb v "forward_declaration" then Return FORWARD_DECLARATION
  else if String.eqb v "include_optimization" then Return INCLUDE_OPTIMIZATION
  else if String.eqb v "template_optimization"
       then Return TEMPLATE_OPTIMIZATION
  else if String.eqb v "header_split" then Return HEADER_SPLIT
  else if String.eqb v "pimpl" then Return PIMPL
  else if String.eqb v "unity_build" then Return UNITY_BUILD
  else if String.eqb v "module_migration" then Return MODULE_MIGRATION
  else if String.eqb v "custom" then Return CUSTOM
  else Raise ValueError.

Inductive ExportFormat : Type :=
| JSON | HTML | CSV | SARIF | MARKDOWN.

(** ** types.py: the trace model *)

Module IncludeInfo.
Record t : Type := IncludeInfo {
  header_path : string;
  include_time : Duration.t;
  line_number : Z;
  is_system : bool;
  is_direct : bool;
  included_by : option string
}.

(** [IncludeInfo(header_path=.., include_time=..)], the other fields at
    their defaults. *)
Definition make (header_path : string) (include_time : Duration.t) : t :=
  IncludeInfo header_path include_time 0 false true None.
End IncludeInfo.

Module TemplateInstantiation.
Record t : Type := TemplateInstantiation {
  template_name : string;
  instantiation_time : Duration.t;
  specialization : string;
  location_file : string;
  location_line : Z;
  instantiation_count : Z
}.

(** [TemplateInstantiation(template_name=.., instantiation_time=..)] *)
Definition make (template_name : string) (instantiation_time : Duration.t)
  : t :=
  TemplateInstantiation template_name instantiation_time "" "" 0 1.
End TemplateInstantiation.

Module SymbolInfo.
Record t : Type := SymbolInfo {
  name : string;
  mangled_name : string;
  symbol_type : string;
  size_bytes : Z;
  is_inline : bool;
  is_template : bool;
  definition_file : string;
  definition_line : Z
}.
End SymbolInfo.

(** The trace document [from_json] reads, [Dict[str, Any]] restricted to
    the keys the code consults and to the shape of a Clang -ftime-trace
    file: [{"traceEvents": [{"name": str, "dur": number,
    "args": {"detail": str, ...}}, ...]}]. An absent key is [None].

    This is the domain of every statement about [from_json] below: each
    event is an object, a [dur] that is present is an int or a float, an
    [args] that is present is an object, and [name] and [detail] are
    strings. Documents outside this shape are not modelled; on them the
    code can fail in other ways (a [dur] of null on a consumed event makes
    [dur * 1000] raise TypeError, an [args] of null makes ['detail' in
    args] raise TypeError and [args.get] raise AttributeError). *)
Record TraceEvent : Type := {
  ev_name : option string;
  ev_dur : option number;
  ev_args : option (Dict.dict string)
}.

Record TraceDocument : Type := {
  traceEvents : option (list TraceEvent)
}.

(** [e.get(k, default)] on an optional key. *)
Definition get_default {A : Type} (v : option A) (default : A) : A :=
  match v with
  | Some a => a
  | None => default
  end.

Module CompilationUnit.
Record t : Type := CompilationUnit {
  source_file : string;
  compiler : CompilerType;
  total_time : Duration.t;
  frontend_time : Duration.t;
  backend_time : Duration.t;
  includes : list IncludeInfo.t;
  templates : list TemplateInstantiation.t;
  symbols : list SymbolInfo.t
}.

(** [cls(source_file=source_hint)] *)
Definition make (source_file : string) : t :=
  CompilationUnit source_file UNKNOWN Duration.default Duration.default
    Duration.default [] [] [].

Definition set_total_time (u : t) (d : Duration.t) : t :=
  CompilationUnit (source_file u) (compiler u) d (frontend_time u)
    (backend_time u) (includes u) (templates u) (symbols u).

Definition set_frontend_time (u : t) (d : Duration.t) : t :=
  CompilationUnit (source_file u) (compiler u) (total_time u) d
    (backend_time u) (includes u) (templates u) (symbols u).

Definition set_backend_time (u : t) (d : Duration.t) : t :=
  CompilationUnit (source_file u) (compiler u) (total_time u)
    (frontend_time u) d (includes u) (templates u) (symbols u).

(** [unit.includes.append(inc)] *)
Definition append_include (u : t) (inc : IncludeInfo.t) : t :=
  CompilationUnit (source_file u) (compiler u) (total_time u)
    (frontend_time u) (backend_time u) (includes u ++ [inc]) (templates u)
    (symbols u).

(** [unit.templates.append(tmpl)] *)
Definition append_template (u : t) (tmpl : TemplateInstantiation.t) : t :=
  CompilationUnit (source_file u) (compiler u) (total_time u)
    (frontend_time u) (backend_time u) (includes u) (templates u ++ [tmpl])
    (symbols u).

(** The body of the loop over [trace_events]. *)
Definition from_json_event (unit : t) (event : TraceEvent) : result t :=
  let name := get_default (ev_name event) "" in
  let dur := get_default (ev_dur event) (NInt 0) in
  if String.eqb name "Total ExecuteCompiler" then
    d <- Duration.from_microseconds dur ;; Return (set_total_time unit d)
  else if String.eqb name "Total Frontend" then
    d <- Duration.from_microseconds dur ;; Return (set_frontend_time unit d)
  else if String.eqb name "Total Backend" then
    d <- Duration.from_microseconds dur ;; Return (set_backend_time unit d)
  else if String.eqb name "Source" then
    let args := get_default (ev_args event) [] in
    if Dict.mem args "detail" then
      (* args['detail']: the key is present *)
      d <- Duration.from_microseconds dur ;;
      Return (append_include unit
                (IncludeInfo.make (Dict.get args "detail" "") d))
    else Return unit
  else if String.eqb name "InstantiateClass"
          || String.eqb name "InstantiateFunction" then
    let args := get_default (ev_args event) [] in
    d <- Duration.from_microseconds dur ;;
    Return (append_template unit
              (TemplateInstantiation.make (Dict.get args "detail" "") d))
  else Return unit.

(** [CompilationUnit.from_json(data, source_hint)] *)
Definition from_json (data : TraceDocument) (source_hint : string)
  : result t :=
  let unit := make source_hint in
  let trace_events := get_default (traceEvents data) [] in
  for_each from_json_event trace_events unit.
End CompilationUnit.

(** ** types.py: BuildTrace *)

Module BuildTrace.
Record t : Type := BuildTrace {
  units : list CompilationUnit.t;
  total_build_time : Duration.t;
  parallel_jobs : Z
}.

(** [BuildTrace()] *)
Definition default : t := BuildTrace [] Duration.default 1.

(** [BuildTrace.add_unit] *)
Definition add_unit (self : t) (unit : CompilationUnit.t) : t :=
  BuildTrace (units self ++ [unit])
    (Duration.__add__ (total_build_time self)
       (CompilationUnit.total_time unit))
    (parallel_jobs self).
End BuildTrace.

(** ** The values [to_dict] builds

    A dict literal is the list of its items in the order they are written;
    the keys of each literal are distinct. *)
#[warnings="-register-all"]
Inductive json : Type :=
| JBool (b : bool)
| JInt (z : Z)
| JFloat (f : Float.float)
| JStr (s : string)
| JList (l : list json)
| JDict (d : list (string * json)).

(** [d[k]] on a value: the dict's item, [None] for a missing key or a value
    that is not a dict. *)
Definition json_item (v : json) (k : string) : option json :=
  match v with
  | JDict d =>
      if Dict.mem d k then Some (Dict.get d k (JBool false)) else None
  | _ => None
  end.

(** ** types.py: metrics *)

Module FileMetrics.
Record t : Type := FileMetrics {
  file_path : string;
  compile_time_ms : Float.float;
  include_count : Z;
  template_instantiation_count : Z;
  lines_of_code : Z;
  include_depth : Z;
  is_header : bool;
  includers : list string
}.

(** [FileMetrics(file_path=.., compile_time_ms=.., include_count=..,
    template_instantiation_count=..)] *)
Definition make (file_path : string) (compile_time_ms : Float.float)
  (include_count template_instantiation_count : Z) : t :=
  FileMetrics file_path compile_time_ms include_count
    template_instantiation_count 0 0 false [].

(** [FileMetrics.to_dict] *)
Definition to_dict (self : t) : json :=
  JDict [("file_path", JStr (file_path self));
         ("compile_time_ms", JFloat (compile_time_ms self));
         ("include_count", JInt (include_count self));
         ("template_instantiation_count",
          JInt (template_instantiation_count self));
         ("lines_of_code", JInt (lines_of_code self));
         ("include_depth", JInt (include_depth self));
         ("is_header", JBool (is_header self));
         ("includers", JList (map JStr (includers self)))].
End FileMetrics.

Module IncludeMetrics.
Record t : Type := IncludeMetrics {
  total_includes : Z;
  unique_includes : Z;
  max_depth : Z;
  total_include_time : Duration.t;
  most_included : list (string * Z);
  slowest_includes : list (string * Float.float)
}.
Definition default : t := IncludeMetrics 0 0 0 Duration.default [] [].

(** [IncludeMetrics.to_dict] *)
Definition to_dict (self : t) : result json :=
  ms <- Duration.milliseconds (total_include_time self) ;;
  Return
    (JDict [("total_includes", JInt (total_includes self));
            ("unique_includes", JInt (unique_includes self));
            ("max_depth", JInt (max_depth self));
            ("total_include_time_ms", JFloat ms);
            ("most_included",
             JList (map (fun pc => JDict [("path", JStr (fst pc));
                                          ("count", JInt (snd pc))])
                      (most_included self)));
            ("slowest_includes",
             JList (map (fun pt => JDict [("path", JStr (fst pt));
                                          ("time_ms", JFloat (snd pt))])
                      (slowest_includes self)))]).
End IncludeMetrics.

Module TemplateMetrics.
Record t : Type := TemplateMetrics {
  total_instantiations : Z;
  unique_templates : Z;
  total_template_time : Duration.t;
  most_instantiated : list (string * Z);
  slowest_templates : list (string * Float.float)
}.
Definition default : t := TemplateMetrics 0 0 Duration.default [] [].

(** [TemplateMetrics.to_dict] *)
Definition to_dict (self : t) : result json :=
  ms <- Duration.milliseconds (total_template_time self) ;;
  Return
    (JDict [("total_instantiations", JInt (total_instantiations self));
            ("unique_templates", JInt (unique_templates self));
            ("total_template_time_ms", JFloat ms);
            ("most_instantiated",
             JList (map (fun nc => JDict [("name", JStr (fst nc));
                                          ("count", JInt (snd nc))])
                      (most_instantiated self)));
            ("slowest_templates",
             JList (map (fun nt => JDict [("name", JStr (fst nt));
                                          ("time_ms", JFloat (snd nt))])
                      (slowest_templates self)))]).
End TemplateMetrics.

Module SymbolMetrics.
Record t : Type := SymbolMetrics {
  total_symbols : Z;
  inline_symbols : Z;
  template_symbols : Z;
  total_symbol_size : Z
}.
Definition default : t := SymbolMetrics 0 0 0 0.

(** [SymbolMetrics.to_dict] *)
Definition to_dict (self : t) : json :=
  JDict [("total_symbols", JInt (total_symbols self));
         ("inline_symbols", JInt (inline_symbols self));
         ("template_symbols", JInt (template_symbols self));
         ("total_symbol_size", JInt (total_symbol_size self))].
End SymbolMetrics.

Module DependencyMetrics.
Record t : Type := DependencyMetrics {
  total_dependencies : Z;
  circular_dependencies : Z;
  max_dependency_depth : Z;
  strongly_connected_components : Z
}.
Definition default : t := DependencyMetrics 0 0 0 0.

(** [DependencyMetrics.to_dict] *)
Definition to_dict (self : t) : json :=
  JDict [("total_dependencies", JInt (total_dependencies self));
         ("circular_dependencies", JInt (circular_dependencies self));
         ("max_dependency_depth", JInt (max_dependency_depth self));
         ("strongly_connected_components",
          JInt (strongly_connected_components self))].
End DependencyMetrics.

(** ** Objects of the native module

    What [from_native] reads of a native object: an attribute the code
    tests with [hasattr] or reads with a [getattr] default is optional,
    [None] when the object lacks it; an attribute it reads directly is
    present. Enum attributes hold the value of the member. *)
Module NativeFileMetrics.
Record t : Type := NativeFileMetrics {
  file_path : string;
  compile_time_ms : Float.float;
  include_count : Z;
  template_instantiation_count : option Z
}.
End NativeFileMetrics.

Module NativeResult.
Record t : Type := NativeResult {
  file_metrics : option (list NativeFileMetrics.t)
}.
End NativeResult.

Module NativeSuggestion.
Record t : Type := NativeSuggestion {
  type : option string;
  priority : option Z;
  title : option string;
  description : option string;
  file_path : option string;
  line_number : option Z;
  estimated_impact_ms : option Float.float;
  confidence : option Z
}.
End NativeSuggestion.

(** ** types.py: AnalysisResult.from_compilation_units *)

Module AnalysisResult.
Record t : Type := AnalysisResult {
  file_metrics : list FileMetrics.t;
  include_metrics : IncludeMetrics.t;
  template_metrics : TemplateMetrics.t;
  symbol_metrics : SymbolMetrics.t;
  dependency_metrics : DependencyMetrics.t;
  total_compile_time : Duration.t;
  file_count : Z
}.

(** [cls()] *)
Definition default : t :=
  AnalysisResult [] IncludeMetrics.default TemplateMetrics.default
    SymbolMetrics.default DependencyMetrics.default Duration.default 0.

(** The variables the loop over [units] updates. *)
Record locals : Type := Locals {
  total : Duration.t;                      (* result.total_compile_time *)
  metrics : list FileMetrics.t;            (* result.file_metrics *)
  include_counts : Dict.dict Z;
  include_times : Dict.dict Float.float;
  template_counts : Dict.dict Z;
  template_times : Dict.dict Float.float
}.

Definition initial : locals := Locals Duration.default [] [] [] [] [].

(** One step of [for inc in unit.includes] (and of [for tmpl in
    unit.templates]) on the pair of dicts it updates: the count goes up
    by one and the time by [time.milliseconds]; [times.get(key, 0)]
    gives the int 0, which the float addition converts to 0.0. *)
Definition tally (st : Dict.dict Z * Dict.dict Float.float)
  (entry : string * Duration.t)
  : result (Dict.dict Z * Dict.dict Float.float) :=
  let '(counts, times) := st in
  let '(key, time) := entry in
  let counts' := Dict.set counts key (Dict.get counts key 0 + 1) in
  ms <- Duration.milliseconds time ;;
  Return (counts',
          Dict.set times key
            (Float.add (Dict.get times key (Float.of_Z 0)) ms)).

Definition include_entry (inc : IncludeInfo.t) : string * Duration.t :=
  (IncludeInfo.header_path inc, IncludeInfo.include_time inc).

Definition template_entry (tmpl : TemplateInstantiation.t)
  : string * Duration.t :=
  (TemplateInstantiation.template_name tmpl,
   TemplateInstantiation.instantiation_time tmpl).

(** The body of [for unit in units]. *)
Definition add_unit (st : locals) (unit : CompilationUnit.t)
  : result locals :=
  let total' :=
    Duration.__add__ (total st) (CompilationUnit.total_time unit) in
  ms <- Duration.milliseconds (CompilationUnit.total_time unit) ;;
  let metrics' :=
    metrics st ++
    [FileMetrics.make (CompilationUnit.source_file unit) ms
       (len (CompilationUnit.includes unit))
       (len (CompilationUnit.templates unit))] in
  inc <- for_each tally
           (map include_entry (CompilationUnit.includes unit))
           (include_counts st, include_times st) ;;
  tmpl <- for_each tally
           (map template_entry (CompilationUnit.templates unit))
           (template_counts st, template_times st) ;;
  Return (Locals total' metrics' (fst inc) (snd inc) (fst tmpl) (snd tmpl)).

(** [sorted(d.items(), key=lambda x: x[1], reverse=True)[:10]] on
    integer counts and on float times. The times are sums of finite
    floats, hence never NaN, so [<] orders them totally. *)
Definition top_counts (d : Dict.dict Z) : list (string * Z) :=
  slice_10 (sorted_reverse snd Z.ltb (Dict.items d)).

Definition top_times (d : Dict.dict Float.float)
  : list (string * Float.float) :=
  slice_10 (sorted_reverse snd Float.ltb (Dict.items d)).

(** The assignments after the loop. *)
Definition finish (n : Z) (st : locals) : t :=
  AnalysisResult
    (metrics st)
    (IncludeMetrics.IncludeMetrics
       (sum (Dict.values (include_counts st)))
       (Dict.len (include_counts st))
       0
       Duration.default
       (top_counts (include_counts st))
       (top_times (include_times st)))
    (TemplateMetrics.TemplateMetrics
       (sum (Dict.values (template_counts st)))
       (Dict.len (template_counts st))
       Duration.default
       (top_counts (template_counts st))
       (top_times (template_times st)))
    SymbolMetrics.default
    DependencyMetrics.default
    (total st)
    n.

(** [AnalysisResult.from_compilation_units(units)]. It raises
    OverflowError when a time is too large for [.milliseconds]. *)
Definition from_compilation_units (units : list CompilationUnit.t)
  : result t :=
  st <- for_each add_unit units initial ;;
  Return (finish (len units) st).

(** [AnalysisResult.from_native] *)
Definition from_native (native_result : NativeResult.t) : t :=
  match NativeResult.file_metrics native_result with
  | Some fms =>
      AnalysisResult
        (map (fun fm =>
                FileMetrics.make (NativeFileMetrics.file_path fm)
                  (NativeFileMetrics.compile_time_ms fm)
                  (NativeFileMetrics.include_count fm)
                  (get_default
                     (NativeFileMetrics.template_instantiation_count fm) 0))
           fms)
        IncludeMetrics.default TemplateMetrics.default SymbolMetrics.default
        DependencyMetrics.default Duration.default 0
  | None => default
  end.

(** [AnalysisResult.to_dict] *)
Definition to_dict (self : t) : result json :=
  ms <- Duration.milliseconds (total_compile_time self) ;;
  im <- IncludeMetrics.to_dict (include_metrics self) ;;
  tm <- TemplateMetrics.to_dict (template_metrics self) ;;
  Return
    (JDict [("bha_version", JStr "1.0.0");
            ("summary",
             JDict [("total_compile_time_ms", JFloat ms);
                    ("file_count", JInt (file_count self))]);
            ("file_metrics",
             JList (map FileMetrics.to_dict (file_metrics self)));
            ("include_metrics", im);
            ("template_metrics", tm);
            ("symbol_metrics", SymbolMetrics.to_dict (symbol_metrics self));
            ("dependency_metrics",
             DependencyMetrics.to_dict (dependency_metrics self))]).
End AnalysisResult.

(** ** types.py: Suggestion *)

Module Suggestion.
Record t : Type := Suggestion {
  type : SuggestionType;
  priority : Priority.t;
  title : string;
  description : string;
  file_path : string;
  line_number : Z;
  estimated_impact_ms : Float.float;
  confidence : Confidence.t;
  affected_files : list string;
  code_changes : list (Dict.dict string)
}.

(** [Suggestion.from_native]; [affected_files] and [code_changes] get
    their defaults. *)
Definition from_native (native_suggestion : NativeSuggestion.t) : result t :=
  type <- match NativeSuggestion.type native_suggestion with
          | Some v => SuggestionType_of_value v
          | None => Return CUSTOM
          end ;;
  priority <- match NativeSuggestion.priority native_suggestion with
              | Some v => Priority.of_value v
              | None => Return Priority.MEDIUM
              end ;;
  confidence <- match NativeSuggestion.confidence native_suggestion with
                | Some v => Confidence.of_value v
                | None => Return Confidence.MEDIUM
                end ;;
  Return
    (Suggestion type priority
       (get_default (NativeSuggestion.title native_suggestion) "")
       (get_default (NativeSuggestion.description native_suggestion) "")
       (get_default (NativeSuggestion.file_path native_suggestion) "")
       (get_default (NativeSuggestion.line_number native_suggestion) 0)
       (get_default (NativeSuggestion.estimated_impact_ms native_suggestion)
          (Float.of_Z 0))
       confidence [] []).

(** [Suggestion.to_dict] *)
Definition to_dict (self : t) : json :=
  JDict [("type", JStr (SuggestionType_value (type self)));
         ("priority", JStr (Priority.name (priority self)));
         ("title", JStr (title self));
         ("description", JStr (description self));
         ("file_path", JStr (file_path self));
         ("line_number", JInt (line_number self));
         ("estimated_impact_ms", JFloat (estimated_impact_ms self));
         ("confidence", JStr (Confidence.name (confidence self)));
         ("affected_files", JList (map JStr (affected_files self)));
         ("code_changes",
          JList (map (fun change =>
                        JDict (map (fun kv => (fst kv, JStr (snd kv)))
                                 change))
                   (code_changes self)))].
End Suggestion.

(** ** types.py: ExportOptions *)

Module ExportOptions.
Record t : Type := ExportOptions {
  pretty_print : bool;
  include_metadata : bool;
  include_suggestions : bool;
  include_raw_data : bool;
  min_priority : Priority.t;
  max_entries : Z
}.

(** [ExportOptions()] *)
Definition default : t := ExportOptions true true true false Priority.LOW 0.

(** [ExportOptions.to_native] *)
Definition to_native (self : t) : json :=
  JDict [("pretty_print", JBool (pretty_print self));
         ("include_metadata", JBool (include_metadata self));
         ("include_suggestions", JBool (include_suggestions self));
         ("include_raw_data", JBool (include_raw_data self));
         ("min_priority", JInt (Priority.value (min_priority self)));
         ("max_entries", JInt (max_entries self))].
End ExportOptions.

(** What [export] raises: an exception of the analysis, or
    NotImplementedError. *)
Inductive export_error : Type :=
| Raised (e : exn)
| NotImplementedError.

(** ** __init__.py: the pure-Python paths of Analyzer *)

Module Analyzer.

(** The analyzer's inputs and results. Reading and decoding JSON is not
    modelled: a trace file is its path with the decoded document, a trace
    content is the decoded document. *)
Record t : Type := Analyzer {
  _trace_files : list (string * TraceDocument);
  _trace_content : list TraceDocument;
  _analysis_result : option AnalysisResult.t;
  _suggestions : list Suggestion.t
}.

(** [Analyzer._analyze_python]: the units of the files, then those of the
    contents, aggregated. *)
Definition _analyze_python (self : t) : result AnalysisResult.t :=
  units <- for_each
             (fun units (file : string * TraceDocument) =>
                unit <- CompilationUnit.from_json (snd file) (fst file) ;;
                Return (units ++ [unit]))
             (_trace_files self) [] ;;
  units <- for_each
             (fun units content =>
                unit <- CompilationUnit.from_json content "<content>" ;;
                Return (units ++ [unit]))
             (_trace_content self) units ;;
  AnalysisResult.from_compilation_units units.

(** The suggestion appended for a file metric above the threshold. *)
Definition slow_file_suggestion (fm : FileMetrics.t) : Suggestion.t :=
  Suggestion.Suggestion
    PCH
    Priority.HIGH
    (String.append "Consider PCH for " (FileMetrics.file_path fm))
    (String.append "File takes "
       (String.append (Float.format_0f (FileMetrics.compile_time_ms fm))
          "ms to compile"))
    (FileMetrics.file_path fm)
    0
    (Float.mul (FileMetrics.compile_time_ms fm) Float.lit_0_3)
    Confidence.MEDIUM
    []
    [].

(** [Analyzer._generate_suggestions_python] *)
Definition _generate_suggestions_python (self : t) : list Suggestion.t :=
  match _analysis_result self with
  | None => []
  | Some r =>
      match AnalysisResult.file_metrics r with
      | [] => []
      | fms =>
          fold_left
            (fun suggestions fm =>
               if Float.gtb (FileMetrics.compile_time_ms fm)
                    (Float.of_Z 5000)
               then suggestions ++ [slow_file_suggestion fm]
               else suggestions)
            fms []
      end
  end.

(** [Analyzer()] followed by [add_trace_file] and [add_trace_content]
    calls. *)
Definition make (files : list (string * TraceDocument))
  (content : list TraceDocument) : t :=
  Analyzer files content None [].

(** [Analyzer.analyze] without the native module ([_HAS_NATIVE] is
    False): the result and the analyzer after the call. *)
Definition analyze (self : t) : result (AnalysisResult.t * t) :=
  match _trace_files self, _trace_content self with
  | [], [] => Raise RuntimeError
  | _, _ =>
      r <- _analyze_python self ;;
      Return (r, Analyzer (_trace_files self) (_trace_content self)
                   (Some r) (_suggestions self))
  end.

(** [Analyzer.get_suggestions] without the native module. *)
Definition get_suggestions (self : t) : result (list Suggestion.t * t) :=
  match _analysis_result self with
  | None => Raise RuntimeError
  | Some r =>
      let suggestions := _generate_suggestions_python self in
      Return (suggestions,
              Analyzer (_trace_files self) (_trace_content self) (Some r)
                suggestions)
  end.


(** [Analyzer.add_trace_content] *)
Definition add_trace_content (self : t) (content : TraceDocument) : t :=
  Analyzer (_trace_files self) (_trace_content self ++ [content])
    (_analysis_result self) (_suggestions self).

Section WithJsonDumps.
(** [json.dumps(value, indent=...)], with [indent] 2 or None. *)
Variable json_dumps : json -> option Z -> string.

(** [Analyzer._export_python], given the analysis result [export] has
    found. *)
Definition _export_python (r : AnalysisResult.t)
  (export_format : ExportFormat) (options : ExportOptions.t)
  : export_error + string :=
  match export_format with
  | JSON =>
      match AnalysisResult.to_dict r with
      | Return d =>
          inr (json_dumps d
                 (if ExportOptions.pretty_print options then Some 2
                  else None))
      | Raise e => inl (Raised e)
      end
  | _ => inl NotImplementedError
  end.

(** [Analyzer.export] without the native module: the content returned and
    the file written, as the path with what is written to it. An absent or
    empty [path] writes nothing. *)
Definition export (self : t) (export_format : ExportFormat)
  (path : option string) (options : option ExportOptions.t)
  : export_error + (string * option (string * string)) :=
  match _analysis_result self with
  | None => inl (Raised RuntimeError)
  | Some r =>
      let options := get_default options ExportOptions.default in
      match _export_python r export_format options with
      | inl e => inl e
      | inr content =>
          let written :=
            match path with
            | Some p => if String.eqb p "" then None else Some (p, content)
            | None => None
            end in
          inr (content, written)
      end
  end.
End WithJsonDumps.
End Analyzer.

(** ** Vocabulary of the properties *)

Definition times_nonneg (u : CompilationUnit.t) : Prop :=
  0 <= Duration.nanoseconds (CompilationUnit.total_time u) /\
  0 <= Duration.nanoseconds (CompilationUnit.frontend_time u) /\
  0 <= Duration.nanoseconds (CompilationUnit.backend_time u) /\
  Forall (fun inc =>
            0 <= Duration.nanoseconds (IncludeInfo.include_time inc))
    (CompilationUnit.includes u) /\
  Forall (fun tmpl =>
            0 <= Duration.nanoseconds
                   (TemplateInstantiation.instantiation_time tmpl))
    (CompilationUnit.templates u).

(** [dur < 0], on an int or a float. *)
Definition dur_negative (n : number) : bool :=
  match n with
  | NInt z => z <? 0
  | NFloat f => Float.ltb f (Float.of_Z 0)
  end.

Definition is_int (n : number) : bool :=
  match n with
  | NInt _ => true
  | NFloat _ => false
  end.

(** The [dur] the loop reads from an event. *)
Definition event_dur (event : TraceEvent) : number :=
  get_default (ev_dur event) (NInt 0).

Definition events (data : TraceDocument) : list TraceEvent :=
  get_default (traceEvents data) [].

(** The header paths of all includes, and the names of all templates, in
    the order the aggregator visits them. *)
Definition all_header_paths (units : list CompilationUnit.t) : list string :=
  flat_map (fun u => map IncludeInfo.header_path (CompilationUnit.includes u))
    units.

Definition all_template_names (units : list CompilationUnit.t)
  : list string :=
  flat_map (fun u => map TemplateInstantiation.template_name
                       (CompilationUnit.templates u))
    units.

(** The distinct strings of a list, in order of first occurrence. *)
Fixpoint first_seen (l : list string) : list string :=
  match l with
  | [] => []
  | x :: l' => x :: filter (fun y => negb (String.eqb y x)) (first_seen l')
  end.

(** How many times [k] occurs in [l]. *)
Fixpoint occurrences (k : string) (l : list string) : Z :=
  match l with
  | [] => 0
  | x :: l' => (if String.eqb x k then 1 else 0) + occurrences k l'
  end.

(** The dict that counting the strings of [l] one by one builds. *)
Definition counted (l : list string) : Dict.dict Z :=
  map (fun k => (k, occurrences k l)) (first_seen l).

(** [counts[k] = counts.get(k, 0) + 1] *)
Definition bump (counts : Dict.dict Z) (k : string) : Dict.dict Z :=
  Dict.set counts k (Dict.get counts k 0 + 1).

(** [d.milliseconds] does not raise. *)
Definition convertible (d : Duration.t) : Prop :=
  exists ms, Duration.milliseconds d = Return ms.

(** Every time of the unit is in the range of floats. *)
Definition unit_convertible (u : CompilationUnit.t) : Prop :=
  convertible (CompilationUnit.total_time u) /\
  Forall (fun inc => convertible (IncludeInfo.include_time inc))
    (CompilationUnit.includes u) /\
  Forall (fun tmpl =>
            convertible (TemplateInstantiation.instantiation_time tmpl))
    (CompilationUnit.templates u).

(** A time below 2^53 ns (about 104 days) in absolute value: its
    nanoseconds convert to a float without rounding. *)
Definition in_range (d : Duration.t) : Prop :=
  Z.abs (Duration.nanoseconds d) < 2 ^ 53.

Definition unit_in_range (u : CompilationUnit.t) : Prop :=
  in_range (CompilationUnit.total_time u) /\
  Forall (fun inc => in_range (IncludeInfo.include_time inc))
    (CompilationUnit.includes u) /\
  Forall (fun tmpl => in_range (TemplateInstantiation.instantiation_time tmpl))
    (CompilationUnit.templates u).

(** The file metric the aggregator appends for a unit. *)
Definition metric_of (u : CompilationUnit.t) (fm : FileMetrics.t) : Prop :=
  Duration.milliseconds (CompilationUnit.total_time u) =
    Return (FileMetrics.compile_time_ms fm) /\
  fm = FileMetrics.make (CompilationUnit.source_file u)
         (FileMetrics.compile_time_ms fm)
         (len (CompilationUnit.includes u))
         (len (CompilationUnit.templates u)).

(** The entries with count [c]. *)
Definition has_count (c : Z) (entry : string * Z) : bool := snd entry =? c.

(** The order the specification asks of [most_included]: strictly sorted
    by count descending, then by path ascending. *)
Fixpoint count_desc_path_asc (l : list (string * Z)) : bool :=
  match l with
  | a :: (b :: _) as l' =>
      ((snd b <? snd a) || ((snd a =? snd b) && String.ltb (fst a) (fst b)))
      && count_desc_path_asc l'
  | _ => true
  end.

(** A compilation unit with the given includes, as pairs of header path
    and include time in nanoseconds, the other fields at their defaults. *)
Definition unit_with (source_file : string) (total_ns : Z)
  (incs : list (string * Z)) : CompilationUnit.t :=
  CompilationUnit.CompilationUnit source_file UNKNOWN
    (Duration.Duration total_ns) Duration.default Duration.default
    (map (fun inc => IncludeInfo.make (fst inc) (Duration.Duration (snd inc)))
       incs)
    [] [].

(** [fm.compile_time_ms > 5000] *)
Definition exceeds_threshold (fm : FileMetrics.t) : bool :=
  Float.gtb (FileMetrics.compile_time_ms fm) (Float.of_Z 5000).

(** What the specification's slow-file rule asks of the suggestion for
    [fm]. *)
Definition slow_file_rule (fm : FileMetrics.t) (s : Suggestion.t) : Prop :=
  Suggestion.file_path s = FileMetrics.file_path fm /\
  Suggestion.type s = PCH /\
  Suggestion.priority s = Priority.HIGH /\
  Suggestion.estimated_impact_ms s =
    Float.mul Float.lit_0_3 (FileMetrics.compile_time_ms fm) /\
  Suggestion.confidence s = Confidence.MEDIUM.

(** The order the specification asks of the suggestions: priority
    descending, then estimated impact descending, then title ascending. *)
Definition ranked_before (a b : Suggestion.t) : bool :=
  (Priority.value (Suggestion.priority b)
     <? Priority.value (Suggestion.priority a))
  || ((Priority.value (Suggestion.priority a)
         =? Priority.value (Suggestion.priority b))
      && (Float.ltb (Suggestion.estimated_impact_ms b)
            (Suggestion.estimated_impact_ms a)
          || (SFeqb (Suggestion.estimated_impact_ms a)
                (Suggestion.estimated_impact_ms b)
              && String.leb (Suggestion.title a) (Suggestion.title b)))).

Fixpoint ranked (l : list Suggestion.t) : bool :=
  match l with
  | a :: (b :: _) as l' => ranked_before a b && ranked l'
  | _ => true
  end.

(** A trace file with the compiler's total time and the given [Source]
    events, all times in microseconds. *)
Definition trace_of (total_us : Z) (sources : list (string * Z))
  : TraceDocument :=
  {| traceEvents :=
       Some ({| ev_name := Some "Total ExecuteCompiler";
                ev_dur := Some (NInt total_us);
                ev_args := None |}
             :: map (fun src =>
                       {| ev_name := Some "Source";
                          ev_dur := Some (NInt (snd src));
                          ev_args := Some [("detail", fst src)] |})
                  sources) |}.

(** Twelve translation units of 100 ms, each including ["H"] once for
    60 ms. *)
Definition twelve_includers : list (string * TraceDocument) :=
  map (fun path => (path, trace_of 100000 [("H", 60000)]))
    ["u01.json"; "u02.json"; "u03.json"; "u04.json"; "u05.json"; "u06.json";
     "u07.json"; "u08.json"; "u09.json"; "u10.json"; "u11.json"; "u12.json"].

(** An analyzer holding a result with the given file metrics. *)
Definition analyzer_with (fms : list FileMetrics.t) : Analyzer.t :=
  Analyzer.Analyzer [] []
    (Some (AnalysisResult.AnalysisResult fms IncludeMetrics.default
             TemplateMetrics.default SymbolMetrics.default
             DependencyMetrics.default Duration.default (len fms)))
    [].

(** Two files of 6000 ms and 9000 ms. *)
Definition two_slow_files : list (string * TraceDocument) :=
  [("a.json", trace_of 6000000 []); ("b.json", trace_of 9000000 [])].

(** *** Vocabulary of the parser's properties *)

(** The branch of the loop of [from_json] an event takes. *)
Inductive event_kind : Type :=
| KTotal | KFrontend | KBackend | KSource | KTemplate | KIgnored.

Definition kind_of (event : TraceEvent) : event_kind :=
  let name := get_default (ev_name event) "" in
  if String.eqb name "Total ExecuteCompiler" then KTotal
  else if String.eqb name "Total Frontend" then KFrontend
  else if String.eqb name "Total Backend" then KBackend
  else if String.eqb name "Source" then
    if Dict.mem (get_default (ev_args event) []) "detail" then KSource
    else KIgnored
  else if String.eqb name "InstantiateClass"
          || String.eqb name "InstantiateFunction" then KTemplate
  else KIgnored.

Definition kind_eqb (a b : event_kind) : bool :=
  match a, b with
  | KTotal, KTotal | KFrontend, KFrontend | KBackend, KBackend
  | KSource, KSource | KTemplate, KTemplate | KIgnored, KIgnored => true
  | _, _ => false
  end.

Definition is_kind (k : event_kind) (event : TraceEvent) : bool :=
  kind_eqb (kind_of event) k.

(** The events whose [dur] the parser converts. *)
Definition consumed (event : TraceEvent) : bool :=
  negb (is_kind KIgnored event).

(** [args.get('detail', '')] of an event. *)
Definition event_detail (event : TraceEvent) : string :=
  Dict.get (get_default (ev_args event) []) "detail" "".

(** The IncludeInfo, and the TemplateInstantiation, made from an event. *)
Definition include_of (event : TraceEvent) (inc : IncludeInfo.t) : Prop :=
  exists d,
    Duration.from_microseconds (event_dur event) = Return d /\
    inc = IncludeInfo.make (event_detail event) d.

Definition template_of (event : TraceEvent)
  (tmpl : TemplateInstantiation.t) : Prop :=
  exists d,
    Duration.from_microseconds (event_dur event) = Return d /\
    tmpl = TemplateInstantiation.make (event_detail event) d.

(** The last event of kind [k]. *)
Fixpoint last_of_kind (k : event_kind) (l : list TraceEvent)
  : option TraceEvent :=
  match l with
  | [] => None
  | event :: l' =>
      match last_of_kind k l' with
      | Some later => Some later
      | None => if is_kind k event then Some event else None
      end
  end.

(** The time of the last event of kind [k], the default when there is
    none. *)
Definition time_of_last (k : event_kind) (l : list TraceEvent)
  : result Duration.t :=
  match last_of_kind k l with
  | Some event => Duration.from_microseconds (event_dur event)
  | None => Return Duration.default
  end.

(** The exception of the first consumed event whose [dur] does not
    convert. *)
Fixpoint first_error (l : list TraceEvent) : option exn :=
  match l with
  | [] => None
  | event :: l' =>
      if consumed event then
        match Duration.from_microseconds (event_dur event) with
        | Raise e => Some e
        | Return _ => first_error l'
        end
      else first_error l'
  end.

(** *** Vocabulary of the slowest lists *)

(** [top] lists ten of [keys], or all of them when there are at most ten,
    each once. *)
Definition top_ten_of {V : Type} (keys : list string)
  (top : list (string * V)) : Prop :=
  len top = Z.min 10 (len keys) /\
  NoDup (map fst top) /\
  (forall k, In k (map fst top) -> In k keys) /\
  (len keys <= 10 -> forall k, In k keys -> In k (map fst top)).

(** *** Vocabulary of the remaining properties *)

(** The trace built by [add_unit] calls on a new BuildTrace. *)
Definition build_trace (units : list CompilationUnit.t) : BuildTrace.t :=
  fold_left BuildTrace.add_unit units BuildTrace.default.

(** A native object with every attribute of [s] that [from_native] reads,
    the enums as their values. *)
Definition native_of (s : Suggestion.t) : NativeSuggestion.t :=
  NativeSuggestion.NativeSuggestion
    (Some (SuggestionType_value (Suggestion.type s)))
    (Some (Priority.value (Suggestion.priority s)))
    (Some (Suggestion.title s))
    (Some (Suggestion.description s))
    (Some (Suggestion.file_path s))
    (Some (Suggestion.line_number s))
    (Some (Suggestion.estimated_impact_ms s))
    (Some (Confidence.value (Suggestion.confidence s))).

(** [s] with [affected_files] and [code_changes] empty. *)
Definition without_lists (s : Suggestion.t) : Suggestion.t :=
  Suggestion.Suggestion (Suggestion.type s) (Suggestion.priority s)
    (Suggestion.title s) (Suggestion.description s) (Suggestion.file_path s)
    (Suggestion.line_number s) (Suggestion.estimated_impact_ms s)
    (Suggestion.confidence s) [] [].

(** The values of the members of the three enums. *)
Definition is_type_value (v : string) : bool :=
  existsb (String.eqb v)
    ["pch"; "forward_declaration"; "include_optimization";
     "template_optimization"; "header_split"; "pimpl"; "unity_build";
     "module_migration"; "custom"].

Definition is_priority_value (v : Z) : bool := (1 <=? v) && (v <=? 4).

Definition is_confidence_value (v : Z) : bool := (1 <=? v) && (v <=? 3).

(** An optional attribute is absent or holds an accepted value. *)
Definition absent_or {A : Type} (accepted : A -> bool) (v : option A)
  : bool :=
  match v with
  | Some a => accepted a
  | None => true
  end.

(** The items of an exported result a reader starts from. *)
Definition exported_file_count (d : json) : option json :=
  match json_item d "summary" with
  | Some summary => json_item summary "file_count"
  | None => None
  end.

Definition exported_file_paths (d : json) : option (list (option json)) :=
  match json_item d "file_metrics" with
  | Some (JList fms) => Some (map (fun fm => json_item fm "file_path") fms)
  | _ => None
  end.

(** The documents [analyze] parses, in the order it parses them. *)
Definition documents (self : Analyzer.t) : list TraceDocument :=
  map snd (Analyzer._trace_files self) ++ Analyzer._trace_content self.

(** How many events of kind [k] a document has. *)
Definition count_kind (k : event_kind) (data : TraceDocument) : Z :=
  len (filter (is_kind k) (events data)).

(** *** Vocabulary of the stored times *)

(** [ns] is [int(dur * 1000)] with no clamp: for an int [dur] the product
    itself; for a float [dur] the float product [dur * 1000.0] truncated
    toward zero, which is zero or has the sign of [dur]. *)
Definition unclamped (dur : number) (ns : Z) : Prop :=
  match dur with
  | NInt n => ns = 1000 * n
  | NFloat f =>
      Float.to_int (Float.mul f (Float.of_Z 1000)) = Return ns /\
      (if Float.ltb f (Float.of_Z 0) then ns <= 0 else 0 <= ns)
  end.

(** The time [d] is the unclamped [dur] of [event]. *)
Definition stored_time (event : TraceEvent) (d : Duration.t) : Prop :=
  unclamped (event_dur event) (Duration.nanoseconds d).

(** The time [d] is that of the last event of kind [k], and 0 ns when
    there is no such event. *)
Definition stored_last (k : event_kind) (l : list TraceEvent)
  (d : Duration.t) : Prop :=
  match last_of_kind k l with
  | Some event => stored_time event d
  | None => Duration.nanoseconds d = 0
  end.

(** *** Vocabulary of the events without [detail] *)

(** [name == 'InstantiateClass' or name == 'InstantiateFunction'] *)
Definition is_template_event (event : TraceEvent) : bool :=
  let name := get_default (ev_name event) "" in
  String.eqb name "InstantiateClass" || String.eqb name "InstantiateFunction".

(** [name == 'Source'] *)
Definition is_source_event (event : TraceEvent) : bool :=
  String.eqb (get_default (ev_name event) "") "Source".

(** The event has an [args] with a [detail] key. *)
Definition has_detail (event : TraceEvent) : bool :=
  match ev_args event with
  | Some args => Dict.mem args "detail"
  | None => false
  end.

(** The name of the template of a template event: its [detail], and the
    empty string when it has none. *)
Definition template_name_of (event : TraceEvent) : string :=
  match ev_args event with
  | Some args => if Dict.mem args "detail" then Dict.get args "detail" ""
                 else ""
  | None => ""
  end.

(** The template names of the template events of a document, with or
    without [detail], in the order of the document. *)
Definition template_event_names (data : TraceDocument) : list string :=
  map template_name_of (filter is_template_event (events data)).

(** The header paths of the [Source] events that have a [detail]. *)
Definition source_event_paths (data : TraceDocument) : list string :=
  map event_detail
    (filter (fun event => is_source_event event && has_detail event)
       (events data)).

(** * Properties *)

(** ** Loops *)

Lemma bind_Return {A B : Type} (m : result A) (k : A -> result B) (b : B) :
  bind m k = Return b -> exists a, m = Return a /\ k a = Return b.
Proof.
  destruct m as [a|e]; simpl; intros H.
  - exists a. split; [reflexivity | exact H].
  - discriminate.
Qed.

(** A property kept by every iteration that returns holds after the loop. *)
Lemma for_each_invariant {A S : Type} (P : S -> Prop)
  (body : S -> A -> result S) (l : list A) :
  (forall s x s', In x l -> P s -> body s x = Return s' -> P s') ->
  forall s r, P s -> for_each body l s = Return r -> P r.
Proof.
  induction l as [|x l IH]; simpl; intros Hstep s r Hs Hr.
  - injection Hr as <-. exact Hs.
  - apply bind_Return in Hr as (s' & Hx & Hr).
    apply (IH (fun s0 y s1 Hy => Hstep s0 y s1 (or_intror Hy)) s' r); auto.
    apply (Hstep s x s'); auto.
Qed.

(** A loop whose iterations all return does return. *)
Lemma for_each_returns {A S : Type} (P : S -> Prop)
  (body : S -> A -> result S) (l : list A) :
  (forall s x, In x l -> P s -> exists s', body s x = Return s' /\ P s') ->
  forall s, P s -> exists r, for_each body l s = Return r /\ P r.
Proof.
  induction l as [|x l IH]; simpl; intros Hstep s Hs.
  - exists s. auto.
  - destruct (Hstep s x (or_introl eq_refl) Hs) as (s' & -> & Hs'). simpl.
    apply IH; auto.
Qed.

Lemma for_each_app {A S : Type} (body : S -> A -> result S)
  (l1 l2 : list A) (s : S) :
  for_each body (l1 ++ l2) s =
  (s' <- for_each body l1 s ;; for_each body l2 s').
Proof.
  revert s. induction l1 as [|x l1 IH]; simpl; intros s.
  - reflexivity.
  - destruct (body s x) as [s'|e]; simpl; [apply IH | reflexivity].
Qed.

(** ** Duration *)

Lemma Duration_sub_nanoseconds (a b : Duration.t) :
  Duration.nanoseconds (Duration.__sub__ a b) =
  Duration.nanoseconds a - Duration.nanoseconds b.
Proof. reflexivity. Qed.

(** C5, as stated, fails: [Duration(1) - Duration(2)] is [Duration(-1)],
    which is negative and is not the zero the claim promises. *)
Lemma C5_sub_goes_negative :
  Duration.__gt__ (Duration.Duration 2) (Duration.Duration 1) = true /\
  Duration.__sub__ (Duration.Duration 1) (Duration.Duration 2) =
    Duration.Duration (-1) /\
  ~ 0 <= Duration.nanoseconds
          (Duration.__sub__ (Duration.Duration 1) (Duration.Duration 2)).
Proof.
  split; [reflexivity | split; [reflexivity | simpl; lia]].
Qed.

(** C5, amended: [a - b] is the plain integer difference of the nanosecond
    values; it is non-negative exactly when [b <= a], and negative (not
    clamped) when [b > a]. *)
Theorem C5_sub_is_plain_difference (a b : Duration.t) :
  Duration.nanoseconds (Duration.__sub__ a b) =
    Duration.nanoseconds a - Duration.nanoseconds b /\
  (0 <= Duration.nanoseconds (Duration.__sub__ a b) <->
     Duration.__le__ b a = true) /\
  (Duration.nanoseconds (Duration.__sub__ a b) < 0 <->
     Duration.__gt__ b a = true).
Proof.
  rewrite Duration_sub_nanoseconds. unfold Duration.__le__, Duration.__gt__.
  rewrite Z.leb_le, Z.gtb_ltb, Z.ltb_lt. lia.
Qed.

(** ** The parser *)

(** Every case of [from_json_event] leaves [compiler] alone. *)
Lemma from_json_event_compiler (unit unit' : CompilationUnit.t)
  (event : TraceEvent) :
  CompilationUnit.from_json_event unit event = Return unit' ->
  CompilationUnit.compiler unit' = CompilationUnit.compiler unit.
Proof.
  unfold CompilationUnit.from_json_event. intros H.
  repeat match type of H with
         | (if ?c then _ else _) = _ => destruct c
         | bind _ _ = _ => apply bind_Return in H as (? & _ & H)
         end;
    injection H as <-; reflexivity.
Qed.

(** C4, as stated, fails: a document whose [traceEvents] array is consumed
    parses to a unit whose compiler is [UNKNOWN], not [CLANG]. *)
Lemma C4_compiler_not_clang :
  exists u,
    CompilationUnit.from_json
      {| traceEvents :=
           Some [ {| ev_name := Some "Total ExecuteCompiler";
                     ev_dur := Some (NInt 2000000);
                     ev_args := None |} ] |}
      "main.cpp" = Return u /\
    CompilationUnit.compiler u = UNKNOWN /\
    CompilationUnit.compiler u <> CLANG.
Proof.
  eexists. split; [reflexivity | split; [reflexivity | discriminate]].
Qed.

(** C4, amended: [from_json] never assigns [compiler]; every unit it
    returns has the default, [UNKNOWN]. *)
Theorem C4_compiler_stays_unknown (data : TraceDocument) (source_hint : string)
  (u : CompilationUnit.t) :
  CompilationUnit.from_json data source_hint = Return u ->
  CompilationUnit.compiler u = UNKNOWN.
Proof.
  unfold CompilationUnit.from_json.
  apply (for_each_invariant
           (fun u0 => CompilationUnit.compiler u0 = UNKNOWN)).
  - intros s x s' _ Hs Hx. rewrite <- Hs.
    apply (from_json_event_compiler _ _ _ Hx).
  - reflexivity.
Qed.

(** A document with one [Source] event parses to a unit with compiler
    [UNKNOWN]. *)
Lemma C4_compiler_stays_unknown_witness :
  CompilationUnit.compiler
    (CompilationUnit.append_include (CompilationUnit.make "main.cpp")
       (IncludeInfo.make "vector" (Duration.Duration 100000000))) = UNKNOWN.
Proof.
  apply (C4_compiler_stays_unknown
           {| traceEvents :=
                Some [ {| ev_name := Some "Source";
                          ev_dur := Some (NInt 100000);
                          ev_args := Some [("detail", "vector")] |} ] |}
           "main.cpp").
  reflexivity.
Defined.

(** *** The effect of one event, and of the loop *)

(** [from_json_event] by the kind of the event. *)
Lemma from_json_event_by_kind (unit : CompilationUnit.t)
  (event : TraceEvent) :
  CompilationUnit.from_json_event unit event =
  match kind_of event with
  | KTotal =>
      d <- Duration.from_microseconds (event_dur event) ;;
      Return (CompilationUnit.set_total_time unit d)
  | KFrontend =>
      d <- Duration.from_microseconds (event_dur event) ;;
      Return (CompilationUnit.set_frontend_time unit d)
  | KBackend =>
      d <- Duration.from_microseconds (event_dur event) ;;
      Return (CompilationUnit.set_backend_time unit d)
  | KSource =>
      d <- Duration.from_microseconds (event_dur event) ;;
      Return (CompilationUnit.append_include unit
                (IncludeInfo.make (event_detail event) d))
  | KTemplate =>
      d <- Duration.from_microseconds (event_dur event) ;;
      Return (CompilationUnit.append_template unit
                (TemplateInstantiation.make (event_detail event) d))
  | KIgnored => Return unit
  end.
Proof.
  unfold CompilationUnit.from_json_event, kind_of, event_dur, event_detail.
  repeat match goal with
         | |- context [if ?c then _ else _] => destruct c
         end; reflexivity.
Qed.

Lemma for_each_filter {A S : Type} (body : S -> A -> result S)
  (keep : A -> bool) (l : list A) :
  (forall s x, keep x = false -> body s x = Return s) ->
  forall s, for_each body (filter keep l) s = for_each body l s.
Proof.
  intros Hskip. induction l as [|x l IH]; simpl; intros s; [reflexivity|].
  destruct (keep x) eqn:Hx; simpl.
  - destruct (body s x); simpl; [apply IH | reflexivity].
  - rewrite (Hskip s x Hx). simpl. apply IH.
Qed.

(** What one event does to the two lists and to the three times. *)
Lemma from_json_event_effect (unit unit' : CompilationUnit.t)
  (event : TraceEvent) :
  CompilationUnit.from_json_event unit event = Return unit' ->
  CompilationUnit.source_file unit' = CompilationUnit.source_file unit /\
  CompilationUnit.symbols unit' = CompilationUnit.symbols unit /\
  (exists incs,
     CompilationUnit.includes unit' = CompilationUnit.includes unit ++ incs /\
     Forall2 include_of (filter (is_kind KSource) [event]) incs) /\
  (exists tmpls,
     CompilationUnit.templates unit' =
       CompilationUnit.templates unit ++ tmpls /\
     Forall2 template_of (filter (is_kind KTemplate) [event]) tmpls) /\
  Return (CompilationUnit.total_time unit') =
    (if is_kind KTotal event
     then Duration.from_microseconds (event_dur event)
     else Return (CompilationUnit.total_time unit)) /\
  Return (CompilationUnit.frontend_time unit') =
    (if is_kind KFrontend event
     then Duration.from_microseconds (event_dur event)
     else Return (CompilationUnit.frontend_time unit)) /\
  Return (CompilationUnit.backend_time unit') =
    (if is_kind KBackend event
     then Duration.from_microseconds (event_dur event)
     else Return (CompilationUnit.backend_time unit)).
Proof.
  rewrite from_json_event_by_kind. unfold is_kind. simpl filter.
  destruct (kind_of event); simpl; intros H;
    try (apply bind_Return in H as (d & Hd & H));
    injection H as <-; simpl;
    (split; [reflexivity|]); (split; [reflexivity|]);
    repeat split; try (symmetry; assumption).
  all: try (exists []; split; [symmetry; apply app_nil_r | constructor]).
  - eexists. split; [reflexivity|].
    constructor; [|constructor]. exists d. auto.
  - eexists. split; [reflexivity|].
    constructor; [|constructor]. exists d. auto.
Qed.

Lemma last_event_wins (k : event_kind)
  (field : CompilationUnit.t -> Duration.t) :
  (forall unit unit' event,
     CompilationUnit.from_json_event unit event = Return unit' ->
     Return (field unit') =
       (if is_kind k event
        then Duration.from_microseconds (event_dur event)
        else Return (field unit))) ->
  forall l unit unit',
    for_each CompilationUnit.from_json_event l unit = Return unit' ->
    Return (field unit') =
      match last_of_kind k l with
      | Some event => Duration.from_microseconds (event_dur event)
      | None => Return (field unit)
      end.
Proof.
  intros Hstep. induction l as [|event l IH]; simpl; intros unit unit' H.
  - injection H as <-. reflexivity.
  - apply bind_Return in H as (unit1 & H1 & H).
    rewrite (IH _ _ H). destruct (last_of_kind k l); [reflexivity|].
    rewrite (Hstep _ _ _ H1). destruct (is_kind k event); reflexivity.
Qed.

Lemma parse_loop_lists (l : list TraceEvent) :
  forall unit unit',
    for_each CompilationUnit.from_json_event l unit = Return unit' ->
    CompilationUnit.source_file unit' = CompilationUnit.source_file unit /\
    CompilationUnit.symbols unit' = CompilationUnit.symbols unit /\
    (exists incs,
       CompilationUnit.includes unit' =
         CompilationUnit.includes unit ++ incs /\
       Forall2 include_of (filter (is_kind KSource) l) incs) /\
    (exists tmpls,
       CompilationUnit.templates unit' =
         CompilationUnit.templates unit ++ tmpls /\
       Forall2 template_of (filter (is_kind KTemplate) l) tmpls).
Proof.
  induction l as [|event l IH]; cbn [for_each]; intros unit unit' H.
  - injection H as <-. repeat split;
      (exists []; split; [symmetry; apply app_nil_r | constructor]).
  - apply bind_Return in H as (unit1 & H1 & H).
    apply from_json_event_effect in H1
      as (Hs1 & Hy1 & (incs1 & Hi1 & Hf1) & (tmpls1 & Ht1 & Hg1) & _).
    apply IH in H as (Hs & Hy & (incs & Hi & Hf) & (tmpls & Ht & Hg)).
    split; [congruence|]. split; [congruence|]. split.
    + exists (incs1 ++ incs). split.
      * rewrite Hi, Hi1, app_assoc. reflexivity.
      * change (filter (is_kind KSource) (event :: l))
          with (filter (is_kind KSource) ([event] ++ l)).
        rewrite filter_app. apply Forall2_app; assumption.
    + exists (tmpls1 ++ tmpls). split.
      * rewrite Ht, Ht1, app_assoc. reflexivity.
      * change (filter (is_kind KTemplate) (event :: l))
          with (filter (is_kind KTemplate) ([event] ++ l)).
        rewrite filter_app. apply Forall2_app; assumption.
Qed.

(** *** Times and the sign of [dur] *)

(** Rounding keeps the sign it is given. *)
Lemma binary_round_aux_sign (sx : bool) (mx ex : Z) (lx : location) :
  let r := binary_round_aux Float.prec Float.emax sx mx ex lx in
  r = S754_zero sx \/ r = S754_infinity sx \/ r = S754_nan \/
  exists m e, r = S754_finite sx m e.
Proof.
  unfold binary_round_aux.
  destruct (shr_fexp Float.prec Float.emax mx ex lx) as [mrs' e'].
  destruct (shr_fexp Float.prec Float.emax _ e' loc_Exact) as [mrs'' e''].
  destruct (shr_m mrs'') as [|m|m]; simpl.
  - left. reflexivity.
  - match goal with |- context [if ?c then _ else _] => destruct c end.
    + right. right. right. exists m, e''. reflexivity.
    + right. left. reflexivity.
  - right. right. left. reflexivity.
Qed.

Lemma Float_to_int_positive (m : positive) (e a : Z) :
  Float.to_int (S754_finite false m e) = Return a -> 0 <= a.
Proof.
  simpl. intros H. injection H as <-.
  destruct (0 <=? e) eqn:He.
  - apply Z.shiftl_nonneg. lia.
  - apply Z.shiftr_nonneg. lia.
Qed.

(** [int(f * 1000)] is not negative unless [f < 0]. *)
Lemma Float_scaled_nonneg (f : Float.float) (ns : Z) :
  Float.ltb f (Float.of_Z 0) = false ->
  Float.to_int (Float.mul f (Float.of_Z 1000)) = Return ns ->
  0 <= ns.
Proof.
  intros Hsign.
  change (Float.of_Z 1000)
    with (S754_finite false 8796093022208000 (-43)).
  destruct f as [s|s| |s m e]; simpl; try discriminate.
  - intros H. injection H as <-. lia.
  - destruct s; [discriminate Hsign|].
    unfold Float.mul, SFmul. simpl xorb.
    destruct (binary_round_aux_sign false
                (Zpos (m * 8796093022208000)) (e + -43) loc_Exact)
      as [-> | [-> | [-> | (m' & e' & ->)]]]; try discriminate.
    + simpl. intros H. injection H as <-. lia.
    + apply Float_to_int_positive.
Qed.

Lemma from_microseconds_nonneg (us : number) (d : Duration.t) :
  dur_negative us = false ->
  Duration.from_microseconds us = Return d ->
  0 <= Duration.nanoseconds d.
Proof.
  destruct us as [z|f]; simpl; intros Hsign H.
  - injection H as <-. simpl. apply Z.ltb_ge in Hsign. lia.
  - apply bind_Return in H as (ns & Hns & H). injection H as <-. simpl.
    apply (Float_scaled_nonneg f); assumption.
Qed.

Lemma from_microseconds_int (us : number) :
  is_int us = true -> exists d, Duration.from_microseconds us = Return d.
Proof.
  destruct us as [z|f]; simpl; intros H; [|discriminate].
  eexists. reflexivity.
Qed.

Lemma from_json_event_nonneg (unit unit' : CompilationUnit.t)
  (event : TraceEvent) :
  dur_negative (event_dur event) = false ->
  times_nonneg unit ->
  CompilationUnit.from_json_event unit event = Return unit' ->
  times_nonneg unit'.
Proof.
  unfold CompilationUnit.from_json_event. fold (event_dur event).
  intros Hsign (Ht & Hf & Hb & Hi & Hm) H.
  repeat match type of H with
         | (if ?c then _ else _) = _ => destruct c
         | bind _ _ = _ =>
             let d := fresh "d" in
             let Hd := fresh "Hd" in
             apply bind_Return in H as (d & Hd & H);
             apply (from_microseconds_nonneg _ _ Hsign) in Hd
         end;
    injection H as <-; unfold times_nonneg; simpl;
    repeat split; try assumption;
    apply Forall_app; split; try assumption;
    constructor; first [exact Hd | constructor].
Qed.

Lemma from_json_event_int (unit : CompilationUnit.t) (event : TraceEvent) :
  is_int (event_dur event) = true ->
  exists unit', CompilationUnit.from_json_event unit event = Return unit'.
Proof.
  unfold CompilationUnit.from_json_event. fold (event_dur event).
  intros Hint. destruct (from_microseconds_int _ Hint) as (d & ->). simpl.
  repeat match goal with
         | |- context [if ?c then _ else _] => destruct c
         end; eauto.
Qed.

(** C6, as stated, fails: negative [dur] values are not clamped. An int
    [dur] of -5 is stored as -5000 ns and a float [dur] of -2.5 (computed
    here as -5 / 2) as -2500 ns. *)
Lemma C6_negative_dur_is_stored :
  exists u,
    CompilationUnit.from_json
      {| traceEvents :=
           Some [ {| ev_name := Some "Total ExecuteCompiler";
                     ev_dur := Some (NInt (-5));
                     ev_args := None |};
                  {| ev_name := Some "Source";
                     ev_dur := Some (NFloat (Float.div (Float.of_Z (-5))
                                               (Float.of_Z 2)));
                     ev_args := Some [("detail", "a.h")] |} ] |}
      "main.cpp" = Return u /\
    CompilationUnit.total_time u = Duration.Duration (-5000) /\
    map IncludeInfo.include_time (CompilationUnit.includes u) =
      [Duration.Duration (-2500)] /\
    ~ times_nonneg u.
Proof.
  eexists. split; [reflexivity|]. split; [reflexivity|].
  split; [reflexivity|].
  intros (Ht & _). simpl in Ht. lia.
Qed.

Lemma Float_to_int_negative (m : positive) (e a : Z) :
  Float.to_int (S754_finite true m e) = Return a -> a <= 0.
Proof.
  simpl. intros H. injection H as <-.
  destruct (0 <=? e) eqn:He.
  - pose proof (Z.shiftl_nonneg (Zpos m) e). lia.
  - pose proof (Z.shiftr_nonneg (Zpos m) (- e)). lia.
Qed.

(** [int(f * 1000)] is not positive when [f < 0]. *)
Lemma Float_scaled_nonpos (f : Float.float) (ns : Z) :
  Float.ltb f (Float.of_Z 0) = true ->
  Float.to_int (Float.mul f (Float.of_Z 1000)) = Return ns ->
  ns <= 0.
Proof.
  intros Hsign.
  change (Float.of_Z 1000)
    with (S754_finite false 8796093022208000 (-43)).
  destruct f as [s|s| |s m e]; simpl; try discriminate.
  destruct s; [|discriminate Hsign].
  simpl xorb.
  destruct (binary_round_aux_sign true
              (Zpos (m * 8796093022208000)) (e + -43) loc_Exact)
    as [-> | [-> | [-> | (m' & e' & ->)]]]; try discriminate.
  - simpl. intros H. injection H as <-. lia.
  - apply Float_to_int_negative.
Qed.

(** [int(x * 1000)] is the product, whatever its sign. *)
Lemma int_of_scaled_unclamped (x : number) (ns : Z) :
  int_of_scaled x 1000 = Return ns -> unclamped x ns.
Proof.
  unfold int_of_scaled, unclamped.
  destruct x as [z|f]; intros H.
  - injection H as <-. lia.
  - split; [exact H|].
    destruct (Float.ltb f (Float.of_Z 0)) eqn:Hs.
    + apply (Float_scaled_nonpos f); assumption.
    + apply (Float_scaled_nonneg f); assumption.
Qed.

Lemma stored_last_of (k : event_kind) (l : list TraceEvent)
  (d d0 : Duration.t) :
  (forall event,
     Duration.from_microseconds (event_dur event) = Return d ->
     stored_time event d) ->
  Return d =
    match last_of_kind k l with
    | Some event => Duration.from_microseconds (event_dur event)
    | None => Return d0
    end ->
  Duration.nanoseconds d0 = 0 ->
  stored_last k l d.
Proof.
  unfold stored_last.
  destruct (last_of_kind k l) as [event|]; intros Hstored H H0.
  - apply Hstored. symmetry. exact H.
  - injection H as ->. exact H0.
Qed.

(** A float [dur] of -0.0001 (computed here as -1 / 10000) is negative and
    is stored as 0 ns: the product, about -0.1, truncates to zero. *)
Example small_negative_dur_stores_zero :
  dur_negative (NFloat (Float.div (Float.of_Z (-1)) (Float.of_Z 10000)))
    = true /\
  Duration.from_microseconds
    (NFloat (Float.div (Float.of_Z (-1)) (Float.of_Z 10000)))
    = Return (Duration.Duration 0).
Proof. split; reflexivity. Qed.

(** C6, amended: the parser does not clamp. Every stored time of a parsed
    unit is [int(dur * 1000)] nanoseconds of the event it comes from:
    [total_time], [frontend_time] and [backend_time] of the last event of
    that name (0 ns when there is none), each [include_time] of its
    [Source] event and each [instantiation_time] of its template event,
    in the order of the document. For an int [dur] of n that is exactly
    1000 n, negative when n is; for a float [dur] it is the float product
    truncated toward zero, at most 0 for a negative [dur] and at least 0
    otherwise. So when no event of the document has a negative [dur],
    every stored time is non-negative. *)
Theorem C6_stored_times_not_clamped (data : TraceDocument)
  (source_hint : string) (u : CompilationUnit.t) :
  CompilationUnit.from_json data source_hint = Return u ->
  stored_last KTotal (events data) (CompilationUnit.total_time u) /\
  stored_last KFrontend (events data) (CompilationUnit.frontend_time u) /\
  stored_last KBackend (events data) (CompilationUnit.backend_time u) /\
  Forall2 (fun event inc => stored_time event (IncludeInfo.include_time inc))
    (filter (is_kind KSource) (events data)) (CompilationUnit.includes u) /\
  Forall2 (fun event tmpl =>
             stored_time event
               (TemplateInstantiation.instantiation_time tmpl))
    (filter (is_kind KTemplate) (events data))
    (CompilationUnit.templates u) /\
  ((forall event, In event (events data) ->
      dur_negative (event_dur event) = false) ->
   times_nonneg u).
Proof.
  assert (Hstored : forall event d,
             Duration.from_microseconds (event_dur event) = Return d ->
             stored_time event d).
  { intros event d Hd. unfold Duration.from_microseconds in Hd.
    apply bind_Return in Hd as (ns & Hns & Hd). injection Hd as <-.
    apply int_of_scaled_unclamped, Hns. }
  unfold CompilationUnit.from_json. fold (events data). intros H.
  split; [|split; [|split; [|split; [|split]]]].
  - apply (stored_last_of _ _ _ Duration.default);
      [intros event; apply Hstored | | reflexivity].
    apply (last_event_wins KTotal CompilationUnit.total_time) in H;
      [exact H|].
    intros unit unit' event Hev.
    apply from_json_event_effect in Hev. tauto.
  - apply (stored_last_of _ _ _ Duration.default);
      [intros event; apply Hstored | | reflexivity].
    apply (last_event_wins KFrontend CompilationUnit.frontend_time) in H;
      [exact H|].
    intros unit unit' event Hev.
    apply from_json_event_effect in Hev. tauto.
  - apply (stored_last_of _ _ _ Duration.default);
      [intros event; apply Hstored | | reflexivity].
    apply (last_event_wins KBackend CompilationUnit.backend_time) in H;
      [exact H|].
    intros unit unit' event Hev.
    apply from_json_event_effect in Hev. tauto.
  - apply parse_loop_lists in H as (_ & _ & (incs & Hi & Hf) & _).
    simpl in Hi. subst incs. revert Hf. apply Forall2_impl.
    intros event inc (d & Hd & ->). apply Hstored, Hd.
  - apply parse_loop_lists in H as (_ & _ & _ & (tmpls & Ht & Hg)).
    simpl in Ht. subst tmpls. revert Hg. apply Forall2_impl.
    intros event tmpl (d & Hd & ->). apply Hstored, Hd.
  - intros Hsign. revert H.
    apply (for_each_invariant times_nonneg).
    + intros s x s' Hin. apply from_json_event_nonneg. auto.
    + unfold times_nonneg. simpl. repeat split; (lia || constructor).
Qed.

(** A document with a [dur] of -5 parses to a total time of 1000 times -5
    nanoseconds; a document with two non-negative int [dur] values parses
    to non-negative times. *)
Lemma C6_stored_times_not_clamped_witness :
  Duration.nanoseconds
    (CompilationUnit.total_time
       (CompilationUnit.CompilationUnit "main.cpp" UNKNOWN
          (Duration.Duration (-5000)) Duration.default Duration.default
          [IncludeInfo.make "iostream" (Duration.Duration 100000000)]
          [] [])) = 1000 * (-5) /\
  times_nonneg
    (CompilationUnit.CompilationUnit "main.cpp" UNKNOWN
       (Duration.Duration 2000000000) Duration.default Duration.default
       [IncludeInfo.make "iostream" (Duration.Duration 100000000)] [] []).
Proof.
  split.
  - apply (C6_stored_times_not_clamped
             {| traceEvents :=
                  Some [ {| ev_name := Some "Total ExecuteCompiler";
                            ev_dur := Some (NInt (-5));
                            ev_args := None |};
                         {| ev_name := Some "Source";
                            ev_dur := Some (NInt 100000);
                            ev_args := Some [("detail", "iostream")] |} ]
             |} "main.cpp").
    reflexivity.
  - apply (C6_stored_times_not_clamped
             {| traceEvents :=
                  Some [ {| ev_name := Some "Total ExecuteCompiler";
                            ev_dur := Some (NInt 2000000);
                            ev_args := None |};
                         {| ev_name := Some "Source";
                            ev_dur := Some (NInt 100000);
                            ev_args := Some [("detail", "iostream")] |} ]
             |} "main.cpp").
    + reflexivity.
    + simpl. intros event [<- | [<- | []]]; reflexivity.
Defined.

(** ** Integers in the range of floats *)

Lemma digits2_iter_xO (m d : positive) :
  digits2_pos (Pos.iter xO m d) = (digits2_pos m + d)%positive.
Proof.
  induction d as [|d IH] using Pos.peano_ind.
  - simpl. lia.
  - rewrite Pos.iter_succ. simpl. rewrite IH. lia.
Qed.

Lemma digits2_size (m : positive) : digits2_pos m = Pos.size m.
Proof. induction m; simpl; congruence. Qed.

Lemma digits2_small (m : positive) :
  Zpos m < 2 ^ 53 -> Zpos (digits2_pos m) <= 53.
Proof.
  intros H. rewrite digits2_size.
  pose proof (Pos.size_le m) as Hle.
  assert (Hpow : (2 ^ Pos.size m <= m~0)%positive) by exact Hle.
  apply Pos2Z.pos_le_pos in Hpow. rewrite Pos2Z.inj_pow in Hpow.
  rewrite Pos2Z.inj_xO in Hpow.
  destruct (Z.le_gt_cases (Zpos (Pos.size m)) 53) as [|Hgt]; [assumption|].
  assert (2 ^ 54 <= 2 ^ Zpos (Pos.size m)) by (apply Z.pow_le_mono_r; lia).
  change (2 ^ 54) with (2 * 2 ^ 53) in H0. lia.
Qed.

Lemma shr_fexp_canonical (m : positive) (e : Z) :
  fexp Float.prec Float.emax (Zpos (digits2_pos m) + e) = e ->
  shr_fexp Float.prec Float.emax (Zpos m) e loc_Exact =
  ({| shr_m := Zpos m; shr_r := false; shr_s := false |}, e).
Proof.
  intros H. unfold shr_fexp. cbn [Zdigits2]. rewrite H, Z.sub_diag.
  reflexivity.
Qed.

Lemma binary_round_aux_canonical (s : bool) (m : positive) (e : Z) :
  fexp Float.prec Float.emax (Zpos (digits2_pos m) + e) = e ->
  e <= 971 ->
  binary_round_aux Float.prec Float.emax s (Zpos m) e loc_Exact =
  S754_finite s m e.
Proof.
  intros H He. unfold binary_round_aux.
  rewrite (shr_fexp_canonical m e H).
  cbn [shr_m loc_of_shr_record round_nearest_even].
  rewrite (shr_fexp_canonical m e H). cbn [shr_m].
  change (Float.emax - Float.prec) with 971.
  apply Z.leb_le in He. rewrite He. reflexivity.
Qed.

Lemma binary_round_small (s : bool) (m : positive) :
  Zpos (digits2_pos m) <= 53 ->
  exists m' e', binary_round Float.prec Float.emax s m 0 = S754_finite s m' e'.
Proof.
  intros Hd. unfold binary_round, shl_align.
  assert (Hf : fexp Float.prec Float.emax (Zpos (digits2_pos m) + 0)
               = Zpos (digits2_pos m) - 53).
  { unfold fexp, emin, Float.prec, Float.emax. lia. }
  rewrite Hf.
  destruct (Zpos (digits2_pos m) - 53 - 0) as [|p|p] eqn:Hsub; try lia.
  - exists m, 0. apply binary_round_aux_canonical; [|lia].
    rewrite Hf. lia.
  - exists (Pos.iter xO m p), (Zpos (digits2_pos m) - 53).
    apply binary_round_aux_canonical; [|lia].
    rewrite digits2_iter_xO. unfold fexp, emin, Float.prec, Float.emax. lia.
Qed.

Lemma of_int_small (z : Z) :
  Z.abs z < 2 ^ 53 -> exists f, Float.of_int z = Return f.
Proof.
  intros Hz. unfold Float.of_int, Float.of_Z, binary_normalize.
  destruct z as [|m|m].
  - eauto.
  - destruct (binary_round_small false m) as (m' & e' & ->); [|eauto].
    apply digits2_small. exact Hz.
  - destruct (binary_round_small true m) as (m' & e' & ->); [|eauto].
    apply digits2_small. exact Hz.
Qed.

Lemma in_range_convertible (d : Duration.t) : in_range d -> convertible d.
Proof.
  unfold in_range, convertible, Duration.milliseconds. intros H.
  destruct (of_int_small _ H) as (f & ->). simpl. eauto.
Qed.

Lemma unit_in_range_convertible (u : CompilationUnit.t) :
  unit_in_range u -> unit_convertible u.
Proof.
  intros (Ht & Hi & Hm). split; [|split].
  - apply in_range_convertible, Ht.
  - apply (Forall_impl _ (P := fun inc =>
                                 in_range (IncludeInfo.include_time inc)));
      [|exact Hi].
    intros inc. apply in_range_convertible.
  - apply (Forall_impl _ (P := fun tmpl =>
                                 in_range
                                   (TemplateInstantiation.instantiation_time
                                      tmpl))); [|exact Hm].
    intros tmpl. apply in_range_convertible.
Qed.

(** ** The aggregator's loop *)

Lemma tally_counts (st st' : Dict.dict Z * Dict.dict Float.float)
  (entry : string * Duration.t) :
  AnalysisResult.tally st entry = Return st' ->
  fst st' = bump (fst st) (fst entry).
Proof.
  destruct st as [counts times], entry as [key time]. simpl. intros H.
  apply bind_Return in H as (ms & _ & H). injection H as <-. reflexivity.
Qed.

Lemma for_each_tally_counts (entries : list (string * Duration.t)) :
  forall st st',
    for_each AnalysisResult.tally entries st = Return st' ->
    fst st' = fold_left bump (map fst entries) (fst st).
Proof.
  induction entries as [|entry entries IH]; simpl; intros st st' H.
  - injection H as <-. reflexivity.
  - apply bind_Return in H as (st1 & H1 & H).
    rewrite (IH _ _ H), (tally_counts _ _ _ H1). reflexivity.
Qed.

Lemma for_each_tally_returns (entries : list (string * Duration.t)) :
  Forall (fun entry => convertible (snd entry)) entries ->
  forall st, exists st', for_each AnalysisResult.tally entries st = Return st'.
Proof.
  induction 1 as [|[key time] entries (ms & Hms) _ IH]; simpl; intros st.
  - eauto.
  - destruct st as [counts times]. simpl in *. rewrite Hms. simpl. apply IH.
Qed.

(** What one iteration of [for unit in units] does to the locals. *)
Lemma add_unit_spec (st st' : AnalysisResult.locals)
  (unit : CompilationUnit.t) :
  AnalysisResult.add_unit st unit = Return st' ->
  AnalysisResult.total st' =
    Duration.__add__ (AnalysisResult.total st)
      (CompilationUnit.total_time unit) /\
  (exists fm, metric_of unit fm /\
              AnalysisResult.metrics st' = AnalysisResult.metrics st ++ [fm]) /\
  AnalysisResult.include_counts st' =
    fold_left bump
      (map IncludeInfo.header_path (CompilationUnit.includes unit))
      (AnalysisResult.include_counts st) /\
  AnalysisResult.template_counts st' =
    fold_left bump
      (map TemplateInstantiation.template_name
         (CompilationUnit.templates unit))
      (AnalysisResult.template_counts st).
Proof.
  unfold AnalysisResult.add_unit. intros H.
  apply bind_Return in H as (ms & Hms & H).
  apply bind_Return in H as (inc & Hinc & H).
  apply bind_Return in H as (tmpl & Htmpl & H).
  injection H as <-. simpl.
  apply for_each_tally_counts in Hinc, Htmpl.
  rewrite map_map in Hinc, Htmpl. simpl in Hinc, Htmpl.
  repeat split; try assumption.
  eexists. split; [|reflexivity]. split; [exact Hms | reflexivity].
Qed.

Lemma add_unit_returns (st : AnalysisResult.locals)
  (unit : CompilationUnit.t) :
  unit_convertible unit ->
  exists st', AnalysisResult.add_unit st unit = Return st'.
Proof.
  intros ((ms & Hms) & Hinc & Htmpl). unfold AnalysisResult.add_unit.
  rewrite Hms. simpl.
  destruct (for_each_tally_returns
              (map AnalysisResult.include_entry
                 (CompilationUnit.includes unit)))
    with (st := (AnalysisResult.include_counts st,
                 AnalysisResult.include_times st)) as (inc & ->).
  { rewrite Forall_map. exact Hinc. }
  simpl.
  destruct (for_each_tally_returns
              (map AnalysisResult.template_entry
                 (CompilationUnit.templates unit)))
    with (st := (AnalysisResult.template_counts st,
                 AnalysisResult.template_times st)) as (tmpl & ->).
  { rewrite Forall_map. exact Htmpl. }
  simpl. eauto.
Qed.

(** The locals after the whole loop. *)
Lemma units_loop_spec (units : list CompilationUnit.t) :
  forall st st',
    for_each AnalysisResult.add_unit units st = Return st' ->
    Duration.nanoseconds (AnalysisResult.total st') =
      Duration.nanoseconds (AnalysisResult.total st) +
      fold_right Z.add 0
        (map (fun u => Duration.nanoseconds (CompilationUnit.total_time u))
           units) /\
    (exists fms, Forall2 metric_of units fms /\
                 AnalysisResult.metrics st' = AnalysisResult.metrics st ++ fms)
    /\
    AnalysisResult.include_counts st' =
      fold_left bump (all_header_paths units)
        (AnalysisResult.include_counts st) /\
    AnalysisResult.template_counts st' =
      fold_left bump (all_template_names units)
        (AnalysisResult.template_counts st).
Proof.
  induction units as [|u units IH]; simpl; intros st st' H.
  - injection H as <-. repeat split; try lia.
    exists []. split; [constructor | symmetry; apply app_nil_r].
  - apply bind_Return in H as (st1 & H1 & H).
    apply add_unit_spec in H1 as (Ht & (fm & Hfm & Hm) & Hi & Hn).
    apply IH in H as (Ht' & (fms & Hfms & Hm') & Hi' & Hn').
    rewrite Ht', Ht, Hm', Hm, Hi', Hi, Hn', Hn, !fold_left_app. simpl.
    repeat split; try lia.
    exists (fm :: fms). split; [constructor; assumption|].
    rewrite <- app_assoc. reflexivity.
Qed.

Lemma units_loop_returns (units : list CompilationUnit.t) :
  Forall unit_convertible units ->
  forall st, exists st',
    for_each AnalysisResult.add_unit units st = Return st'.
Proof.
  induction 1 as [|u units Hu _ IH]; simpl; intros st.
  - eauto.
  - destruct (add_unit_returns st u Hu) as (st1 & ->). simpl. apply IH.
Qed.

(** ** Counting with a dict *)

Lemma fold_left_add (xs : list Z) (a : Z) :
  fold_left Z.add xs a = a + sum xs.
Proof.
  unfold sum. revert a. induction xs as [|x xs IH]; simpl; intros a.
  - lia.
  - rewrite (IH (a + x)), (IH x). lia.
Qed.

Lemma sum_cons (x : Z) (xs : list Z) : sum (x :: xs) = x + sum xs.
Proof. unfold sum at 1. simpl. apply fold_left_add. Qed.

Lemma sum_values_bump (d : Dict.dict Z) (k : string) :
  sum (Dict.values (bump d k)) = sum (Dict.values d) + 1.
Proof.
  unfold bump, Dict.values.
  induction d as [|[k' v] d IH]; simpl.
  - reflexivity.
  - destruct (String.eqb k k'); simpl; rewrite !sum_cons.
    + lia.
    + rewrite IH. lia.
Qed.

Lemma sum_values_counting (l : list string) (d : Dict.dict Z) :
  sum (Dict.values (fold_left bump l d)) = sum (Dict.values d) + len l.
Proof.
  revert d. induction l as [|k l IH]; intros d.
  - simpl. unfold len. simpl. lia.
  - simpl fold_left. rewrite IH, sum_values_bump. unfold len.
    cbn [List.length]. lia.
Qed.

Lemma first_seen_In (l : list string) (x : string) :
  In x (first_seen l) <-> In x l.
Proof.
  induction l as [|y l IH]; simpl; [tauto|].
  rewrite filter_In, IH, negb_true_iff, String.eqb_neq.
  destruct (string_dec y x); [subst; tauto|]. split.
  - tauto.
  - intros [H | H]; [contradiction | right; split; congruence].
Qed.

Lemma first_seen_NoDup (l : list string) : NoDup (first_seen l).
Proof.
  induction l as [|y l IH]; simpl; constructor.
  - rewrite filter_In, String.eqb_refl. simpl. intros [_ H]. discriminate.
  - apply NoDup_filter, IH.
Qed.

Lemma first_seen_length (l : list string) :
  (List.length (first_seen l) <= List.length l)%nat.
Proof.
  induction l as [|y l IH]; simpl; [lia|].
  pose proof (filter_length_le (fun z => negb (String.eqb z y))
                (first_seen l)). lia.
Qed.

Lemma first_seen_snoc (l : list string) (k : string) :
  first_seen (l ++ [k]) =
  first_seen l ++ (if in_dec string_dec k l then [] else [k]).
Proof.
  induction l as [|y l IH]; simpl.
  - reflexivity.
  - rewrite IH, filter_app. f_equal. f_equal.
    destruct (string_dec y k) as [->|Hne].
    + destruct (in_dec string_dec k l); simpl; [reflexivity|].
      rewrite String.eqb_refl. reflexivity.
    + destruct (in_dec string_dec k l); simpl; [reflexivity|].
      apply not_eq_sym, String.eqb_neq in Hne. rewrite Hne. reflexivity.
Qed.

Lemma occurrences_snoc (p k : string) (l : list string) :
  occurrences p (l ++ [k]) =
  occurrences p l + (if String.eqb k p then 1 else 0).
Proof.
  induction l as [|y l IH]; simpl; [|rewrite IH]; lia.
Qed.

Lemma occurrences_notin (k : string) (l : list string) :
  ~ In k l -> occurrences k l = 0.
Proof.
  induction l as [|y l IH]; simpl; intros H; [reflexivity|].
  destruct (String.eqb_spec y k); [tauto|]. rewrite IH; tauto.
Qed.

Lemma occurrences_nonneg (k : string) (l : list string) :
  0 <= occurrences k l.
Proof.
  induction l as [|y l IH]; simpl; [|destruct (String.eqb y k)]; lia.
Qed.

Section DictOfKeys.
Context {V : Type} (f : string -> V).

Lemma get_of_keys (ks : list string) (k : string) (default : V) :
  Dict.get (map (fun p => (p, f p)) ks) k default =
  if in_dec string_dec k ks then f k else default.
Proof.
  induction ks as [|a ks IH]; simpl; [reflexivity|].
  destruct (String.eqb_spec k a) as [->|Hne].
  - destruct (string_dec a a); [reflexivity | contradiction].
  - rewrite IH. destruct (string_dec a k); [congruence|].
    destruct (in_dec string_dec k ks); reflexivity.
Qed.

Lemma set_of_keys_present (ks : list string) (k : string) (v : V) :
  NoDup ks -> In k ks ->
  Dict.set (map (fun p => (p, f p)) ks) k v =
  map (fun p => (p, if String.eqb p k then v else f p)) ks.
Proof.
  induction 1 as [|a ks Ha Hks IH]; simpl; [tauto|]. intros Hin.
  destruct (String.eqb_spec k a) as [->|Hne].
  - rewrite String.eqb_refl. f_equal. apply map_ext_in. intros p Hp.
    destruct (String.eqb_spec p a); [congruence | reflexivity].
  - destruct (String.eqb_spec a k); [congruence|]. f_equal.
    apply IH. destruct Hin; [congruence | assumption].
Qed.

Lemma set_of_keys_absent (ks : list string) (k : string) (v : V) :
  ~ In k ks ->
  Dict.set (map (fun p => (p, f p)) ks) k v =
  map (fun p => (p, f p)) ks ++ [(k, v)].
Proof.
  induction ks as [|a ks IH]; simpl; intros Hin; [reflexivity|].
  destruct (String.eqb_spec k a) as [->|Hne]; [tauto|].
  rewrite IH; tauto.
Qed.
End DictOfKeys.

Lemma bump_counted (l : list string) (k : string) :
  bump (counted l) k = counted (l ++ [k]).
Proof.
  unfold bump, counted. rewrite get_of_keys, first_seen_snoc.
  destruct (in_dec string_dec k (first_seen l)) as [Hin|Hout];
    destruct (in_dec string_dec k l) as [Hin'|Hout'];
    try (rewrite first_seen_In in *; contradiction).
  - rewrite set_of_keys_present by (apply first_seen_NoDup || assumption).
    rewrite app_nil_r. apply map_ext. intros p.
    rewrite occurrences_snoc, String.eqb_sym.
    destruct (String.eqb_spec k p) as [->|]; f_equal; lia.
  - rewrite set_of_keys_absent by assumption.
    rewrite map_app. simpl. f_equal.
    + apply map_ext_in. intros p Hp. rewrite occurrences_snoc.
      destruct (String.eqb_spec k p) as [->|]; [contradiction|].
      f_equal. lia.
    + rewrite occurrences_snoc, String.eqb_refl,
        (occurrences_notin k l Hout'). reflexivity.
Qed.

(** Counting the strings of [l] from the empty dict gives each distinct
    string once, in order of first occurrence, with its number of
    occurrences. *)
Lemma counting_from_empty (l : list string) :
  fold_left bump l [] = counted l.
Proof.
  induction l as [|k l IH] using rev_ind.
  - reflexivity.
  - rewrite fold_left_app. simpl. rewrite IH. apply bump_counted.
Qed.

(** ** [sorted(..., reverse=True)] and the slice *)

Section SortedReverse.
Context {A : Type} (key : A -> Z).

Lemma insert_desc_perm (x : A) (l : list A) :
  Permutation (insert_desc key Z.ltb x l) (x :: l).
Proof.
  induction l as [|y l IH]; simpl.
  - apply Permutation_refl.
  - destruct (key x <? key y).
    + apply Permutation_trans with (y :: x :: l).
      * apply perm_skip, IH.
      * apply perm_swap.
    + apply Permutation_refl.
Qed.

Lemma sorted_reverse_perm (l : list A) :
  Permutation (sorted_reverse key Z.ltb l) l.
Proof.
  induction l as [|x l IH]; simpl.
  - apply perm_nil.
  - apply Permutation_trans with (x :: sorted_reverse key Z.ltb l).
    + apply insert_desc_perm.
    + apply perm_skip, IH.
Qed.

Lemma insert_desc_sorted (x : A) (l : list A) :
  StronglySorted (fun a b => key a >= key b) l ->
  StronglySorted (fun a b => key a >= key b) (insert_desc key Z.ltb x l).
Proof.
  induction 1 as [|y l Hl IH Hy]; simpl.
  - repeat constructor.
  - destruct (key x <? key y) eqn:Hlt.
    + apply Z.ltb_lt in Hlt. constructor; [exact IH|].
      apply (Permutation_Forall (Permutation_sym (insert_desc_perm x l))).
      constructor; [lia | exact Hy].
    + apply Z.ltb_ge in Hlt. constructor.
      * constructor; assumption.
      * constructor; [lia|].
        apply (Forall_impl _ (P := fun b => key y >= key b));
          [intros b Hb; lia | exact Hy].
Qed.

(** The result is in descending key order. *)
Lemma sorted_reverse_sorted (l : list A) :
  StronglySorted (fun a b => key a >= key b) (sorted_reverse key Z.ltb l).
Proof.
  induction l as [|x l IH]; simpl.
  - constructor.
  - apply insert_desc_sorted, IH.
Qed.

Lemma insert_desc_filter (c : Z) (x : A) (l : list A) :
  filter (fun a => key a =? c) (insert_desc key Z.ltb x l) =
  filter (fun a => key a =? c) (x :: l).
Proof.
  induction l as [|y l IH]; simpl; [reflexivity|].
  destruct (key x <? key y) eqn:Hlt; [|reflexivity].
  simpl in *. rewrite IH. apply Z.ltb_lt in Hlt.
  destruct (key x =? c) eqn:Hx; [|reflexivity].
  apply Z.eqb_eq in Hx.
  destruct (key y =? c) eqn:Hy; [|reflexivity].
  apply Z.eqb_eq in Hy. lia.
Qed.

(** The sort is stable: the elements with a given key keep their
    order. *)
Lemma sorted_reverse_stable (c : Z) (l : list A) :
  filter (fun a => key a =? c) (sorted_reverse key Z.ltb l) =
  filter (fun a => key a =? c) l.
Proof.
  induction l as [|x l IH]; simpl; [reflexivity|].
  rewrite insert_desc_filter. simpl. rewrite IH. reflexivity.
Qed.
End SortedReverse.

Lemma slice_10_length {A : Type} (l : list A) :
  len (slice_10 l) = Z.min 10 (len l).
Proof. unfold len, slice_10. rewrite length_firstn. lia. Qed.

Lemma slice_10_sorted {A : Type} (R : A -> A -> Prop) (l : list A) :
  StronglySorted R l -> StronglySorted R (slice_10 l).
Proof.
  unfold slice_10. generalize 10%nat as n. intros n H. revert n.
  induction H as [|x l Hl IH Hx]; intros [|n]; simpl; try constructor.
  - apply IH.
  - rewrite <- (firstn_skipn n l) in Hx. apply Forall_app in Hx. tauto.
Qed.

Lemma slice_10_filter {A : Type} (p : A -> bool) (l : list A) :
  exists rest, filter p l = filter p (slice_10 l) ++ rest.
Proof.
  exists (filter p (skipn 10 l)). unfold slice_10.
  rewrite <- filter_app, firstn_skipn. reflexivity.
Qed.

Lemma slice_10_In {A : Type} (l : list A) (x : A) :
  In x (slice_10 l) -> In x l.
Proof.
  unfold slice_10. intros H. rewrite <- (firstn_skipn 10 l).
  apply in_or_app. left. exact H.
Qed.

(** ** The aggregator's result *)

Lemma header_paths_length (units : list CompilationUnit.t) :
  len (all_header_paths units) =
  fold_right Z.add 0 (map (fun u => len (CompilationUnit.includes u)) units).
Proof.
  unfold len, all_header_paths. induction units as [|u units IH]; simpl.
  - reflexivity.
  - rewrite length_app, length_map, <- IH. lia.
Qed.

(** The result in terms of the input: the include dict holds the distinct
    header paths with their numbers of occurrences. *)
Lemma from_compilation_units_spec (units : list CompilationUnit.t)
  (r : AnalysisResult.t) :
  AnalysisResult.from_compilation_units units = Return r ->
  exists st,
    r = AnalysisResult.finish (len units) st /\
    AnalysisResult.include_counts st = counted (all_header_paths units) /\
    AnalysisResult.template_counts st = counted (all_template_names units) /\
    Forall2 metric_of units (AnalysisResult.metrics st) /\
    Duration.nanoseconds (AnalysisResult.total st) =
      fold_right Z.add 0
        (map (fun u => Duration.nanoseconds (CompilationUnit.total_time u))
           units).
Proof.
  unfold AnalysisResult.from_compilation_units. intros H.
  apply bind_Return in H as (st & Hst & H). injection H as <-.
  apply units_loop_spec in Hst as (Ht & (fms & Hfms & Hm) & Hi & Hn).
  simpl in *. rewrite counting_from_empty in Hi, Hn.
  exists st. subst fms. repeat split; assumption.
Qed.

Lemma from_compilation_units_returns (units : list CompilationUnit.t) :
  Forall unit_convertible units ->
  exists r, AnalysisResult.from_compilation_units units = Return r.
Proof.
  intros H. unfold AnalysisResult.from_compilation_units.
  destruct (units_loop_returns units H AnalysisResult.initial) as (st & ->).
  simpl. eauto.
Qed.

(** C7: the aggregator returns whenever the times are below 2^53 ns in
    absolute value, and in every result [total_includes] is the sum of the lengths
    of the units' [includes] lists and [unique_includes] is the number of
    distinct header paths (the length of a duplicate-free list of the
    header paths), which is at most [total_includes]. *)
Theorem C7_include_totals (units : list CompilationUnit.t) :
  (Forall unit_in_range units ->
   exists r, AnalysisResult.from_compilation_units units = Return r) /\
  (forall r,
     AnalysisResult.from_compilation_units units = Return r ->
     let im := AnalysisResult.include_metrics r in
     IncludeMetrics.total_includes im =
       fold_right Z.add 0
         (map (fun u => len (CompilationUnit.includes u)) units) /\
     (exists distinct,
        NoDup distinct /\
        (forall path, In path distinct <-> In path (all_header_paths units))
        /\ IncludeMetrics.unique_includes im = len distinct) /\
     IncludeMetrics.unique_includes im <= IncludeMetrics.total_includes im).
Proof.
  split.
  { intros Hrange. apply from_compilation_units_returns.
    apply (Forall_impl _ unit_in_range_convertible Hrange). }
  intros r Hr.
  destruct (from_compilation_units_spec units r Hr)
    as (st & -> & Hi & _ & _ & _).
  simpl. rewrite <- header_paths_length.
  assert (Hsum : sum (Dict.values (AnalysisResult.include_counts st)) =
                 len (all_header_paths units)).
  { rewrite Hi, <- counting_from_empty, sum_values_counting. reflexivity. }
  assert (Hlen : Dict.len (AnalysisResult.include_counts st) =
                 len (first_seen (all_header_paths units))).
  { rewrite Hi. unfold Dict.len, counted, len. rewrite length_map.
    reflexivity. }
  rewrite Hsum, Hlen. split; [reflexivity|]. split.
  - exists (first_seen (all_header_paths units)).
    split; [apply first_seen_NoDup|].
    split; [apply first_seen_In | reflexivity].
  - unfold len. pose proof (first_seen_length (all_header_paths units)). lia.
Qed.

(** Two units with three includes and one: four includes in all. *)
Lemma C7_include_totals_witness :
  exists r,
    AnalysisResult.from_compilation_units
      [unit_with "a.cpp" 2000000000
         [("vector", 100000000); ("map", 50000000); ("vector", 1000000)];
       unit_with "b.cpp" 1000000000 [("vector", 90000000)]] = Return r /\
    IncludeMetrics.total_includes (AnalysisResult.include_metrics r) = 4 /\
    IncludeMetrics.unique_includes (AnalysisResult.include_metrics r) <= 4.
Proof.
  destruct (C7_include_totals
              [unit_with "a.cpp" 2000000000
                 [("vector", 100000000); ("map", 50000000);
                  ("vector", 1000000)];
               unit_with "b.cpp" 1000000000 [("vector", 90000000)]])
    as [Hreturns Hresult].
  destruct Hreturns as (r & Hr).
  - repeat constructor; unfold in_range; simpl; lia.
  - exists r. split; [exact Hr|].
    destruct (Hresult r Hr) as (Htotal & _ & Hunique).
    split; [exact Htotal|]. rewrite Htotal in Hunique. exact Hunique.
Defined.

(** C8: on the empty list the aggregator returns, with [file_count] 0,
    every count and time total zero and every metric list empty. *)
Theorem C8_empty_input :
  exists r,
    AnalysisResult.from_compilation_units [] = Return r /\
    AnalysisResult.file_count r = 0 /\
    AnalysisResult.total_compile_time r = Duration.Duration 0 /\
    AnalysisResult.file_metrics r = [] /\
    AnalysisResult.include_metrics r =
      IncludeMetrics.IncludeMetrics 0 0 0 (Duration.Duration 0) [] [] /\
    AnalysisResult.template_metrics r =
      TemplateMetrics.TemplateMetrics 0 0 (Duration.Duration 0) [] [] /\
    AnalysisResult.symbol_metrics r = SymbolMetrics.SymbolMetrics 0 0 0 0 /\
    AnalysisResult.dependency_metrics r =
      DependencyMetrics.DependencyMetrics 0 0 0 0.
Proof.
  eexists. split; [reflexivity|]. repeat split.
Qed.

(** C2, as stated, fails on ties: [most_included] keeps headers with equal
    counts in the order they were first met, here ["b.h"] before ["a.h"],
    which is not the alphabetical order. *)
Lemma C2_ties_not_alphabetical :
  exists r,
    AnalysisResult.from_compilation_units
      [unit_with "main.cpp" 1000000 [("b.h", 1000); ("a.h", 1000)]]
      = Return r /\
    IncludeMetrics.most_included (AnalysisResult.include_metrics r) =
      [("b.h", 1); ("a.h", 1)] /\
    String.ltb "b.h" "a.h" = false /\
    count_desc_path_asc
      (IncludeMetrics.most_included (AnalysisResult.include_metrics r))
      = false.
Proof.
  eexists. split; [vm_compute; reflexivity|]. repeat split.
Qed.

(** C2, amended: [most_included] has exactly [min(10, unique_includes)]
    entries, each a header path with its number of occurrences, sorted by
    count descending; headers with equal counts are in the order of their
    first occurrence in the input (the entries with a given count are an
    initial segment of the headers with that count taken in first-seen
    order), not in alphabetical order. *)
Theorem C2_most_included_order (units : list CompilationUnit.t)
  (r : AnalysisResult.t) :
  AnalysisResult.from_compilation_units units = Return r ->
  let im := AnalysisResult.include_metrics r in
  len (IncludeMetrics.most_included im) =
    Z.min 10 (IncludeMetrics.unique_includes im) /\
  (forall entry, In entry (IncludeMetrics.most_included im) ->
     In (fst entry) (first_seen (all_header_paths units)) /\
     snd entry = occurrences (fst entry) (all_header_paths units)) /\
  StronglySorted (fun a b => snd a >= snd b) (IncludeMetrics.most_included im)
  /\
  (forall c, exists rest,
     filter (has_count c) (counted (all_header_paths units)) =
     filter (has_count c) (IncludeMetrics.most_included im) ++ rest).
Proof.
  intros Hr.
  destruct (from_compilation_units_spec units r Hr)
    as (st & -> & Hi & _ & _ & _).
  simpl. rewrite Hi. unfold AnalysisResult.top_counts, Dict.items.
  set (paths := all_header_paths units).
  split; [|split; [|split]].
  - rewrite slice_10_length. unfold len, Dict.len.
    rewrite (Permutation_length (sorted_reverse_perm snd (counted paths))).
    reflexivity.
  - intros entry Hentry. apply slice_10_In in Hentry.
    apply (Permutation_in _ (sorted_reverse_perm snd (counted paths)))
      in Hentry.
    unfold counted in Hentry. apply in_map_iff in Hentry as (p & <- & Hp).
    split; [exact Hp | reflexivity].
  - apply slice_10_sorted, sorted_reverse_sorted.
  - intros c.
    destruct (slice_10_filter (has_count c)
                (sorted_reverse snd Z.ltb (counted paths))) as (rest & Hrest).
    exists rest. rewrite <- Hrest. symmetry.
    apply (sorted_reverse_stable snd c).
Qed.

(** Two units with three distinct headers: three entries. *)
Lemma C2_most_included_order_witness :
  exists r,
    AnalysisResult.from_compilation_units
      [unit_with "a.cpp" 2000000000
         [("vector", 100000000); ("map", 50000000); ("vector", 1000000)];
       unit_with "b.cpp" 1000000000 [("string", 90000000)]] = Return r /\
    len (IncludeMetrics.most_included (AnalysisResult.include_metrics r)) =
      Z.min 10
        (IncludeMetrics.unique_includes (AnalysisResult.include_metrics r)).
Proof.
  eexists. split; [vm_compute; reflexivity|].
  apply (C2_most_included_order
           [unit_with "a.cpp" 2000000000
              [("vector", 100000000); ("map", 50000000);
               ("vector", 1000000)];
            unit_with "b.cpp" 1000000000 [("string", 90000000)]]).
  vm_compute. reflexivity.
Defined.

(** ** The suggester *)

Lemma Float_mul_comm (x y : Float.float) : Float.mul x y = Float.mul y x.
Proof.
  unfold Float.mul.
  destruct x as [sx|sx| |sx mx ex], y as [sy|sy| |sy my ey]; simpl;
    try reflexivity; try (rewrite (xorb_comm sx sy); reflexivity).
  rewrite (xorb_comm sx sy), (Pos.mul_comm mx my), (Z.add_comm ex ey).
  reflexivity.
Qed.

Lemma suggestions_loop (fms : list FileMetrics.t) :
  forall suggestions,
    fold_left
      (fun suggestions fm =>
         if Float.gtb (FileMetrics.compile_time_ms fm) (Float.of_Z 5000)
         then suggestions ++ [Analyzer.slow_file_suggestion fm]
         else suggestions)
      fms suggestions =
    suggestions ++
    map Analyzer.slow_file_suggestion (filter exceeds_threshold fms).
Proof.
  induction fms as [|fm fms IH]; simpl; intros suggestions.
  - symmetry. apply app_nil_r.
  - rewrite IH. unfold exceeds_threshold at 2.
    destruct (Float.gtb _ _); simpl; [rewrite <- app_assoc|]; reflexivity.
Qed.

(** The suggestions are those of the file metrics above the threshold, in
    the order of [file_metrics]. *)
Lemma generate_suggestions_spec (self : Analyzer.t) (r : AnalysisResult.t) :
  Analyzer._analysis_result self = Some r ->
  Analyzer._generate_suggestions_python self =
  map Analyzer.slow_file_suggestion
    (filter exceeds_threshold (AnalysisResult.file_metrics r)).
Proof.
  unfold Analyzer._generate_suggestions_python. intros ->.
  destruct (AnalysisResult.file_metrics r) as [|fm fms] eqn:Hfms.
  - reflexivity.
  - rewrite suggestions_loop. reflexivity.
Qed.

Lemma slow_file_suggestion_rule (fm : FileMetrics.t) :
  slow_file_rule fm (Analyzer.slow_file_suggestion fm).
Proof.
  unfold slow_file_rule. simpl. repeat split. apply Float_mul_comm.
Qed.

(** C9: the suggestions correspond one to one, in order, to the
    [file_metrics] entries whose [compile_time_ms] exceeds 5000; the
    suggestion of an entry is for its file, with type PCH, priority High,
    estimated impact 0.3 x compile_time_ms and confidence Medium. An entry
    at or below the threshold has no suggestion. *)
Theorem C9_slow_file_suggestions (self : Analyzer.t) (r : AnalysisResult.t) :
  Analyzer._analysis_result self = Some r ->
  Forall2 slow_file_rule
    (filter exceeds_threshold (AnalysisResult.file_metrics r))
    (Analyzer._generate_suggestions_python self).
Proof.
  intros Hr. rewrite (generate_suggestions_spec self r Hr).
  induction (filter exceeds_threshold (AnalysisResult.file_metrics r))
    as [|fm fms IH]; simpl; constructor.
  - apply slow_file_suggestion_rule.
  - exact IH.
Qed.

(** Of a 6000 ms file and a 5000 ms file only the first gets a
    suggestion. *)
Lemma C9_slow_file_suggestions_witness :
  Forall2 slow_file_rule
    [FileMetrics.make "a.cpp" (Float.of_Z 6000) 3 0]
    (Analyzer._generate_suggestions_python
       (analyzer_with [FileMetrics.make "a.cpp" (Float.of_Z 6000) 3 0;
                       FileMetrics.make "b.cpp" (Float.of_Z 5000) 1 0])).
Proof.
  apply (C9_slow_file_suggestions
           (analyzer_with [FileMetrics.make "a.cpp" (Float.of_Z 6000) 3 0;
                           FileMetrics.make "b.cpp" (Float.of_Z 5000) 1 0])
           _ eq_refl).
Defined.

(** C3, as stated, fails: for a file of 6000 ms followed by one of 9000 ms
    the suggestions come in that order, with impacts 1800 ms and then
    2700 ms at equal priority. *)
Lemma C3_not_sorted_by_impact :
  exists r self out self',
    Analyzer.analyze (Analyzer.make two_slow_files []) = Return (r, self) /\
    Analyzer.get_suggestions self = Return (out, self') /\
    map Suggestion.file_path out = ["a.json"; "b.json"] /\
    map Suggestion.priority out = [Priority.HIGH; Priority.HIGH] /\
    map (fun s => Float.format_0f (Suggestion.estimated_impact_ms s)) out =
      ["1800"; "2700"] /\
    ranked out = false.
Proof.
  do 4 eexists. split; [vm_compute; reflexivity|].
  split; [vm_compute; reflexivity|]. repeat split.
Qed.

(** C3, amended: the suggestions are in the order of the [file_metrics]
    entries they come from, that is the order of the input units; all have
    priority High, so the list is sorted by priority, but it is ordered
    neither by estimated impact nor by title. *)
Theorem C3_suggestions_in_input_order (self : Analyzer.t)
  (r : AnalysisResult.t) :
  Analyzer._analysis_result self = Some r ->
  let out := Analyzer._generate_suggestions_python self in
  map Suggestion.file_path out =
    map FileMetrics.file_path
      (filter exceeds_threshold (AnalysisResult.file_metrics r)) /\
  Forall (fun s => Suggestion.priority s = Priority.HIGH) out /\
  StronglySorted
    (fun a b => Priority.value (Suggestion.priority a)
                >= Priority.value (Suggestion.priority b)) out.
Proof.
  intros Hr. simpl. rewrite (generate_suggestions_spec self r Hr).
  induction (filter exceeds_threshold (AnalysisResult.file_metrics r))
    as [|fm fms (IHpath & IHprio & IHsorted)]; simpl.
  - repeat split; constructor.
  - repeat split.
    + f_equal. exact IHpath.
    + constructor; [reflexivity | exact IHprio].
    + constructor; [exact IHsorted|].
      apply (Forall_impl _ (P := fun s =>
                                   Suggestion.priority s = Priority.HIGH));
        [|exact IHprio].
      intros s ->. simpl. lia.
Qed.

(** The suggestions of three files, the second one not above the
    threshold. *)
Lemma C3_suggestions_in_input_order_witness :
  map Suggestion.file_path
    (Analyzer._generate_suggestions_python
       (analyzer_with [FileMetrics.make "a.cpp" (Float.of_Z 6000) 3 0;
                       FileMetrics.make "b.cpp" (Float.of_Z 5000) 1 0;
                       FileMetrics.make "c.cpp" (Float.of_Z 9000) 0 0])) =
  ["a.cpp"; "c.cpp"].
Proof.
  apply (C3_suggestions_in_input_order
           (analyzer_with [FileMetrics.make "a.cpp" (Float.of_Z 6000) 3 0;
                           FileMetrics.make "b.cpp" (Float.of_Z 5000) 1 0;
                           FileMetrics.make "c.cpp" (Float.of_Z 9000) 0 0])
           _ eq_refl).
Defined.

Lemma Forall2_In_right {A B : Type} (R : A -> B -> Prop) (l : list A)
  (l' : list B) (y : B) :
  Forall2 R l l' -> In y l' -> exists x, In x l /\ R x y.
Proof.
  induction 1 as [|x y' l l' Hxy _ IH]; simpl; intros Hy; [destruct Hy|].
  destruct Hy as [-> | Hy].
  - exists x. auto.
  - destruct (IH Hy) as (x' & Hx' & Hr). exists x'. auto.
Qed.

(** C1, as stated, fails: with ["H"] included once in each of twelve units,
    for 720 ms in all, the suggester returns no suggestion at all. *)
Lemma C1_no_header_suggestion :
  exists r self self' t,
    Analyzer.analyze (Analyzer.make twelve_includers []) = Return (r, self) /\
    AnalysisResult.file_count r = 12 /\
    IncludeMetrics.most_included (AnalysisResult.include_metrics r) =
      [("H", 12)] /\
    IncludeMetrics.slowest_includes (AnalysisResult.include_metrics r) =
      [("H", t)] /\
    Float.format_0f t = "720" /\
    Float.leb (Float.of_Z 500) t = true /\
    Analyzer.get_suggestions self = Return ([], self').
Proof.
  do 4 eexists. split; [vm_compute; reflexivity|]. repeat split.
Qed.

(** C1, amended: the pure-Python suggester has no rule for headers. Every
    suggestion it returns is the slow-file one of a unit whose
    [compile_time_ms] exceeds 5000 (for that unit's source file, with type
    PCH, priority High, impact 0.3 x compile_time_ms, confidence Medium),
    whatever the units include; when no unit exceeds 5000 ms it returns no
    suggestion. *)
Theorem C1_only_slow_file_suggestions (units : list CompilationUnit.t)
  (r : AnalysisResult.t) (self : Analyzer.t) :
  AnalysisResult.from_compilation_units units = Return r ->
  Analyzer._analysis_result self = Some r ->
  (forall s, In s (Analyzer._generate_suggestions_python self) ->
     exists u ms,
       In u units /\
       Duration.milliseconds (CompilationUnit.total_time u) = Return ms /\
       Float.gtb ms (Float.of_Z 5000) = true /\
       Suggestion.file_path s = CompilationUnit.source_file u /\
       Suggestion.type s = PCH /\
       Suggestion.priority s = Priority.HIGH /\
       Suggestion.estimated_impact_ms s = Float.mul Float.lit_0_3 ms /\
       Suggestion.confidence s = Confidence.MEDIUM) /\
  ((forall u ms,
      In u units ->
      Duration.milliseconds (CompilationUnit.total_time u) = Return ms ->
      Float.gtb ms (Float.of_Z 5000) = false) ->
   Analyzer._generate_suggestions_python self = []).
Proof.
  intros Hr Hself.
  destruct (from_compilation_units_spec units r Hr)
    as (st & -> & _ & _ & Hfms & _).
  assert (Hin : forall s,
             In s (Analyzer._generate_suggestions_python self) ->
             exists u fm,
               In u units /\ metric_of u fm /\
               exceeds_threshold fm = true /\
               s = Analyzer.slow_file_suggestion fm).
  { intros s Hs. rewrite (generate_suggestions_spec self _ Hself) in Hs.
    apply in_map_iff in Hs as (fm & <- & Hfm).
    apply filter_In in Hfm as (Hfm & Hslow). simpl in Hfm.
    destruct (Forall2_In_right _ _ _ _ Hfms Hfm) as (u & Hu & Hmetric).
    exists u, fm. auto. }
  split.
  - intros s Hs.
    destruct (Hin s Hs) as (u & fm & Hu & (Hms & Hfm) & Hslow & ->).
    exists u, (FileMetrics.compile_time_ms fm).
    destruct (slow_file_suggestion_rule fm) as (Hp & Ht & Hq & Hi & Hc).
    repeat split; try assumption.
    rewrite Hp, Hfm. reflexivity.
  - intros Hnone.
    destruct (Analyzer._generate_suggestions_python self) as [|s out] eqn:E;
      [reflexivity|].
    destruct (Hin s (or_introl eq_refl))
      as (u & fm & Hu & (Hms & _) & Hslow & _).
    unfold exceeds_threshold in Hslow.
    rewrite (Hnone u _ Hu Hms) in Hslow. discriminate.
Qed.

(** Twelve units of 100 ms that all include ["H"] for 60 ms: no
    suggestion. *)
Lemma C1_only_slow_file_suggestions_witness :
  exists r,
    AnalysisResult.from_compilation_units
      (map (fun src => unit_with src 100000000 [("H", 60000000)])
         ["a.cpp"; "b.cpp"; "c.cpp"; "d.cpp"; "e.cpp"; "f.cpp";
          "g.cpp"; "h.cpp"; "i.cpp"; "j.cpp"; "k.cpp"; "l.cpp"]) = Return r /\
    IncludeMetrics.most_included (AnalysisResult.include_metrics r) =
      [("H", 12)] /\
    Analyzer._generate_suggestions_python
      (Analyzer.Analyzer [] [] (Some r) []) = [].
Proof.
  destruct (AnalysisResult.from_compilation_units
              (map (fun src => unit_with src 100000000 [("H", 60000000)])
                 ["a.cpp"; "b.cpp"; "c.cpp"; "d.cpp"; "e.cpp"; "f.cpp";
                  "g.cpp"; "h.cpp"; "i.cpp"; "j.cpp"; "k.cpp"; "l.cpp"]))
    as [r|e] eqn:Hr; [|vm_compute in Hr; discriminate].
  exists r. split; [reflexivity|]. split.
  - vm_compute in Hr. injection Hr as <-. reflexivity.
  - apply (C1_only_slow_file_suggestions _ r
             (Analyzer.Analyzer [] [] (Some r) []) Hr eq_refl).
    intros u ms Hu Hms. apply in_map_iff in Hu as (src & <- & _).
    vm_compute in Hms. injection Hms as <-. reflexivity.
Defined.

(** ** Events without [detail] *)

Lemma parse_all_units {A : Type} (doc : A -> TraceDocument)
  (hint : A -> string) (inputs : list A) :
  forall acc units,
    for_each
      (fun units input =>
         unit <- CompilationUnit.from_json (doc input) (hint input) ;;
         Return (units ++ [unit]))
      inputs acc = Return units ->
    exists parsed,
      units = acc ++ parsed /\
      Forall2 (fun input u =>
                 CompilationUnit.from_json (doc input) (hint input)
                 = Return u)
        inputs parsed.
Proof.
  induction inputs as [|input inputs IH]; simpl; intros acc units H.
  - injection H as <-. exists []. split; [symmetry; apply app_nil_r|].
    constructor.
  - apply bind_Return in H as (acc1 & H1 & H).
    apply bind_Return in H1 as (unit & Hunit & H1). injection H1 as <-.
    destruct (IH _ _ H) as (parsed & -> & Hparsed).
    exists (unit :: parsed). split.
    + rewrite <- app_assoc. reflexivity.
    + constructor; assumption.
Qed.

Lemma Forall2_map_eq {A B C : Type} (R : A -> B -> Prop) (f : A -> C)
  (g : B -> C) (l : list A) (l' : list B) :
  Forall2 R l l' -> (forall a b, R a b -> f a = g b) -> map f l = map g l'.
Proof.
  intros H Hfg. induction H as [|a b l l' Hab _ IH]; simpl; [reflexivity|].
  rewrite IH, (Hfg a b Hab). reflexivity.
Qed.

Lemma get_absent {V : Type} (d : Dict.dict V) (k : string) (default : V) :
  Dict.mem d k = false -> Dict.get d k default = default.
Proof.
  induction d as [|[k' v] d IH]; cbn [Dict.mem Dict.get]; [reflexivity|].
  destruct (String.eqb k k'); [discriminate | exact IH].
Qed.

Lemma top_counts_small (d : Dict.dict Z) (entry : string * Z) :
  Dict.len d <= 10 -> In entry d -> In entry (AnalysisResult.top_counts d).
Proof.
  unfold AnalysisResult.top_counts, slice_10, Dict.items, Dict.len.
  intros Hlen Hin. rewrite firstn_all2.
  - apply (Permutation_in _ (Permutation_sym (sorted_reverse_perm snd d))).
    exact Hin.
  - rewrite (Permutation_length (sorted_reverse_perm snd d)). lia.
Qed.

Lemma occurrences_In (k : string) (l : list string) :
  In k l -> 1 <= occurrences k l.
Proof.
  induction l as [|y l IH]; simpl; [tauto|].
  pose proof (occurrences_nonneg k l) as Hnonneg.
  intros [-> | H].
  - rewrite String.eqb_refl. lia.
  - apply IH in H. destruct (String.eqb y k); lia.
Qed.

(** The two list-filling branches of the loop, by the name of the event. *)
Lemma is_kind_template (event : TraceEvent) :
  is_kind KTemplate event = is_template_event event.
Proof.
  unfold is_kind, kind_of, is_template_event.
  generalize (get_default (ev_name event) ""). intros name.
  repeat match goal with
         | |- context [String.eqb name ?c] =>
             destruct (String.eqb_spec name c) as [->|]; simpl;
             try reflexivity
         end.
  destruct (Dict.mem _ _); reflexivity.
Qed.

Lemma is_kind_source (event : TraceEvent) :
  is_kind KSource event = is_source_event event && has_detail event.
Proof.
  unfold is_kind, kind_of, is_source_event, has_detail.
  generalize (get_default (ev_name event) ""). intros name.
  destruct (ev_args event) as [args|]; simpl;
    repeat match goal with
           | |- context [String.eqb name ?c] =>
               destruct (String.eqb_spec name c) as [->|]; simpl;
               try reflexivity
           end;
    destruct (Dict.mem _ _); reflexivity.
Qed.

Lemma detail_of_template_event (event : TraceEvent) :
  event_detail event = template_name_of event.
Proof.
  unfold event_detail, template_name_of.
  destruct (ev_args event) as [args|]; simpl; [|reflexivity].
  destruct (Dict.mem args "detail") eqn:Hmem; [reflexivity|].
  apply get_absent, Hmem.
Qed.

Lemma no_detail_no_name (event : TraceEvent) :
  has_detail event = false -> template_name_of event = "".
Proof.
  unfold has_detail, template_name_of.
  destruct (ev_args event) as [args|]; [|reflexivity].
  intros ->. reflexivity.
Qed.

(** The names in the two lists of a parsed unit, from the events. *)
Lemma from_json_names (data : TraceDocument) (source_hint : string)
  (u : CompilationUnit.t) :
  CompilationUnit.from_json data source_hint = Return u ->
  map TemplateInstantiation.template_name (CompilationUnit.templates u) =
    template_event_names data /\
  map IncludeInfo.header_path (CompilationUnit.includes u) =
    source_event_paths data.
Proof.
  unfold CompilationUnit.from_json, template_event_names, source_event_paths.
  fold (events data). intros H.
  apply parse_loop_lists in H
    as (_ & _ & (incs & Hi & Hf) & (tmpls & Ht & Hg)).
  simpl in Hi, Ht. subst incs tmpls. split.
  - rewrite <- (filter_ext _ _ is_kind_template). symmetry.
    apply (Forall2_map_eq _ _ _ _ _ Hg).
    intros event tmpl (d & _ & ->). symmetry.
    apply detail_of_template_event.
  - rewrite <- (filter_ext _ _ is_kind_source). symmetry.
    apply (Forall2_map_eq _ _ _ _ _ Hf).
    intros event inc (d & _ & ->). reflexivity.
Qed.

(** What [analyze] aggregates: the units of its documents. *)
Lemma analyze_units (self self' : Analyzer.t) (r : AnalysisResult.t) :
  Analyzer.analyze self = Return (r, self') ->
  exists units,
    Forall2 (fun data u =>
               exists source_hint,
                 CompilationUnit.from_json data source_hint = Return u)
      (documents self) units /\
    AnalysisResult.from_compilation_units units = Return r.
Proof.
  intros H.
  assert (Hr : Analyzer._analyze_python self = Return r).
  { unfold Analyzer.analyze in H.
    destruct (Analyzer._trace_files self), (Analyzer._trace_content self);
      try discriminate;
      apply bind_Return in H as (r' & Hr' & H); injection H as <- _;
      exact Hr'. }
  clear H. unfold Analyzer._analyze_python in Hr.
  apply bind_Return in Hr as (units1 & H1 & Hr).
  apply bind_Return in Hr as (units & H2 & Hr).
  apply (parse_all_units snd fst) in H1 as (parsed1 & -> & Hp1).
  apply (parse_all_units (fun c => c) (fun _ => "<content>")) in H2
    as (parsed2 & -> & Hp2).
  simpl in *. exists (parsed1 ++ parsed2). split; [|exact Hr].
  unfold documents. apply Forall2_app.
  - clear - Hp1.
    induction Hp1 as [|f u fs us Hf _ IH]; simpl; constructor; eauto.
  - clear - Hp2.
    induction Hp2 as [|c u cs us Hc _ IH]; simpl; constructor; eauto.
Qed.

Lemma template_names_of_documents (docs : list TraceDocument)
  (units : list CompilationUnit.t) :
  Forall2 (fun data u =>
             exists source_hint,
               CompilationUnit.from_json data source_hint = Return u)
    docs units ->
  all_template_names units = flat_map template_event_names docs.
Proof.
  unfold all_template_names.
  induction 1 as [|data u docs units (source_hint & Hu) _ IH]; simpl;
    [reflexivity|].
  rewrite IH, (proj1 (from_json_names _ _ _ Hu)). reflexivity.
Qed.

(** C10: an [InstantiateClass] or [InstantiateFunction] event without a
    [detail] (its [args] has no such key, or it has no [args]) whose [dur]
    converts makes the [templates] list of the unit one longer, by a
    TemplateInstantiation named with the empty string, and leaves the
    [includes] alone; a [Source] event without [detail] leaves the unit as
    it is. So the template names of a parsed unit are those of all its
    template events in order, the empty string for each event without
    [detail], while its header paths are those of the [Source] events that
    have one. After [analyze], [total_instantiations] counts the template
    events of all documents, with or without [detail], and a template
    event without [detail] is one of those counted under the empty name:
    when there are at most ten distinct names, [most_instantiated] has an
    entry for the empty name with that count. *)
Theorem C10_template_without_detail :
  (forall unit event d,
     is_template_event event = true ->
     has_detail event = false ->
     Duration.from_microseconds (event_dur event) = Return d ->
     exists unit' tmpl,
       CompilationUnit.from_json_event unit event = Return unit' /\
       CompilationUnit.templates unit' =
         CompilationUnit.templates unit ++ [tmpl] /\
       TemplateInstantiation.template_name tmpl = "" /\
       TemplateInstantiation.instantiation_time tmpl = d /\
       CompilationUnit.includes unit' = CompilationUnit.includes unit) /\
  (forall unit event,
     is_source_event event = true ->
     has_detail event = false ->
     CompilationUnit.from_json_event unit event = Return unit) /\
  (forall data source_hint u,
     CompilationUnit.from_json data source_hint = Return u ->
     map TemplateInstantiation.template_name (CompilationUnit.templates u) =
       template_event_names data /\
     map IncludeInfo.header_path (CompilationUnit.includes u) =
       source_event_paths data) /\
  (forall self self' r,
     Analyzer.analyze self = Return (r, self') ->
     let names := flat_map template_event_names (documents self) in
     let tm := AnalysisResult.template_metrics r in
     TemplateMetrics.total_instantiations tm = len names /\
     TemplateMetrics.unique_templates tm = len (first_seen names) /\
     forall data event,
       In data (documents self) ->
       In event (events data) ->
       is_template_event event = true ->
       has_detail event = false ->
       1 <= occurrences "" names /\
       (len (first_seen names) <= 10 ->
        In ("", occurrences "" names)
          (TemplateMetrics.most_instantiated tm))).
Proof.
  split; [|split; [|split]].
  - intros unit event d Hname Hdetail Hd.
    rewrite from_json_event_by_kind.
    pose proof (is_kind_template event) as Hkind.
    rewrite Hname in Hkind. unfold is_kind in Hkind.
    destruct (kind_of event); try discriminate Hkind.
    rewrite Hd, detail_of_template_event, (no_detail_no_name _ Hdetail).
    simpl. eexists. eexists. repeat split.
  - intros unit event Hname Hdetail.
    rewrite from_json_event_by_kind.
    pose proof (is_kind_source event) as Hsource.
    pose proof (is_kind_template event) as Htemplate.
    rewrite Hname, Hdetail in Hsource. unfold is_kind in Hsource, Htemplate.
    unfold is_source_event in Hname. apply String.eqb_eq in Hname.
    unfold is_template_event in Htemplate. rewrite Hname in Htemplate.
    unfold kind_of in *. rewrite Hname in *. simpl in *.
    destruct (Dict.mem _ _); [discriminate Hsource | reflexivity].
  - apply from_json_names.
  - intros self self' r H names tm.
    destruct (analyze_units _ _ _ H) as (units & Hunits & Hr).
    apply template_names_of_documents in Hunits. fold names in Hunits.
    destruct (from_compilation_units_spec units r Hr)
      as (st & -> & _ & Hn & _ & _).
    subst tm. simpl. rewrite Hn, Hunits.
    split; [|split].
    + rewrite <- counting_from_empty, sum_values_counting. reflexivity.
    + unfold counted, Dict.len, len. rewrite length_map. reflexivity.
    + intros data event Hdata Hevent Hname Hdetail.
      assert (Hin : In "" names).
      { apply in_flat_map. exists data. split; [exact Hdata|].
        unfold template_event_names.
        rewrite <- (no_detail_no_name _ Hdetail).
        apply in_map, filter_In. split; assumption. }
      split; [apply occurrences_In, Hin|].
      intros Hlen. apply top_counts_small.
      * unfold counted, Dict.len. rewrite length_map. exact Hlen.
      * unfold counted.
        apply (in_map (fun k => (k, occurrences k names))).
        apply first_seen_In, Hin.
Qed.

(** A content with three template events, one with an [args] that has no
    [detail] and one without [args], and a [Source] event without
    [detail]: three instantiations are counted, two of them under the
    empty name. *)
Lemma C10_template_without_detail_witness :
  exists r self',
    Analyzer.analyze
      (Analyzer.make []
         [ {| traceEvents :=
                Some [ {| ev_name := Some "InstantiateClass";
                          ev_dur := Some (NInt 20000);
                          ev_args := Some [("count", "1")] |};
                       {| ev_name := Some "Source";
                          ev_dur := Some (NInt 300);
                          ev_args := None |};
                       {| ev_name := Some "InstantiateClass";
                          ev_dur := Some (NInt 500);
                          ev_args := Some [("detail", "std::vector<int>")] |};
                       {| ev_name := Some "InstantiateFunction";
                          ev_dur := Some (NInt 700);
                          ev_args := None |} ] |} ])
    = Return (r, self') /\
    TemplateMetrics.total_instantiations (AnalysisResult.template_metrics r)
      = 3 /\
    In ("", 2)
      (TemplateMetrics.most_instantiated (AnalysisResult.template_metrics r)).
Proof.
  destruct (Analyzer.analyze
              (Analyzer.make []
                 [ {| traceEvents :=
                        Some [ {| ev_name := Some "InstantiateClass";
                                  ev_dur := Some (NInt 20000);
                                  ev_args := Some [("count", "1")] |};
                               {| ev_name := Some "Source";
                                  ev_dur := Some (NInt 300);
                                  ev_args := None |};
                               {| ev_name := Some "InstantiateClass";
                                  ev_dur := Some (NInt 500);
                                  ev_args :=
                                    Some [("detail", "std::vector<int>")] |};
                               {| ev_name := Some "InstantiateFunction";
                                  ev_dur := Some (NInt 700);
                                  ev_args := None |} ] |} ]))
    as [[r self']|e] eqn:H; [|vm_compute in H; discriminate].
  exists r, self'. split; [reflexivity|].
  destruct (proj2 (proj2 (proj2 C10_template_without_detail)) _ _ _ H)
    as (Htotal & _ & Hevent).
  split; [exact Htotal|].
  refine (proj2 (Hevent _ _ (or_introl eq_refl) (or_introl eq_refl)
                   eq_refl eq_refl) _).
  vm_compute. discriminate.
Defined.

(** ** The repository's test of the parser *)

(** [TestCompilationUnit.test_from_clang_trace_json] *)
Example test_from_clang_trace_json :
  exists unit,
    CompilationUnit.from_json
      {| traceEvents :=
           Some [ {| ev_name := Some "Total ExecuteCompiler";
                     ev_dur := Some (NInt 5000000); ev_args := None |};
                  {| ev_name := Some "Total Frontend";
                     ev_dur := Some (NInt 3000000); ev_args := None |};
                  {| ev_name := Some "Total Backend";
                     ev_dur := Some (NInt 2000000); ev_args := None |};
                  {| ev_name := Some "Source";
                     ev_dur := Some (NInt 100000);
                     ev_args := Some [("detail", "vector")] |};
                  {| ev_name := Some "Source";
                     ev_dur := Some (NInt 50000);
                     ev_args := Some [("detail", "string")] |};
                  {| ev_name := Some "InstantiateClass";
                     ev_dur := Some (NInt 200000);
                     ev_args := Some [("detail", "std::vector<int>")] |} ] |}
      "test.cpp" = Return unit /\
    CompilationUnit.source_file unit = "test.cpp" /\
    Duration.milliseconds (CompilationUnit.total_time unit) =
      Return (Float.of_Z 5000) /\
    Duration.milliseconds (CompilationUnit.frontend_time unit) =
      Return (Float.of_Z 3000) /\
    len (CompilationUnit.includes unit) = 2 /\
    len (CompilationUnit.templates unit) = 1.
Proof.
  eexists. split; [reflexivity|]. repeat split.
Qed.

(** ** The repository's tests of Duration *)

(** [TestDuration.test_duration_milliseconds] *)
Example test_duration_milliseconds :
  (d <- Duration.from_milliseconds (NInt 100) ;; Duration.milliseconds d) =
  Return (Float.of_Z 100).
Proof. reflexivity. Qed.

(** [TestDuration.test_duration_addition] *)
Example test_duration_addition :
  (d1 <- Duration.from_milliseconds (NInt 100) ;;
   d2 <- Duration.from_milliseconds (NInt 50) ;;
   Duration.milliseconds (Duration.__add__ d1 d2)) =
  Return (Float.of_Z 150).
Proof. reflexivity. Qed.

(** [TestDuration.test_from_seconds], with 2.5 computed as 5 / 2. *)
Example test_from_seconds :
  exists d,
    Duration.from_seconds (NFloat (Float.div (Float.of_Z 5) (Float.of_Z 2)))
      = Return d /\
    Duration.seconds d = Return (Float.div (Float.of_Z 5) (Float.of_Z 2)) /\
    Duration.milliseconds d = Return (Float.of_Z 2500).
Proof. eexists. split; [reflexivity|]. split; reflexivity. Qed.

(** [TestDuration.test_comparison] *)
Example test_comparison :
  let d1 := Duration.Duration 100000000 in
  let d2 := Duration.Duration 200000000 in
  let d3 := Duration.Duration 100000000 in
  Duration.from_milliseconds (NInt 100) = Return d1 /\
  Duration.from_milliseconds (NInt 200) = Return d2 /\
  Duration.__lt__ d1 d2 = true /\
  Duration.__gt__ d2 d1 = true /\
  Duration.__eq__ d1 d3 = true /\
  Duration.__le__ d1 d3 = true /\
  Duration.__ge__ d1 d3 = true.
Proof. repeat split. Qed.

(** [TestDuration.test_arithmetic] *)
Example test_arithmetic :
  let d1 := Duration.Duration 100000000 in
  let d2 := Duration.Duration 50000000 in
  Duration.milliseconds (Duration.__add__ d1 d2) = Return (Float.of_Z 150) /\
  Duration.milliseconds (Duration.__sub__ d1 d2) = Return (Float.of_Z 50).
Proof. split; reflexivity. Qed.

(** * Further properties *)

(** ** The parser, event by event *)

(** X1: the includes of a parsed unit are the [Source] events that have a
    [detail], one IncludeInfo per event in the order of the document, made
    of the event's detail and time with every other field at its default;
    nothing is merged or reordered. The templates are the
    [InstantiateClass] and [InstantiateFunction] events in the same way. *)
Theorem parser_keeps_event_order (data : TraceDocument)
  (source_hint : string) (u : CompilationUnit.t) :
  CompilationUnit.from_json data source_hint = Return u ->
  Forall2 include_of (filter (is_kind KSource) (events data))
    (CompilationUnit.includes u) /\
  Forall2 template_of (filter (is_kind KTemplate) (events data))
    (CompilationUnit.templates u).
Proof.
  unfold CompilationUnit.from_json. fold (events data). intros H.
  apply parse_loop_lists in H
    as (_ & _ & (incs & Hi & Hf) & (tmpls & Ht & Hg)).
  simpl in Hi, Ht. subst. split; assumption.
Qed.

(** Two [Source] events for the same header stay two includes. *)
Lemma parser_keeps_event_order_witness :
  Forall2 include_of
    [ {| ev_name := Some "Source"; ev_dur := Some (NInt 7);
         ev_args := Some [("detail", "a.h")] |};
      {| ev_name := Some "Source"; ev_dur := Some (NInt 9);
         ev_args := Some [("detail", "a.h")] |} ]
    [ IncludeInfo.make "a.h" (Duration.Duration 7000);
      IncludeInfo.make "a.h" (Duration.Duration 9000) ].
Proof.
  apply (parser_keeps_event_order
           {| traceEvents :=
                Some [ {| ev_name := Some "Source"; ev_dur := Some (NInt 7);
                          ev_args := Some [("detail", "a.h")] |};
                       {| ev_name := Some "Source"; ev_dur := None;
                          ev_args := None |};
                       {| ev_name := Some "Source"; ev_dur := Some (NInt 9);
                          ev_args := Some [("detail", "a.h")] |} ] |}
           "main.cpp"
           (CompilationUnit.CompilationUnit "main.cpp" UNKNOWN
              Duration.default Duration.default Duration.default
              [ IncludeInfo.make "a.h" (Duration.Duration 7000);
                IncludeInfo.make "a.h" (Duration.Duration 9000) ] [] [])).
  reflexivity.
Defined.

(** X2: [total_time], [frontend_time] and [backend_time] of a parsed unit
    are the converted [dur] of the last [Total ExecuteCompiler],
    [Total Frontend] and [Total Backend] event of the document (earlier
    ones are overwritten), and zero when the document has no such event. *)
Theorem parser_last_total_wins (data : TraceDocument) (source_hint : string)
  (u : CompilationUnit.t) :
  CompilationUnit.from_json data source_hint = Return u ->
  Return (CompilationUnit.total_time u) = time_of_last KTotal (events data) /\
  Return (CompilationUnit.frontend_time u) =
    time_of_last KFrontend (events data) /\
  Return (CompilationUnit.backend_time u) =
    time_of_last KBackend (events data).
Proof.
  unfold CompilationUnit.from_json, time_of_last. fold (events data).
  intros H. repeat split.
  - apply (last_event_wins KTotal CompilationUnit.total_time) in H;
      [exact H|].
    intros unit unit' event Hev.
    apply from_json_event_effect in Hev. tauto.
  - apply (last_event_wins KFrontend CompilationUnit.frontend_time) in H;
      [exact H|].
    intros unit unit' event Hev.
    apply from_json_event_effect in Hev. tauto.
  - apply (last_event_wins KBackend CompilationUnit.backend_time) in H;
      [exact H|].
    intros unit unit' event Hev.
    apply from_json_event_effect in Hev. tauto.
Qed.

(** Of two [Total ExecuteCompiler] events the second one is kept. *)
Lemma parser_last_total_wins_witness :
  Return (Duration.Duration 3000) =
  time_of_last KTotal
    [ {| ev_name := Some "Total ExecuteCompiler"; ev_dur := Some (NInt 5);
         ev_args := None |};
      {| ev_name := Some "Total ExecuteCompiler"; ev_dur := Some (NInt 3);
         ev_args := None |} ].
Proof.
  apply (parser_last_total_wins
           {| traceEvents :=
                Some [ {| ev_name := Some "Total ExecuteCompiler";
                          ev_dur := Some (NInt 5); ev_args := None |};
                       {| ev_name := Some "Total ExecuteCompiler";
                          ev_dur := Some (NInt 3); ev_args := None |} ] |}
           "main.cpp"
           (CompilationUnit.CompilationUnit "main.cpp" UNKNOWN
              (Duration.Duration 3000) Duration.default Duration.default
              [] [] [])).
  reflexivity.
Defined.

(** X3: a parsed unit has the [source_hint] as its [source_file] and no
    symbols: the parser never fills [symbols]. *)
Theorem parser_source_file_and_symbols (data : TraceDocument)
  (source_hint : string) (u : CompilationUnit.t) :
  CompilationUnit.from_json data source_hint = Return u ->
  CompilationUnit.source_file u = source_hint /\
  CompilationUnit.symbols u = [].
Proof.
  unfold CompilationUnit.from_json. intros H.
  apply parse_loop_lists in H as (Hs & Hy & _). split; assumption.
Qed.

(** A document with a [Source] event and a template event. *)
Lemma parser_source_file_and_symbols_witness :
  exists u,
    CompilationUnit.from_json
      {| traceEvents :=
           Some [ {| ev_name := Some "Source"; ev_dur := Some (NInt 7);
                     ev_args := Some [("detail", "a.h")] |};
                  {| ev_name := Some "InstantiateClass";
                     ev_dur := Some (NInt 9);
                     ev_args := Some [("detail", "T<int>")] |} ] |}
      "main.cpp" = Return u /\
    CompilationUnit.source_file u = "main.cpp" /\
    CompilationUnit.symbols u = [].
Proof.
  eexists. split; [reflexivity|].
  apply (parser_source_file_and_symbols
           {| traceEvents :=
                Some [ {| ev_name := Some "Source"; ev_dur := Some (NInt 7);
                          ev_args := Some [("detail", "a.h")] |};
                       {| ev_name := Some "InstantiateClass";
                          ev_dur := Some (NInt 9);
                          ev_args := Some [("detail", "T<int>")] |} ] |}
           "main.cpp").
  reflexivity.
Defined.

(** X4: events the parser does not consume (a name it does not know, a
    missing name, a [Source] event without [detail]) change nothing, and
    their [dur] is never converted: removing them from the document gives
    the same result or the same exception. *)
Theorem parser_ignores_other_events (data : TraceDocument)
  (source_hint : string) :
  CompilationUnit.from_json
    {| traceEvents := Some (filter consumed (events data)) |} source_hint =
  CompilationUnit.from_json data source_hint.
Proof.
  unfold CompilationUnit.from_json. fold (events data). simpl.
  apply for_each_filter. intros unit event Hskip.
  rewrite from_json_event_by_kind.
  unfold consumed, is_kind in Hskip.
  destruct (kind_of event); simpl in Hskip; (discriminate || reflexivity).
Qed.

(** ** When the parser raises *)

Lemma from_microseconds_raises (us : number) (e : exn) :
  Duration.from_microseconds us = Raise e ->
  e = OverflowError \/ e = ValueError.
Proof.
  unfold Duration.from_microseconds, int_of_scaled.
  destruct us as [z|f]; [discriminate|].
  destruct (Float.mul f (Float.of_Z 1000)) as [s|s| |s m x]; simpl;
    intros H; try discriminate; injection H as <-; auto.
Qed.

(** An event raises exactly when it is consumed and its [dur] does not
    convert. *)
Lemma from_json_event_outcome (unit : CompilationUnit.t)
  (event : TraceEvent) :
  match (if consumed event
         then Duration.from_microseconds (event_dur event)
         else Return Duration.default) with
  | Raise e => CompilationUnit.from_json_event unit event = Raise e
  | Return _ =>
      exists unit', CompilationUnit.from_json_event unit event = Return unit'
  end.
Proof.
  rewrite from_json_event_by_kind. unfold consumed, is_kind.
  destruct (kind_of event); simpl;
    try (destruct (Duration.from_microseconds (event_dur event)); simpl);
    eauto.
Qed.

Lemma parse_loop_outcome (l : list TraceEvent) :
  forall unit,
    match first_error l with
    | Some e => for_each CompilationUnit.from_json_event l unit = Raise e
    | None =>
        exists unit',
          for_each CompilationUnit.from_json_event l unit = Return unit'
    end.
Proof.
  induction l as [|event l IH]; simpl; intros unit; [eauto|].
  pose proof (from_json_event_outcome unit event) as Hev.
  destruct (consumed event).
  - destruct (Duration.from_microseconds (event_dur event)) as [d|e].
    + destruct Hev as (unit1 & ->). simpl. apply IH.
    + rewrite Hev. reflexivity.
  - destruct Hev as (unit1 & ->). simpl. apply IH.
Qed.

Lemma first_error_kind (l : list TraceEvent) (e : exn) :
  first_error l = Some e -> e = OverflowError \/ e = ValueError.
Proof.
  induction l as [|event l IH]; simpl; [discriminate|].
  destruct (consumed event); [|exact IH].
  destruct (Duration.from_microseconds (event_dur event)) as [d|e'] eqn:Hd;
    [exact IH|].
  intros H. injection H as <-. apply (from_microseconds_raises _ _ Hd).
Qed.

(** X5: on a trace document of the modelled shape (events that are
    objects with, where present, an int or float [dur] and an object
    [args]), [from_json] raises exactly when some consumed event has a
    [dur] that [int(dur * 1000)] rejects, with the exception of the first
    such event, which is OverflowError (an infinite product) or ValueError
    (a NaN); otherwise it returns a unit. It returns, in particular, when
    every [dur] is an int. Documents outside the shape, such as one with a
    [dur] or an [args] of null, are not covered. *)
Theorem parser_raises_on_first_bad_dur (data : TraceDocument)
  (source_hint : string) :
  (forall e,
     CompilationUnit.from_json data source_hint = Raise e <->
     first_error (events data) = Some e) /\
  ((exists u, CompilationUnit.from_json data source_hint = Return u) <->
   first_error (events data) = None) /\
  (forall e,
     CompilationUnit.from_json data source_hint = Raise e ->
     e = OverflowError \/ e = ValueError) /\
  ((forall event, In event (events data) ->
      is_int (event_dur event) = true) ->
   exists u, CompilationUnit.from_json data source_hint = Return u).
Proof.
  unfold CompilationUnit.from_json. fold (events data).
  pose proof (parse_loop_outcome (events data)
                (CompilationUnit.make source_hint)) as Hout.
  assert (Hiff : forall e,
             for_each CompilationUnit.from_json_event (events data)
               (CompilationUnit.make source_hint) = Raise e <->
             first_error (events data) = Some e).
  { intros e. destruct (first_error (events data)) as [e'|].
    - rewrite Hout. split; intros H; injection H as <-; reflexivity.
    - destruct Hout as (u & ->). split; discriminate. }
  split; [exact Hiff|]. split; [|split].
  - destruct (first_error (events data)) as [e'|].
    + rewrite Hout. split; [intros (u & H)|intros H]; discriminate.
    + split; [reflexivity | intros _; exact Hout].
  - intros e He. apply Hiff in He. apply (first_error_kind _ _ He).
  - intros Hint.
    destruct (for_each_returns (fun _ => True)
                CompilationUnit.from_json_event (events data)) with
      (s := CompilationUnit.make source_hint) as (r & Hr & _); eauto.
    intros s x Hin _.
    destruct (from_json_event_int s x (Hint x Hin)) as (s' & Hs'). eauto.
Qed.

(** An infinite [dur] on a [Source] event raises OverflowError, also after
    events that parse. *)
Lemma parser_raises_on_first_bad_dur_witness :
  CompilationUnit.from_json
    {| traceEvents :=
         Some [ {| ev_name := Some "Total ExecuteCompiler";
                   ev_dur := Some (NInt 5); ev_args := None |};
                {| ev_name := Some "Source";
                   ev_dur := Some (NFloat (S754_infinity false));
                   ev_args := Some [("detail", "a.h")] |} ] |}
    "main.cpp" = Raise OverflowError.
Proof.
  apply (proj1 (parser_raises_on_first_bad_dur _ _)). reflexivity.
Defined.

(** ** More on the aggregator's result *)

(** X6: the result has one FileMetrics per unit, in the order of the
    units, holding the unit's source file, its total time in milliseconds
    and the lengths of its two lists; [file_count] is the number of units
    and [total_compile_time] is the exact sum of the units' total times. *)
Theorem aggregator_file_metrics (units : list CompilationUnit.t)
  (r : AnalysisResult.t) :
  AnalysisResult.from_compilation_units units = Return r ->
  AnalysisResult.file_count r = len units /\
  len (AnalysisResult.file_metrics r) = len units /\
  Forall2 metric_of units (AnalysisResult.file_metrics r) /\
  Duration.nanoseconds (AnalysisResult.total_compile_time r) =
    fold_right Z.add 0
      (map (fun u => Duration.nanoseconds (CompilationUnit.total_time u))
         units).
Proof.
  intros Hr.
  destruct (from_compilation_units_spec units r Hr)
    as (st & -> & _ & _ & Hfms & Htotal).
  simpl. repeat split; try assumption.
  unfold len. rewrite (Forall2_length Hfms). reflexivity.
Qed.

(** Two units: two file metrics, 3 s in all. *)
Lemma aggregator_file_metrics_witness :
  exists r,
    AnalysisResult.from_compilation_units
      [unit_with "a.cpp" 2000000000 [("vector", 100000000)];
       unit_with "b.cpp" 1000000000 []] = Return r /\
    map FileMetrics.file_path (AnalysisResult.file_metrics r) =
      ["a.cpp"; "b.cpp"] /\
    Duration.nanoseconds (AnalysisResult.total_compile_time r) = 3000000000.
Proof.
  destruct (AnalysisResult.from_compilation_units
              [unit_with "a.cpp" 2000000000 [("vector", 100000000)];
               unit_with "b.cpp" 1000000000 []]) as [r|e] eqn:Hr;
    [|vm_compute in Hr; discriminate].
  exists r. split; [reflexivity|].
  destruct (aggregator_file_metrics _ r Hr) as (_ & _ & _ & Htotal).
  split; [|exact Htotal].
  vm_compute in Hr. injection Hr as <-. reflexivity.
Defined.

Lemma template_names_length (units : list CompilationUnit.t) :
  len (all_template_names units) =
  fold_right Z.add 0 (map (fun u => len (CompilationUnit.templates u)) units).
Proof.
  unfold len, all_template_names. induction units as [|u units IH]; simpl.
  - reflexivity.
  - rewrite length_app, length_map, <- IH. lia.
Qed.

(** X7: [total_instantiations] is the sum of the lengths of the units'
    [templates] lists, whatever their [instantiation_count] fields hold,
    and [unique_templates] is the number of distinct template names, at
    most [total_instantiations]. *)
Theorem aggregator_template_totals (units : list CompilationUnit.t)
  (r : AnalysisResult.t) :
  AnalysisResult.from_compilation_units units = Return r ->
  let tm := AnalysisResult.template_metrics r in
  TemplateMetrics.total_instantiations tm =
    fold_right Z.add 0
      (map (fun u => len (CompilationUnit.templates u)) units) /\
  (exists distinct,
     NoDup distinct /\
     (forall name, In name distinct <-> In name (all_template_names units))
     /\ TemplateMetrics.unique_templates tm = len distinct) /\
  TemplateMetrics.unique_templates tm <=
    TemplateMetrics.total_instantiations tm.
Proof.
  intros Hr.
  destruct (from_compilation_units_spec units r Hr)
    as (st & -> & _ & Hn & _ & _).
  simpl. rewrite <- template_names_length.
  assert (Hsum : sum (Dict.values (AnalysisResult.template_counts st)) =
                 len (all_template_names units)).
  { rewrite Hn, <- counting_from_empty, sum_values_counting. reflexivity. }
  assert (Hlen : Dict.len (AnalysisResult.template_counts st) =
                 len (first_seen (all_template_names units))).
  { rewrite Hn. unfold Dict.len, counted, len. rewrite length_map.
    reflexivity. }
  rewrite Hsum, Hlen. split; [reflexivity|]. split.
  - exists (first_seen (all_template_names units)).
    split; [apply first_seen_NoDup|].
    split; [apply first_seen_In | reflexivity].
  - unfold len.
    pose proof (first_seen_length (all_template_names units)). lia.
Qed.

(** One template with [instantiation_count] 40 counts once. *)
Lemma aggregator_template_totals_witness :
  exists r,
    AnalysisResult.from_compilation_units
      [CompilationUnit.CompilationUnit "a.cpp" UNKNOWN
         (Duration.Duration 1000) Duration.default Duration.default []
         [TemplateInstantiation.TemplateInstantiation "std::vector"
            (Duration.Duration 5) "" "" 0 40] []] = Return r /\
    TemplateMetrics.total_instantiations (AnalysisResult.template_metrics r)
      = 1.
Proof.
  destruct (AnalysisResult.from_compilation_units
              [CompilationUnit.CompilationUnit "a.cpp" UNKNOWN
                 (Duration.Duration 1000) Duration.default Duration.default
                 []
                 [TemplateInstantiation.TemplateInstantiation "std::vector"
                    (Duration.Duration 5) "" "" 0 40] []]) as [r|e] eqn:Hr;
    [|vm_compute in Hr; discriminate].
  exists r. split; [reflexivity|].
  destruct (aggregator_template_totals _ r Hr) as (Htotal & _).
  exact Htotal.
Defined.

(** X8: [most_instantiated] has [min(10, unique_templates)] entries, each
    a template name with its number of occurrences, sorted by count
    descending, names with equal counts in the order of their first
    occurrence in the input. *)
Theorem aggregator_most_instantiated (units : list CompilationUnit.t)
  (r : AnalysisResult.t) :
  AnalysisResult.from_compilation_units units = Return r ->
  let tm := AnalysisResult.template_metrics r in
  len (TemplateMetrics.most_instantiated tm) =
    Z.min 10 (TemplateMetrics.unique_templates tm) /\
  (forall entry, In entry (TemplateMetrics.most_instantiated tm) ->
     In (fst entry) (first_seen (all_template_names units)) /\
     snd entry = occurrences (fst entry) (all_template_names units)) /\
  StronglySorted (fun a b => snd a >= snd b)
    (TemplateMetrics.most_instantiated tm) /\
  (forall c, exists rest,
     filter (has_count c) (counted (all_template_names units)) =
     filter (has_count c) (TemplateMetrics.most_instantiated tm) ++ rest).
Proof.
  intros Hr.
  destruct (from_compilation_units_spec units r Hr)
    as (st & -> & _ & Hn & _ & _).
  simpl. rewrite Hn. unfold AnalysisResult.top_counts, Dict.items.
  set (names := all_template_names units).
  split; [|split; [|split]].
  - rewrite slice_10_length. unfold len, Dict.len.
    rewrite (Permutation_length (sorted_reverse_perm snd (counted names))).
    reflexivity.
  - intros entry Hentry. apply slice_10_In in Hentry.
    apply (Permutation_in _ (sorted_reverse_perm snd (counted names)))
      in Hentry.
    unfold counted in Hentry. apply in_map_iff in Hentry as (p & <- & Hp).
    split; [exact Hp | reflexivity].
  - apply slice_10_sorted, sorted_reverse_sorted.
  - intros c.
    destruct (slice_10_filter (has_count c)
                (sorted_reverse snd Z.ltb (counted names))) as (rest & Hrest).
    exists rest. rewrite <- Hrest. symmetry.
    apply (sorted_reverse_stable snd c).
Qed.

(** Two names once each: the one met first comes first. *)
Lemma aggregator_most_instantiated_witness :
  exists r,
    AnalysisResult.from_compilation_units
      [CompilationUnit.CompilationUnit "a.cpp" UNKNOWN
         (Duration.Duration 1000) Duration.default Duration.default []
         [TemplateInstantiation.make "std::vector" (Duration.Duration 5);
          TemplateInstantiation.make "std::map" (Duration.Duration 7)] []]
      = Return r /\
    len (TemplateMetrics.most_instantiated
           (AnalysisResult.template_metrics r)) =
      Z.min 10
        (TemplateMetrics.unique_templates (AnalysisResult.template_metrics r)).
Proof.
  destruct (AnalysisResult.from_compilation_units
              [CompilationUnit.CompilationUnit "a.cpp" UNKNOWN
                 (Duration.Duration 1000) Duration.default Duration.default
                 []
                 [TemplateInstantiation.make "std::vector"
                    (Duration.Duration 5);
                  TemplateInstantiation.make "std::map" (Duration.Duration 7)]
                 []]) as [r|e] eqn:Hr;
    [|vm_compute in Hr; discriminate].
  exists r. split; [reflexivity|].
  destruct (aggregator_most_instantiated _ r Hr) as (Hlen & _).
  exact Hlen.
Defined.

(** X9: the aggregator never computes [max_depth], [total_include_time],
    [total_template_time], the symbol metrics or the dependency metrics,
    nor the [lines_of_code], [include_depth], [is_header] and [includers]
    of a file: in every result they have their defaults, whatever the
    units hold. *)
Theorem aggregator_leaves_defaults (units : list CompilationUnit.t)
  (r : AnalysisResult.t) :
  AnalysisResult.from_compilation_units units = Return r ->
  IncludeMetrics.max_depth (AnalysisResult.include_metrics r) = 0 /\
  IncludeMetrics.total_include_time (AnalysisResult.include_metrics r) =
    Duration.Duration 0 /\
  TemplateMetrics.total_template_time (AnalysisResult.template_metrics r) =
    Duration.Duration 0 /\
  AnalysisResult.symbol_metrics r = SymbolMetrics.SymbolMetrics 0 0 0 0 /\
  AnalysisResult.dependency_metrics r =
    DependencyMetrics.DependencyMetrics 0 0 0 0 /\
  Forall (fun fm =>
            FileMetrics.lines_of_code fm = 0 /\
            FileMetrics.include_depth fm = 0 /\
            FileMetrics.is_header fm = false /\
            FileMetrics.includers fm = [])
    (AnalysisResult.file_metrics r).
Proof.
  intros Hr.
  destruct (from_compilation_units_spec units r Hr)
    as (st & -> & _ & _ & Hfms & _).
  simpl. repeat split. clear Hr.
  induction Hfms as [|u fm us fms (_ & Hfm) _ IH]; [constructor|].
  constructor; [|exact IH].
  rewrite Hfm. simpl. repeat split.
Qed.

(** A unit named like a header, with an include of 100 ms: the include
    time total stays zero and [is_header] false. *)
Lemma aggregator_leaves_defaults_witness :
  exists r,
    AnalysisResult.from_compilation_units
      [unit_with "widget.hpp" 2000000000 [("vector", 100000000)]]
      = Return r /\
    IncludeMetrics.total_include_time (AnalysisResult.include_metrics r) =
      Duration.Duration 0 /\
    map FileMetrics.is_header (AnalysisResult.file_metrics r) = [false].
Proof.
  destruct (AnalysisResult.from_compilation_units
              [unit_with "widget.hpp" 2000000000 [("vector", 100000000)]])
    as [r|e] eqn:Hr; [|vm_compute in Hr; discriminate].
  exists r. split; [reflexivity|].
  destruct (aggregator_leaves_defaults _ r Hr) as (_ & Hinc & _).
  split; [exact Hinc|].
  vm_compute in Hr. injection Hr as <-. reflexivity.
Defined.

(** ** The dicts of times *)

Section SortedReverseAny.
Context {A K : Type} (key : A -> K) (ltb : K -> K -> bool).

Lemma insert_desc_perm_any (x : A) (l : list A) :
  Permutation (insert_desc key ltb x l) (x :: l).
Proof.
  induction l as [|y l IH]; simpl.
  - apply Permutation_refl.
  - destruct (ltb (key x) (key y)).
    + apply Permutation_trans with (y :: x :: l).
      * apply perm_skip, IH.
      * apply perm_swap.
    + apply Permutation_refl.
Qed.

(** Whatever the order [ltb], the result has the elements of the input. *)
Lemma sorted_reverse_perm_any (l : list A) :
  Permutation (sorted_reverse key ltb l) l.
Proof.
  induction l as [|x l IH]; simpl.
  - apply perm_nil.
  - apply Permutation_trans with (x :: sorted_reverse key ltb l).
    + apply insert_desc_perm_any.
    + apply perm_skip, IH.
Qed.
End SortedReverseAny.

Lemma mem_keys {V : Type} (d : Dict.dict V) (k : string) :
  Dict.mem d k = existsb (String.eqb k) (Dict.keys d).
Proof.
  induction d as [|[k' v] d IH]; simpl; [reflexivity|].
  rewrite IH. reflexivity.
Qed.

Lemma keys_set {V : Type} (d : Dict.dict V) (k : string) (v : V) :
  Dict.keys (Dict.set d k v) =
  if Dict.mem d k then Dict.keys d else Dict.keys d ++ [k].
Proof.
  induction d as [|[k' v'] d IH]; simpl; [reflexivity|].
  destruct (String.eqb k k'); simpl; [reflexivity|].
  rewrite IH. destruct (Dict.mem d k); reflexivity.
Qed.

(** A store changes the keys the same way in two dicts with the same
    keys. *)
Lemma keys_set_same {V W : Type} (d : Dict.dict V) (d' : Dict.dict W)
  (k : string) (v : V) (w : W) :
  Dict.keys d = Dict.keys d' ->
  Dict.keys (Dict.set d k v) = Dict.keys (Dict.set d' k w).
Proof.
  intros H. rewrite !keys_set, !mem_keys, H. reflexivity.
Qed.

Lemma tally_keys (st st' : Dict.dict Z * Dict.dict Float.float)
  (entry : string * Duration.t) :
  AnalysisResult.tally st entry = Return st' ->
  Dict.keys (fst st) = Dict.keys (snd st) ->
  Dict.keys (fst st') = Dict.keys (snd st').
Proof.
  destruct st as [counts times], entry as [key time]. simpl. intros H Hk.
  apply bind_Return in H as (ms & _ & H). injection H as <-. simpl.
  apply keys_set_same, Hk.
Qed.

Lemma add_unit_keys (st st' : AnalysisResult.locals)
  (unit : CompilationUnit.t) :
  AnalysisResult.add_unit st unit = Return st' ->
  Dict.keys (AnalysisResult.include_counts st) =
    Dict.keys (AnalysisResult.include_times st) /\
  Dict.keys (AnalysisResult.template_counts st) =
    Dict.keys (AnalysisResult.template_times st) ->
  Dict.keys (AnalysisResult.include_counts st') =
    Dict.keys (AnalysisResult.include_times st') /\
  Dict.keys (AnalysisResult.template_counts st') =
    Dict.keys (AnalysisResult.template_times st').
Proof.
  unfold AnalysisResult.add_unit. intros H (Hi & Ht).
  apply bind_Return in H as (ms & _ & H).
  apply bind_Return in H as (inc & Hinc & H).
  apply bind_Return in H as (tmpl & Htmpl & H).
  injection H as <-. simpl. split.
  - revert Hinc.
    apply (for_each_invariant
             (fun st0 => Dict.keys (fst st0) = Dict.keys (snd st0)));
      [|exact Hi].
    intros s x s' _ Hs Hx. apply (tally_keys _ _ _ Hx Hs).
  - revert Htmpl.
    apply (for_each_invariant
             (fun st0 => Dict.keys (fst st0) = Dict.keys (snd st0)));
      [|exact Ht].
    intros s x s' _ Hs Hx. apply (tally_keys _ _ _ Hx Hs).
Qed.

Lemma counted_keys (l : list string) : Dict.keys (counted l) = first_seen l.
Proof.
  unfold Dict.keys, counted. rewrite map_map. simpl. apply map_id.
Qed.

Lemma top_times_of_keys (d : Dict.dict Float.float) :
  NoDup (Dict.keys d) ->
  top_ten_of (Dict.keys d) (AnalysisResult.top_times d).
Proof.
  intros Hnd. unfold AnalysisResult.top_times, Dict.items, top_ten_of.
  pose proof (sorted_reverse_perm_any snd Float.ltb d) as Hperm.
  set (sorted := sorted_reverse snd Float.ltb d) in *.
  assert (Hkeys : Permutation (map fst sorted) (Dict.keys d))
    by (apply Permutation_map, Hperm).
  split; [|split; [|split]].
  - rewrite slice_10_length. unfold len, Dict.keys.
    rewrite (Permutation_length Hperm), length_map. reflexivity.
  - unfold slice_10. rewrite <- firstn_map.
    apply (NoDup_app_remove_r _ (skipn 10 (map fst sorted))).
    rewrite firstn_skipn.
    apply (Permutation_NoDup (Permutation_sym Hkeys) Hnd).
  - intros k Hk. apply (Permutation_in _ Hkeys).
    apply in_map_iff in Hk as (entry & <- & Hentry).
    apply in_map, slice_10_In, Hentry.
  - intros Hlen k Hk. unfold slice_10. rewrite firstn_all2.
    + apply (Permutation_in _ (Permutation_sym Hkeys) Hk).
    + rewrite (Permutation_length Hperm). unfold len, Dict.keys in Hlen.
      rewrite length_map in Hlen. lia.
Qed.

(** The dicts of times have the keys of the dicts of counts. *)
Lemma from_compilation_units_times (units : list CompilationUnit.t)
  (r : AnalysisResult.t) :
  AnalysisResult.from_compilation_units units = Return r ->
  exists st,
    r = AnalysisResult.finish (len units) st /\
    AnalysisResult.include_counts st = counted (all_header_paths units) /\
    AnalysisResult.template_counts st = counted (all_template_names units) /\
    Dict.keys (AnalysisResult.include_times st) =
      first_seen (all_header_paths units) /\
    Dict.keys (AnalysisResult.template_times st) =
      first_seen (all_template_names units).
Proof.
  unfold AnalysisResult.from_compilation_units. intros H.
  apply bind_Return in H as (st & Hloop & H). injection H as <-.
  assert (Hkeys :
            Dict.keys (AnalysisResult.include_counts st) =
              Dict.keys (AnalysisResult.include_times st) /\
            Dict.keys (AnalysisResult.template_counts st) =
              Dict.keys (AnalysisResult.template_times st)).
  { revert Hloop.
    apply (for_each_invariant
             (fun st0 =>
                Dict.keys (AnalysisResult.include_counts st0) =
                  Dict.keys (AnalysisResult.include_times st0) /\
                Dict.keys (AnalysisResult.template_counts st0) =
                  Dict.keys (AnalysisResult.template_times st0))).
    - intros s x s' _ Hs Hx. apply (add_unit_keys _ _ _ Hx Hs).
    - split; reflexivity. }
  apply units_loop_spec in Hloop as (_ & _ & Hi & Hn).
  simpl in Hi, Hn. rewrite counting_from_empty in Hi, Hn.
  destruct Hkeys as (Hki & Hkt). rewrite Hi in Hki. rewrite Hn in Hkt.
  rewrite counted_keys in Hki, Hkt.
  exists st. repeat split; auto.
Qed.

(** X10: [slowest_includes] lists [min(10, unique_includes)] header paths
    of the input, each once, and every header path when there are at most
    ten; [slowest_templates] does the same for the template names. *)
Theorem aggregator_slowest_lists (units : list CompilationUnit.t)
  (r : AnalysisResult.t) :
  AnalysisResult.from_compilation_units units = Return r ->
  top_ten_of (first_seen (all_header_paths units))
    (IncludeMetrics.slowest_includes (AnalysisResult.include_metrics r)) /\
  len (IncludeMetrics.slowest_includes (AnalysisResult.include_metrics r)) =
    Z.min 10
      (IncludeMetrics.unique_includes (AnalysisResult.include_metrics r)) /\
  top_ten_of (first_seen (all_template_names units))
    (TemplateMetrics.slowest_templates (AnalysisResult.template_metrics r)) /\
  len (TemplateMetrics.slowest_templates (AnalysisResult.template_metrics r))
    = Z.min 10
        (TemplateMetrics.unique_templates
           (AnalysisResult.template_metrics r)).
Proof.
  intros Hr.
  destruct (from_compilation_units_times units r Hr)
    as (st & -> & Hi & Hn & Hki & Hkt).
  simpl.
  pose proof (top_times_of_keys (AnalysisResult.include_times st)) as Htop_i.
  pose proof (top_times_of_keys (AnalysisResult.template_times st))
    as Htop_t.
  rewrite Hki in Htop_i. rewrite Hkt in Htop_t.
  specialize (Htop_i (first_seen_NoDup _)).
  specialize (Htop_t (first_seen_NoDup _)).
  split; [exact Htop_i|]. split.
  { destruct Htop_i as (Hlen & _). rewrite Hlen, Hi.
    unfold Dict.len, counted, len. rewrite length_map. reflexivity. }
  split; [exact Htop_t|].
  destruct Htop_t as (Hlen & _). rewrite Hlen, Hn.
  unfold Dict.len, counted, len. rewrite length_map. reflexivity.
Qed.

(** Three includes of two headers: two entries. *)
Lemma aggregator_slowest_lists_witness :
  exists r,
    AnalysisResult.from_compilation_units
      [unit_with "a.cpp" 2000000000
         [("vector", 100000000); ("map", 50000000); ("vector", 1000000)]]
      = Return r /\
    len (IncludeMetrics.slowest_includes (AnalysisResult.include_metrics r))
      = Z.min 10
          (IncludeMetrics.unique_includes (AnalysisResult.include_metrics r)).
Proof.
  destruct (AnalysisResult.from_compilation_units
              [unit_with "a.cpp" 2000000000
                 [("vector", 100000000); ("map", 50000000);
                  ("vector", 1000000)]]) as [r|e] eqn:Hr;
    [|vm_compute in Hr; discriminate].
  exists r. split; [reflexivity|].
  destruct (aggregator_slowest_lists _ r Hr) as (_ & Hlen & _).
  exact Hlen.
Defined.

(** ** When the aggregator raises *)

Lemma for_each_raises {A S : Type} (P : exn -> Prop)
  (body : S -> A -> result S) (l : list A) :
  (forall s x e, In x l -> body s x = Raise e -> P e) ->
  forall s e, for_each body l s = Raise e -> P e.
Proof.
  induction l as [|x l IH]; simpl; intros Hbody s e H; [discriminate|].
  destruct (body s x) as [s'|e'] eqn:Hx; simpl in H.
  - apply (IH (fun s0 y e0 Hy => Hbody s0 y e0 (or_intror Hy)) s' e H).
  - injection H as <-. apply (Hbody s x e' (or_introl eq_refl) Hx).
Qed.

Lemma milliseconds_raises (d : Duration.t) (e : exn) :
  Duration.milliseconds d = Raise e -> e = OverflowError.
Proof.
  unfold Duration.milliseconds, Float.of_int.
  destruct (Float.of_Z (Duration.nanoseconds d)); simpl; intros H;
    try discriminate.
  injection H as <-. reflexivity.
Qed.

Lemma tally_raises (st : Dict.dict Z * Dict.dict Float.float)
  (entry : string * Duration.t) (e : exn) :
  AnalysisResult.tally st entry = Raise e -> e = OverflowError.
Proof.
  destruct st as [counts times], entry as [key time]. simpl.
  destruct (Duration.milliseconds time) as [ms|e'] eqn:Hms; simpl;
    intros H; [discriminate|].
  injection H as <-. apply (milliseconds_raises _ _ Hms).
Qed.

Lemma add_unit_raises (st : AnalysisResult.locals)
  (unit : CompilationUnit.t) (e : exn) :
  AnalysisResult.add_unit st unit = Raise e -> e = OverflowError.
Proof.
  unfold AnalysisResult.add_unit.
  destruct (Duration.milliseconds (CompilationUnit.total_time unit))
    as [ms|e'] eqn:Hms; simpl.
  2: { intros H. injection H as <-. apply (milliseconds_raises _ _ Hms). }
  destruct (for_each AnalysisResult.tally
              (map AnalysisResult.include_entry
                 (CompilationUnit.includes unit)) _) as [inc|e'] eqn:Hinc;
    simpl.
  2: { intros H. injection H as <-. revert Hinc.
       apply (for_each_raises (fun e0 => e0 = OverflowError)).
       intros s x e0 _. apply tally_raises. }
  destruct (for_each AnalysisResult.tally
              (map AnalysisResult.template_entry
                 (CompilationUnit.templates unit)) _) as [tmpl|e'] eqn:Htmpl;
    simpl; [discriminate|].
  intros H. injection H as <-. revert Htmpl.
  apply (for_each_raises (fun e0 => e0 = OverflowError)).
  intros s x e0 _. apply tally_raises.
Qed.

Lemma for_each_tally_convertible (entries : list (string * Duration.t)) :
  forall st st',
    for_each AnalysisResult.tally entries st = Return st' ->
    Forall (fun entry => convertible (snd entry)) entries.
Proof.
  induction entries as [|[key time] entries IH]; simpl; intros st st' H;
    [constructor|].
  apply bind_Return in H as (st1 & H1 & H).
  constructor; [|apply (IH _ _ H)].
  destruct st as [counts times]. simpl in H1.
  apply bind_Return in H1 as (ms & Hms & _). exists ms. exact Hms.
Qed.

Lemma add_unit_convertible (st st' : AnalysisResult.locals)
  (unit : CompilationUnit.t) :
  AnalysisResult.add_unit st unit = Return st' -> unit_convertible unit.
Proof.
  unfold AnalysisResult.add_unit. intros H.
  apply bind_Return in H as (ms & Hms & H).
  apply bind_Return in H as (inc & Hinc & H).
  apply bind_Return in H as (tmpl & Htmpl & _).
  apply for_each_tally_convertible in Hinc, Htmpl.
  rewrite Forall_map in Hinc, Htmpl.
  split; [exists ms; exact Hms|]. split; assumption.
Qed.

Lemma units_loop_convertible (units : list CompilationUnit.t) :
  forall st st',
    for_each AnalysisResult.add_unit units st = Return st' ->
    Forall unit_convertible units.
Proof.
  induction units as [|u units IH]; simpl; intros st st' H; [constructor|].
  apply bind_Return in H as (st1 & H1 & H).
  constructor; [apply (add_unit_convertible _ _ _ H1) | apply (IH _ _ H)].
Qed.

(** X11: the aggregator returns exactly when [.milliseconds] returns on
    every time it reads (each unit's total time, each include time and
    each instantiation time), and the only exception it raises is
    OverflowError, for an int too large to convert to a float. *)
Theorem aggregator_raises_only_overflow (units : list CompilationUnit.t) :
  ((exists r, AnalysisResult.from_compilation_units units = Return r) <->
   Forall unit_convertible units) /\
  (forall e,
     AnalysisResult.from_compilation_units units = Raise e ->
     e = OverflowError).
Proof.
  split; [split|].
  - intros (r & Hr). unfold AnalysisResult.from_compilation_units in Hr.
    apply bind_Return in Hr as (st & Hloop & _).
    apply (units_loop_convertible _ _ _ Hloop).
  - apply from_compilation_units_returns.
  - unfold AnalysisResult.from_compilation_units. intros e H.
    destruct (for_each AnalysisResult.add_unit units AnalysisResult.initial)
      as [st|e'] eqn:Hloop; simpl in H; [discriminate|].
    injection H as <-. revert Hloop.
    apply (for_each_raises (fun e0 => e0 = OverflowError)).
    intros s x e0 _. apply add_unit_raises.
Qed.

(** An include time of 10^400 ns makes the aggregator raise
    OverflowError. *)
Lemma aggregator_raises_only_overflow_witness :
  AnalysisResult.from_compilation_units
    [unit_with "a.cpp" 1000 [("vector", 10 ^ 400)]] = Raise OverflowError.
Proof.
  destruct (AnalysisResult.from_compilation_units
              [unit_with "a.cpp" 1000 [("vector", 10 ^ 400)]])
    as [r|e] eqn:Hr; [vm_compute in Hr; discriminate|].
  f_equal.
  apply (proj2 (aggregator_raises_only_overflow
                  [unit_with "a.cpp" 1000 [("vector", 10 ^ 400)]]) e Hr).
Defined.

(** ** Signs of floats *)

Lemma shr_1_nonneg (mrs : shr_record) :
  0 <= shr_m mrs -> 0 <= shr_m (shr_1 mrs).
Proof.
  destruct mrs as [m r s]. simpl.
  destruct m as [|[p|p|]|p]; simpl; lia.
Qed.

Lemma iter_shr_1_nonneg (p : positive) :
  forall mrs, 0 <= shr_m mrs -> 0 <= shr_m (iter_pos shr_1 p mrs).
Proof.
  induction p as [p IH|p IH|]; simpl; intros mrs H.
  - apply IH, IH, shr_1_nonneg, H.
  - apply IH, IH, H.
  - apply shr_1_nonneg, H.
Qed.

Lemma shr_fexp_nonneg (m e : Z) (l : location) :
  0 <= m -> 0 <= shr_m (fst (shr_fexp Float.prec Float.emax m e l)).
Proof.
  intros Hm. unfold shr_fexp, shr.
  assert (H0 : 0 <= shr_m (shr_record_of_loc m l)).
  { destruct l as [|[| |]]; simpl; exact Hm. }
  destruct (fexp Float.prec Float.emax (Zdigits2 m + e) - e); simpl;
    try exact H0.
  apply iter_shr_1_nonneg, H0.
Qed.

Lemma round_nearest_even_nonneg (m : Z) (l : location) :
  0 <= m -> 0 <= round_nearest_even m l.
Proof.
  intros Hm. destruct l as [|[| |]]; simpl; try lia.
  destruct (Z.even m); lia.
Qed.

(** Rounding a non-negative mantissa gives a zero, a finite float or an
    infinity of the given sign, never a NaN. *)
Lemma binary_round_aux_no_nan (sx : bool) (mx ex : Z) (lx : location) :
  0 <= mx ->
  let r := binary_round_aux Float.prec Float.emax sx mx ex lx in
  r = S754_zero sx \/ r = S754_infinity sx \/
  exists m e, r = S754_finite sx m e.
Proof.
  intros Hm. unfold binary_round_aux.
  pose proof (shr_fexp_nonneg mx ex lx Hm) as H1.
  destruct (shr_fexp Float.prec Float.emax mx ex lx) as [mrs' e'].
  simpl in H1.
  pose proof (shr_fexp_nonneg
                (round_nearest_even (shr_m mrs') (loc_of_shr_record mrs'))
                e' loc_Exact (round_nearest_even_nonneg _ _ H1)) as H2.
  destruct (shr_fexp Float.prec Float.emax _ e' loc_Exact) as [mrs'' e''].
  simpl in H2.
  destruct (shr_m mrs'') as [|m|m]; simpl.
  - left. reflexivity.
  - match goal with |- context [if ?c then _ else _] => destruct c end.
    + right. right. exists m, e''. reflexivity.
    + right. left. reflexivity.
  - lia.
Qed.

(** A float above 5000 times 0.3 is at least zero. *)
Lemma impact_nonneg (ms : Float.float) :
  Float.gtb ms (Float.of_Z 5000) = true ->
  Float.leb (Float.of_Z 0) (Float.mul ms Float.lit_0_3) = true.
Proof.
  change (Float.of_Z 5000) with (S754_finite false 5497558138880000 (-40)).
  change Float.lit_0_3 with (S754_finite false 5404319552844595 (-54)).
  change (Float.of_Z 0) with (S754_zero false).
  destruct ms as [s|s| |s m e]; try discriminate.
  - destruct s; [discriminate | reflexivity].
  - destruct s; [discriminate|]. intros _.
    unfold Float.mul, SFmul. simpl xorb.
    destruct (binary_round_aux_no_nan false
                (Zpos (m * 5404319552844595)) (e + -54) loc_Exact)
      as [-> | [-> | (m' & e' & ->)]]; [lia | | | ]; reflexivity.
Qed.


(** ** The analyzer *)

Lemma from_json_raises (data : TraceDocument) (source_hint : string)
  (e : exn) :
  CompilationUnit.from_json data source_hint = Raise e ->
  e = OverflowError \/ e = ValueError.
Proof.
  unfold CompilationUnit.from_json. intros H.
  pose proof (parse_loop_outcome (get_default (traceEvents data) [])
                (CompilationUnit.make source_hint)) as Hout.
  destruct (first_error (get_default (traceEvents data) [])) as [e'|] eqn:He.
  - rewrite Hout in H. injection H as <-. apply (first_error_kind _ _ He).
  - destruct Hout as (u & Hu). rewrite Hu in H. discriminate.
Qed.

Lemma from_json_source_file (data : TraceDocument) (source_hint : string)
  (u : CompilationUnit.t) :
  CompilationUnit.from_json data source_hint = Return u ->
  CompilationUnit.source_file u = source_hint.
Proof.
  unfold CompilationUnit.from_json. intros H.
  apply parse_loop_lists in H as (Hs & _). exact Hs.
Qed.

(** The loop that parses the inputs appends one unit per input, named by
    [hint]. *)
Lemma parse_all_spec {A : Type} (doc : A -> TraceDocument)
  (hint : A -> string) (inputs : list A) :
  forall acc units,
    for_each
      (fun units input =>
         unit <- CompilationUnit.from_json (doc input) (hint input) ;;
         Return (units ++ [unit]))
      inputs acc = Return units ->
    map CompilationUnit.source_file units =
    map CompilationUnit.source_file acc ++ map hint inputs.
Proof.
  induction inputs as [|input inputs IH]; simpl; intros acc units H.
  - injection H as <-. symmetry. apply app_nil_r.
  - apply bind_Return in H as (acc1 & H1 & H).
    apply bind_Return in H1 as (unit & Hunit & H1). injection H1 as <-.
    rewrite (IH _ _ H), map_app, <- app_assoc. simpl.
    rewrite (from_json_source_file _ _ _ Hunit). reflexivity.
Qed.

Lemma parse_all_raises {A : Type} (doc : A -> TraceDocument)
  (hint : A -> string) (inputs : list A) (acc : list CompilationUnit.t)
  (e : exn) :
  for_each
    (fun units input =>
       unit <- CompilationUnit.from_json (doc input) (hint input) ;;
       Return (units ++ [unit]))
    inputs acc = Raise e ->
  e <> RuntimeError.
Proof.
  apply (for_each_raises (fun e0 => e0 <> RuntimeError)).
  intros s x e0 _ H.
  destruct (CompilationUnit.from_json (doc x) (hint x)) as [u|e'] eqn:Hu;
    simpl in H; [discriminate|].
  injection H as <-.
  destruct (from_json_raises _ _ _ Hu) as [-> | ->]; discriminate.
Qed.

Lemma analyze_python_raises (self : Analyzer.t) (e : exn) :
  Analyzer._analyze_python self = Raise e -> e <> RuntimeError.
Proof.
  unfold Analyzer._analyze_python.
  destruct (for_each _ (Analyzer._trace_files self) []) as [units|e1] eqn:H1;
    simpl.
  2: { intros H. injection H as <-.
       apply (parse_all_raises snd fst _ _ _ H1). }
  destruct (for_each _ (Analyzer._trace_content self) units)
    as [units'|e2] eqn:H2; simpl.
  2: { intros H. injection H as <-.
       apply (parse_all_raises (fun c => c) (fun _ => "<content>") _ _ _ H2). }
  intros H.
  assert (He : e = OverflowError).
  { revert H. unfold AnalysisResult.from_compilation_units.
    destruct (for_each AnalysisResult.add_unit units' AnalysisResult.initial)
      as [st|e'] eqn:Hloop; simpl; intros H; [discriminate|].
    injection H as <-. revert Hloop.
    apply (for_each_raises (fun e0 => e0 = OverflowError)).
    intros s x e0 _. apply add_unit_raises. }
  rewrite He. discriminate.
Qed.

(** X12: without the native module, [analyze] raises RuntimeError exactly
    when no trace file and no trace content was added; a failure of the
    parser or of the aggregator is an OverflowError or a ValueError. *)
Theorem analyze_runtime_error (self : Analyzer.t) :
  Analyzer.analyze self = Raise RuntimeError <->
  Analyzer._trace_files self = [] /\ Analyzer._trace_content self = [].
Proof.
  unfold Analyzer.analyze. split.
  - destruct (Analyzer._trace_files self) as [|f fs] eqn:Hf;
      destruct (Analyzer._trace_content self) as [|c cs] eqn:Hc;
      [auto | | | ];
      (destruct (Analyzer._analyze_python self) as [r|e] eqn:Hr; simpl;
       intros H; [discriminate|]; injection H as ->;
       exfalso; apply (analyze_python_raises self RuntimeError Hr);
       reflexivity).
  - intros (-> & ->). reflexivity.
Qed.

(** X13: the file metrics of [analyze] come in the order: every trace file
    in the order it was added, named by its path, then every trace
    content in the order it was added, each named ["<content>"], however
    the two kinds of calls were interleaved. *)
Theorem analyze_files_then_content (self self' : Analyzer.t)
  (r : AnalysisResult.t) :
  Analyzer.analyze self = Return (r, self') ->
  map FileMetrics.file_path (AnalysisResult.file_metrics r) =
  map fst (Analyzer._trace_files self) ++
  map (fun _ => "<content>") (Analyzer._trace_content self).
Proof.
  intros H.
  assert (Hr : Analyzer._analyze_python self = Return r).
  { unfold Analyzer.analyze in H.
    destruct (Analyzer._trace_files self), (Analyzer._trace_content self);
      try discriminate;
      apply bind_Return in H as (r' & Hr' & H); injection H as <- _;
      exact Hr'. }
  clear H. unfold Analyzer._analyze_python in Hr.
  apply bind_Return in Hr as (units1 & H1 & Hr).
  apply bind_Return in Hr as (units & H2 & Hr).
  apply (parse_all_spec snd fst) in H1.
  apply (parse_all_spec (fun c => c) (fun _ => "<content>")) in H2.
  rewrite H1 in H2. simpl in H2.
  destruct (from_compilation_units_spec units r Hr)
    as (st & -> & _ & _ & Hfms & _).
  simpl. rewrite <- H2. clear - Hfms.
  induction Hfms as [|u fm us fms (_ & Hfm) _ IH]; simpl; [reflexivity|].
  rewrite IH, Hfm. reflexivity.
Qed.

(** A content added before a file comes after it. *)
Lemma analyze_files_then_content_witness :
  exists r self',
    Analyzer.analyze
      (Analyzer.add_trace_content
         (Analyzer.make [("b.json", trace_of 2000 [])] [])
         (trace_of 1000 [])) = Return (r, self') /\
    map FileMetrics.file_path (AnalysisResult.file_metrics r) =
      ["b.json"; "<content>"].
Proof.
  destruct (Analyzer.analyze
              (Analyzer.add_trace_content
                 (Analyzer.make [("b.json", trace_of 2000 [])] [])
                 (trace_of 1000 []))) as [[r self']|e] eqn:H;
    [|vm_compute in H; discriminate].
  exists r, self'. split; [reflexivity|].
  apply (analyze_files_then_content _ _ _ H).
Defined.

(** X14: after a successful [analyze], [get_suggestions] does not raise;
    it returns the slow-file suggestions of the result, stores them in
    [_suggestions] and leaves the traces and the result alone, so that a
    second call returns the same list. *)
Theorem get_suggestions_after_analyze (self self1 : Analyzer.t)
  (r : AnalysisResult.t) :
  Analyzer.analyze self = Return (r, self1) ->
  exists out self2,
    Analyzer.get_suggestions self1 = Return (out, self2) /\
    Forall2 slow_file_rule
      (filter exceeds_threshold (AnalysisResult.file_metrics r)) out /\
    Analyzer._suggestions self2 = out /\
    Analyzer._analysis_result self2 = Some r /\
    Analyzer._trace_files self2 = Analyzer._trace_files self /\
    Analyzer._trace_content self2 = Analyzer._trace_content self /\
    Analyzer.get_suggestions self2 = Return (out, self2).
Proof.
  intros H.
  assert (Hself1 : self1 =
                   Analyzer.Analyzer (Analyzer._trace_files self)
                     (Analyzer._trace_content self) (Some r)
                     (Analyzer._suggestions self)).
  { unfold Analyzer.analyze in H.
    destruct (Analyzer._trace_files self), (Analyzer._trace_content self);
      try discriminate;
      apply bind_Return in H as (r' & _ & H); injection H as <- <-;
      reflexivity. }
  set (self1' := Analyzer.Analyzer (Analyzer._trace_files self)
                   (Analyzer._trace_content self) (Some r)
                   (Analyzer._suggestions self)) in *.
  subst self1.
  exists (Analyzer._generate_suggestions_python self1').
  exists (Analyzer.Analyzer (Analyzer._trace_files self)
            (Analyzer._trace_content self) (Some r)
            (Analyzer._generate_suggestions_python self1')).
  split; [reflexivity|]. split; [|repeat split].
  rewrite (generate_suggestions_spec self1' r eq_refl).
  induction (filter exceeds_threshold (AnalysisResult.file_metrics r))
    as [|fm fms IH]; simpl; constructor.
  - apply slow_file_suggestion_rule.
  - exact IH.
Qed.

(** One file of 6000 ms: one suggestion, kept in the analyzer. *)
Lemma get_suggestions_after_analyze_witness :
  exists r self1 out self2,
    Analyzer.analyze (Analyzer.make [("a.json", trace_of 6000000 [])] [])
      = Return (r, self1) /\
    Analyzer.get_suggestions self1 = Return (out, self2) /\
    Analyzer._suggestions self2 = out.
Proof.
  destruct (Analyzer.analyze
              (Analyzer.make [("a.json", trace_of 6000000 [])] []))
    as [[r self1]|e] eqn:H; [|vm_compute in H; discriminate].
  destruct (get_suggestions_after_analyze _ _ _ H)
    as (out & self2 & Hget & _ & Hstored & _).
  exists r, self1, out, self2. auto.
Defined.

(** X15: every suggestion has an estimated impact that is at least zero
    (in particular not a NaN), whatever floats the file metrics hold. *)
Theorem suggestion_impact_nonneg (self : Analyzer.t) (r : AnalysisResult.t) :
  Analyzer._analysis_result self = Some r ->
  Forall (fun s =>
            Float.leb (Float.of_Z 0) (Suggestion.estimated_impact_ms s)
            = true)
    (Analyzer._generate_suggestions_python self).
Proof.
  intros Hr. rewrite (generate_suggestions_spec self r Hr).
  apply Forall_forall. intros s Hs.
  apply in_map_iff in Hs as (fm & <- & Hfm).
  apply filter_In in Hfm as (_ & Hslow). simpl.
  apply impact_nonneg, Hslow.
Qed.

(** A metric of 6000 ms and one of minus infinity: one suggestion, of
    non-negative impact. *)
Lemma suggestion_impact_nonneg_witness :
  Forall (fun s =>
            Float.leb (Float.of_Z 0) (Suggestion.estimated_impact_ms s)
            = true)
    (Analyzer._generate_suggestions_python
       (analyzer_with [FileMetrics.make "a.cpp" (Float.of_Z 6000) 3 0;
                       FileMetrics.make "b.cpp" (S754_infinity true) 1 0])).
Proof.
  apply (suggestion_impact_nonneg
           (analyzer_with
              [FileMetrics.make "a.cpp" (Float.of_Z 6000) 3 0;
               FileMetrics.make "b.cpp" (S754_infinity true) 1 0])
           _ eq_refl).
Defined.



(** ** BuildTrace *)

Lemma add_units_spec (units : list CompilationUnit.t) :
  forall trace,
    let trace' := fold_left BuildTrace.add_unit units trace in
    BuildTrace.units trace' = BuildTrace.units trace ++ units /\
    Duration.nanoseconds (BuildTrace.total_build_time trace') =
      Duration.nanoseconds (BuildTrace.total_build_time trace) +
      fold_right Z.add 0
        (map (fun u => Duration.nanoseconds (CompilationUnit.total_time u))
           units) /\
    BuildTrace.parallel_jobs trace' = BuildTrace.parallel_jobs trace.
Proof.
  induction units as [|u units IH]; simpl; intros trace.
  - rewrite app_nil_r. repeat split. lia.
  - destruct (IH (BuildTrace.add_unit trace u)) as (Hu & Ht & Hj).
    rewrite Hu, Ht, Hj. simpl. rewrite <- app_assoc. repeat split. lia.
Qed.

(** X17: a BuildTrace filled by [add_unit] holds the units in the order
    they were added, [total_build_time] is the exact sum of their total
    times, [parallel_jobs] stays 1, and the aggregator run on its units
    gives that same total as [total_compile_time]. *)
Theorem build_trace_total (units : list CompilationUnit.t) :
  BuildTrace.units (build_trace units) = units /\
  Duration.nanoseconds (BuildTrace.total_build_time (build_trace units)) =
    fold_right Z.add 0
      (map (fun u => Duration.nanoseconds (CompilationUnit.total_time u))
         units) /\
  BuildTrace.parallel_jobs (build_trace units) = 1 /\
  (forall r,
     AnalysisResult.from_compilation_units
       (BuildTrace.units (build_trace units)) = Return r ->
     AnalysisResult.total_compile_time r =
       BuildTrace.total_build_time (build_trace units)).
Proof.
  unfold build_trace.
  destruct (add_units_spec units BuildTrace.default) as (Hu & Ht & Hj).
  simpl in Hu, Ht, Hj. rewrite Hu. repeat split; try assumption.
  intros r Hr.
  destruct (from_compilation_units_spec units r Hr)
    as (st & -> & _ & _ & _ & Htotal).
  simpl.
  destruct (AnalysisResult.total st) as [a],
    (BuildTrace.total_build_time
       (fold_left BuildTrace.add_unit units BuildTrace.default)) as [b].
  simpl in *. f_equal. lia.
Qed.

(** ** Duration arithmetic *)

(** X18: Duration addition and subtraction are exact inverses of each
    other on every pair of durations (nothing saturates or clamps);
    addition is commutative and associative with [Duration()] as its
    neutral element. *)
Theorem duration_add_sub (a b c : Duration.t) :
  Duration.__sub__ (Duration.__add__ a b) b = a /\
  Duration.__add__ (Duration.__sub__ a b) b = a /\
  Duration.__add__ a b = Duration.__add__ b a /\
  Duration.__add__ (Duration.__add__ a b) c =
    Duration.__add__ a (Duration.__add__ b c) /\
  Duration.__add__ a Duration.default = a.
Proof.
  destruct a as [x], b as [y], c as [z].
  unfold Duration.__add__, Duration.__sub__, Duration.default. simpl.
  repeat split; f_equal; lia.
Qed.

(** X19: the five comparisons of Duration are those of one total order,
    the order of the nanosecond values: [<] and [>], [<=] and [>=] mirror
    each other, [<=] is the negation of [>], [==] holds exactly for equal
    durations, and adding the same duration on both sides keeps [<]. *)
Theorem duration_order (a b c : Duration.t) :
  Duration.__gt__ a b = Duration.__lt__ b a /\
  Duration.__ge__ a b = Duration.__le__ b a /\
  Duration.__le__ a b = negb (Duration.__gt__ a b) /\
  Duration.__le__ a b = Duration.__lt__ a b || Duration.__eq__ a b /\
  (Duration.__eq__ a b = true <-> a = b) /\
  Duration.__lt__ (Duration.__add__ a c) (Duration.__add__ b c) =
    Duration.__lt__ a b.
Proof.
  destruct a as [x], b as [y], c as [z].
  unfold Duration.__gt__, Duration.__lt__, Duration.__ge__, Duration.__le__,
    Duration.__eq__, Duration.__add__. simpl.
  split; [apply Z.gtb_ltb|]. split; [apply Z.geb_leb|].
  split; [rewrite Z.gtb_ltb, Z.leb_antisym; reflexivity|].
  split.
  { destruct (Z.leb_spec x y), (Z.ltb_spec x y), (Z.eqb_spec x y);
      simpl; try reflexivity; lia. }
  split.
  { rewrite Z.eqb_eq. split; [intros ->; reflexivity|].
    intros H. injection H as ->. reflexivity. }
  destruct (Z.ltb_spec (x + z) (y + z)), (Z.ltb_spec x y);
    try reflexivity; lia.
Qed.

(** X20: on ints the three constructors are exact and agree across units:
    one second is a thousand milliseconds and a million microseconds, and
    converting a sum gives the sum of the conversions. *)
Theorem duration_from_int_units (n m : Z) :
  Duration.from_seconds (NInt n) = Return (Duration.Duration (n * 10 ^ 9)) /\
  Duration.from_seconds (NInt n) = Duration.from_milliseconds (NInt (n * 1000))
  /\
  Duration.from_milliseconds (NInt n) =
    Duration.from_microseconds (NInt (n * 1000)) /\
  Duration.from_microseconds (NInt (n + m)) =
    (a <- Duration.from_microseconds (NInt n) ;;
     b <- Duration.from_microseconds (NInt m) ;;
     Return (Duration.__add__ a b)).
Proof.
  unfold Duration.from_seconds, Duration.from_milliseconds,
    Duration.from_microseconds, Duration.__add__.
  simpl. repeat split; do 2 f_equal; lia.
Qed.

(** ** Export *)

Lemma to_dict_raises (r : AnalysisResult.t) (e : exn) :
  AnalysisResult.to_dict r = Raise e -> e = OverflowError.
Proof.
  unfold AnalysisResult.to_dict, IncludeMetrics.to_dict,
    TemplateMetrics.to_dict.
  destruct (Duration.milliseconds (AnalysisResult.total_compile_time r))
    as [ms|e1] eqn:H1; simpl.
  2: { intros H. injection H as <-. apply (milliseconds_raises _ _ H1). }
  destruct (Duration.milliseconds
              (IncludeMetrics.total_include_time
                 (AnalysisResult.include_metrics r))) as [ms2|e2] eqn:H2;
    simpl.
  2: { intros H. injection H as <-. apply (milliseconds_raises _ _ H2). }
  destruct (Duration.milliseconds
              (TemplateMetrics.total_template_time
                 (AnalysisResult.template_metrics r))) as [ms3|e3] eqn:H3;
    simpl; [discriminate|].
  intros H. injection H as <-. apply (milliseconds_raises _ _ H3).
Qed.

(** X21: in pure-Python mode [export] raises RuntimeError before any
    analysis, NotImplementedError for every format other than JSON, and
    for JSON the OverflowError of [to_dict] when a time of the result does
    not convert; in all three cases no file is written. *)
Theorem export_errors (json_dumps : json -> option Z -> string)
  (self : Analyzer.t) (export_format : ExportFormat) (path : option string)
  (options : option ExportOptions.t) :
  (Analyzer._analysis_result self = None ->
   Analyzer.export json_dumps self export_format path options =
     inl (Raised RuntimeError)) /\
  (forall r,
     Analyzer._analysis_result self = Some r ->
     export_format <> JSON ->
     Analyzer.export json_dumps self export_format path options =
       inl NotImplementedError) /\
  (forall r e,
     Analyzer._analysis_result self = Some r ->
     AnalysisResult.to_dict r = Raise e ->
     Analyzer.export json_dumps self JSON path options = inl (Raised e) /\
     e = OverflowError).
Proof.
  unfold Analyzer.export, Analyzer._export_python. split; [|split].
  - intros ->. reflexivity.
  - intros r -> Hfmt. destruct export_format; [contradiction| | | |];
      reflexivity.
  - intros r e -> He. rewrite He. split; [reflexivity|].
    apply (to_dict_raises _ _ He).
Qed.

(** Exporting HTML after an analysis raises NotImplementedError. *)
Lemma export_errors_witness :
  Analyzer.export (fun _ _ => "") (analyzer_with []) HTML (Some "out.html")
    None = inl NotImplementedError.
Proof.
  apply (proj1 (proj2 (export_errors (fun _ _ => "") (analyzer_with []) HTML
                         (Some "out.html") None))
           _ eq_refl).
  discriminate.
Defined.

(** X22: what [export] returns and writes depends on the analysis result,
    the format, the path and [pretty_print] alone: the stored
    suggestions, the traces and the other five export options have no
    effect (the suggestions are never exported). A file is written only
    for a non-empty path, with the returned content. *)
Theorem export_ignores_suggestions_and_options
  (json_dumps : json -> option Z -> string) (self self' : Analyzer.t)
  (export_format : ExportFormat) (path : option string)
  (options options' : option ExportOptions.t) :
  Analyzer._analysis_result self = Analyzer._analysis_result self' ->
  ExportOptions.pretty_print (get_default options ExportOptions.default) =
    ExportOptions.pretty_print (get_default options' ExportOptions.default)
  ->
  Analyzer.export json_dumps self export_format path options =
    Analyzer.export json_dumps self' export_format path options' /\
  (forall content written,
     Analyzer.export json_dumps self export_format path options =
       inr (content, written) ->
     written =
       match path with
       | Some p => if String.eqb p "" then None else Some (p, content)
       | None => None
       end).
Proof.
  unfold Analyzer.export, Analyzer._export_python. intros <- Hpretty.
  split.
  - destruct (Analyzer._analysis_result self) as [r|]; [|reflexivity].
    rewrite Hpretty. reflexivity.
  - intros content written.
    destruct (Analyzer._analysis_result self) as [r|]; [|discriminate].
    destruct export_format; try discriminate.
    destruct (AnalysisResult.to_dict r) as [d|e]; [|discriminate].
    intros H. injection H as <- <-. reflexivity.
Qed.

(** The export with suggestions stored and [include_suggestions] set is
    the export without. *)
Lemma export_ignores_suggestions_and_options_witness :
  Analyzer.export (fun _ _ => "{}")
    (Analyzer.Analyzer [] [] (Some AnalysisResult.default)
       [Analyzer.slow_file_suggestion
          (FileMetrics.make "a.cpp" (Float.of_Z 6000) 0 0)])
    JSON None
    (Some (ExportOptions.ExportOptions true true true false Priority.LOW 0))
  =
  Analyzer.export (fun _ _ => "{}")
    (Analyzer.Analyzer [] [] (Some AnalysisResult.default) [])
    JSON None
    (Some (ExportOptions.ExportOptions true false false true Priority.HIGH 5)).
Proof.
  apply (export_ignores_suggestions_and_options (fun _ _ => "{}"));
    reflexivity.
Defined.

(** ** The exported dict *)

Lemma exported_paths_of_metrics (fms : list FileMetrics.t) :
  map (fun fm => json_item fm "file_path") (map FileMetrics.to_dict fms) =
  map (fun fm => Some (JStr (FileMetrics.file_path fm))) fms.
Proof.
  rewrite map_map. apply map_ext. intros fm. reflexivity.
Qed.

(** X23: [to_dict] of a result of the aggregator raises only when the
    total compile time does not convert to a float, and the dict it
    returns has the number of units as [summary.file_count] and one
    [file_metrics] item per unit, in the order of the units, with the
    unit's source file as [file_path]. *)
Theorem exported_result_lists_units (units : list CompilationUnit.t)
  (r : AnalysisResult.t) :
  AnalysisResult.from_compilation_units units = Return r ->
  ((exists d, AnalysisResult.to_dict r = Return d) <->
   convertible (AnalysisResult.total_compile_time r)) /\
  (forall d,
     AnalysisResult.to_dict r = Return d ->
     exported_file_count d = Some (JInt (len units)) /\
     exported_file_paths d =
       Some (map (fun u => Some (JStr (CompilationUnit.source_file u)))
               units)).
Proof.
  intros Hr.
  destruct (from_compilation_units_spec units r Hr)
    as (st & -> & _ & _ & Hfms & _).
  unfold AnalysisResult.to_dict, IncludeMetrics.to_dict,
    TemplateMetrics.to_dict, convertible. simpl.
  change (Duration.milliseconds Duration.default)
    with (Return (S754_zero false)). simpl.
  split.
  - split.
    + intros (d & Hd).
      destruct (Duration.milliseconds (AnalysisResult.total st)) as [ms|e];
        [eauto | discriminate].
    + intros (ms & ->). simpl. eauto.
  - intros d Hd.
    destruct (Duration.milliseconds (AnalysisResult.total st)) as [ms|e];
      [|discriminate].
    simpl in Hd. injection Hd as <-.
    split; [reflexivity|].
    unfold exported_file_paths. simpl. f_equal.
    rewrite exported_paths_of_metrics. clear Hr.
    induction Hfms as [|u fm us fms (_ & Hfm) _ IH]; simpl; [reflexivity|].
    rewrite IH, Hfm. reflexivity.
Qed.

(** Two units: a file count of 2 in the exported dict. *)
Lemma exported_result_lists_units_witness :
  exists r d,
    AnalysisResult.from_compilation_units
      [unit_with "a.cpp" 2000000000 []; unit_with "b.cpp" 1000000000 []]
      = Return r /\
    AnalysisResult.to_dict r = Return d /\
    exported_file_count d = Some (JInt 2).
Proof.
  destruct (AnalysisResult.from_compilation_units
              [unit_with "a.cpp" 2000000000 [];
               unit_with "b.cpp" 1000000000 []]) as [r|e] eqn:Hr;
    [|vm_compute in Hr; discriminate].
  destruct (AnalysisResult.to_dict r) as [d|e] eqn:Hd.
  - exists r, d. split; [reflexivity|]. split; [exact Hd|].
    apply (proj2 (exported_result_lists_units _ r Hr) d Hd).
  - exfalso. vm_compute in Hr. injection Hr as <-. vm_compute in Hd.
    discriminate.
Defined.

(** ** Objects of the native module *)

(** X24: [AnalysisResult.from_native] copies the file metrics of the
    native result, in order (path, time and the two counts, a missing
    template count read as 0), and nothing else: [file_count] and
    [total_compile_time] stay zero and the include and template metrics
    empty however many file metrics there are, so that the exported
    [summary.file_count] of such a result is always 0; [to_dict] never
    raises on it. *)
Theorem from_native_copies_file_metrics_only
  (native_result : NativeResult.t) :
  let r := AnalysisResult.from_native native_result in
  map FileMetrics.file_path (AnalysisResult.file_metrics r) =
    map NativeFileMetrics.file_path
      (get_default (NativeResult.file_metrics native_result) []) /\
  map FileMetrics.compile_time_ms (AnalysisResult.file_metrics r) =
    map NativeFileMetrics.compile_time_ms
      (get_default (NativeResult.file_metrics native_result) []) /\
  map FileMetrics.include_count (AnalysisResult.file_metrics r) =
    map NativeFileMetrics.include_count
      (get_default (NativeResult.file_metrics native_result) []) /\
  map FileMetrics.template_instantiation_count
    (AnalysisResult.file_metrics r) =
    map (fun fm =>
           get_default (NativeFileMetrics.template_instantiation_count fm) 0)
      (get_default (NativeResult.file_metrics native_result) []) /\
  AnalysisResult.file_count r = 0 /\
  AnalysisResult.total_compile_time r = Duration.Duration 0 /\
  AnalysisResult.include_metrics r = IncludeMetrics.default /\
  AnalysisResult.template_metrics r = TemplateMetrics.default /\
  exists d,
    AnalysisResult.to_dict r = Return d /\
    exported_file_count d = Some (JInt 0) /\
    exported_file_paths d =
      Some (map (fun fm => Some (JStr (NativeFileMetrics.file_path fm)))
              (get_default (NativeResult.file_metrics native_result) [])).
Proof.
  unfold AnalysisResult.from_native.
  destruct (NativeResult.file_metrics native_result) as [fms|]; simpl.
  - rewrite !map_map. simpl. repeat split.
    eexists. split; [reflexivity|]. split; [reflexivity|].
    unfold exported_file_paths. simpl. f_equal.
    rewrite !map_map. reflexivity.
  - repeat split. eexists. split; [reflexivity|]. split; reflexivity.
Qed.

Lemma SuggestionType_value_round_trip (t : SuggestionType) :
  SuggestionType_of_value (SuggestionType_value t) = Return t.
Proof. destruct t; reflexivity. Qed.

Lemma Priority_value_round_trip (p : Priority.t) :
  Priority.of_value (Priority.value p) = Return p.
Proof. destruct p; reflexivity. Qed.

Lemma Confidence_value_round_trip (c : Confidence.t) :
  Confidence.of_value (Confidence.value c) = Return c.
Proof. destruct c; reflexivity. Qed.

(** X25: [Suggestion.from_native] reads back every suggestion from an
    object that carries its attributes with the enums as their values:
    type, priority, title, description, file path, line number, estimated
    impact and confidence are recovered, [affected_files] and
    [code_changes] are dropped. *)
Theorem suggestion_from_native_round_trip (s : Suggestion.t) :
  Suggestion.from_native (native_of s) = Return (without_lists s).
Proof.
  unfold Suggestion.from_native, native_of, without_lists. simpl.
  rewrite SuggestionType_value_round_trip, Priority_value_round_trip,
    Confidence_value_round_trip.
  reflexivity.
Qed.

Lemma SuggestionType_of_value_returns (v : string) :
  (exists t, SuggestionType_of_value v = Return t) <-> is_type_value v = true.
Proof.
  unfold SuggestionType_of_value, is_type_value. simpl.
  repeat match goal with
         | |- context [String.eqb v ?k] => destruct (String.eqb v k)
         end; simpl;
    (split; [intros _; reflexivity | intros _; eauto]) ||
    (split; [intros (t & H); discriminate | discriminate]).
Qed.

Lemma Priority_of_value_returns (v : Z) :
  (exists p, Priority.of_value v = Return p) <-> is_priority_value v = true.
Proof.
  unfold Priority.of_value, is_priority_value.
  rewrite andb_true_iff, !Z.leb_le.
  destruct (Z.eqb_spec v 1); [split; [lia | eauto]|].
  destruct (Z.eqb_spec v 2); [split; [lia | eauto]|].
  destruct (Z.eqb_spec v 3); [split; [lia | eauto]|].
  destruct (Z.eqb_spec v 4); [split; [lia | eauto]|].
  split; [intros (p & H); discriminate | lia].
Qed.

Lemma Confidence_of_value_returns (v : Z) :
  (exists c, Confidence.of_value v = Return c) <->
  is_confidence_value v = true.
Proof.
  unfold Confidence.of_value, is_confidence_value.
  rewrite andb_true_iff, !Z.leb_le.
  destruct (Z.eqb_spec v 1); [split; [lia | eauto]|].
  destruct (Z.eqb_spec v 2); [split; [lia | eauto]|].
  destruct (Z.eqb_spec v 3); [split; [lia | eauto]|].
  split; [intros (c & H); discriminate | lia].
Qed.

Lemma SuggestionType_of_value_cases (v : string) :
  SuggestionType_of_value v = Raise ValueError \/
  exists t, SuggestionType_of_value v = Return t.
Proof.
  unfold SuggestionType_of_value.
  repeat match goal with
         | |- context [String.eqb v ?k] => destruct (String.eqb v k)
         end; eauto.
Qed.

Lemma Priority_of_value_cases (v : Z) :
  Priority.of_value v = Raise ValueError \/
  exists p, Priority.of_value v = Return p.
Proof.
  unfold Priority.of_value.
  repeat match goal with
         | |- context [Z.eqb v ?k] => destruct (Z.eqb v k)
         end; eauto.
Qed.

Lemma Confidence_of_value_cases (v : Z) :
  Confidence.of_value v = Raise ValueError \/
  exists c, Confidence.of_value v = Return c.
Proof.
  unfold Confidence.of_value.
  repeat match goal with
         | |- context [Z.eqb v ?k] => destruct (Z.eqb v k)
         end; eauto.
Qed.

(** X26: [Suggestion.from_native] returns exactly when each of [type],
    [priority] and [confidence] is absent or holds the value of a member
    of its enum (a missing attribute gets its default); otherwise it
    raises ValueError, and it raises nothing else. *)
Theorem suggestion_from_native_errors (n : NativeSuggestion.t) :
  ((exists s, Suggestion.from_native n = Return s) <->
   absent_or is_type_value (NativeSuggestion.type n) &&
   absent_or is_priority_value (NativeSuggestion.priority n) &&
   absent_or is_confidence_value (NativeSuggestion.confidence n) = true) /\
  (forall e, Suggestion.from_native n = Raise e -> e = ValueError).
Proof.
  unfold Suggestion.from_native.
  set (type := match NativeSuggestion.type n with
               | Some v => SuggestionType_of_value v
               | None => Return CUSTOM
               end).
  set (priority := match NativeSuggestion.priority n with
                   | Some v => Priority.of_value v
                   | None => Return Priority.MEDIUM
                   end).
  set (confidence := match NativeSuggestion.confidence n with
                     | Some v => Confidence.of_value v
                     | None => Return Confidence.MEDIUM
                     end).
  assert (Ht : (type = Raise ValueError \/ exists t, type = Return t) /\
               ((exists t, type = Return t) <->
                absent_or is_type_value (NativeSuggestion.type n) = true)).
  { subst type. destruct (NativeSuggestion.type n) as [v|]; simpl.
    - split; [apply SuggestionType_of_value_cases
             | apply SuggestionType_of_value_returns].
    - split; [eauto | split; eauto]. }
  assert (Hp : (priority = Raise ValueError \/
                exists p, priority = Return p) /\
               ((exists p, priority = Return p) <->
                absent_or is_priority_value (NativeSuggestion.priority n)
                = true)).
  { subst priority. destruct (NativeSuggestion.priority n) as [v|]; simpl.
    - split; [apply Priority_of_value_cases
             | apply Priority_of_value_returns].
    - split; [eauto | split; eauto]. }
  assert (Hc : (confidence = Raise ValueError \/
                exists c, confidence = Return c) /\
               ((exists c, confidence = Return c) <->
                absent_or is_confidence_value (NativeSuggestion.confidence n)
                = true)).
  { subst confidence.
    destruct (NativeSuggestion.confidence n) as [v|]; simpl.
    - split; [apply Confidence_of_value_cases
             | apply Confidence_of_value_returns].
    - split; [eauto | split; eauto]. }
  clearbody type priority confidence.
  destruct Ht as (Ht & Ht'), Hp as (Hp & Hp'), Hc as (Hc & Hc').
  rewrite !andb_true_iff, <- Ht', <- Hp', <- Hc'.
  destruct Ht as [-> | (t & ->)]; simpl.
  { split; [|intros e H; injection H as <-; reflexivity].
    split; [intros (s & H); discriminate|].
    intros (((t & H) & _) & _). discriminate. }
  destruct Hp as [-> | (p & ->)]; simpl.
  { split; [|intros e H; injection H as <-; reflexivity].
    split; [intros (s & H); discriminate|].
    intros ((_ & (p & H)) & _). discriminate. }
  destruct Hc as [-> | (c & ->)]; simpl.
  { split; [|intros e H; injection H as <-; reflexivity].
    split; [intros (s & H); discriminate|].
    intros (_ & (c & H)). discriminate. }
  split; [|discriminate].
  split; [eauto 10|eauto].
Qed.

(** ** From the events to the counts *)

Lemma from_json_counts (data : TraceDocument) (source_hint : string)
  (u : CompilationUnit.t) :
  CompilationUnit.from_json data source_hint = Return u ->
  len (CompilationUnit.includes u) = count_kind KSource data /\
  len (CompilationUnit.templates u) = count_kind KTemplate data.
Proof.
  unfold CompilationUnit.from_json, count_kind. fold (events data).
  intros H.
  apply parse_loop_lists in H
    as (_ & _ & (incs & Hi & Hf) & (tmpls & Ht & Hg)).
  simpl in Hi, Ht. subst incs tmpls. unfold len.
  rewrite (Forall2_length Hf), (Forall2_length Hg). split; reflexivity.
Qed.

Lemma sum_as_fold_right (xs : list Z) : sum xs = fold_right Z.add 0 xs.
Proof.
  induction xs as [|x xs IH]; [reflexivity|].
  rewrite sum_cons, IH. reflexivity.
Qed.

(** X27: after [analyze], the file metric of each document counts its
    events: [include_count] is the number of its [Source] events that
    have a [detail] and [template_instantiation_count] the number of its
    [InstantiateClass] and [InstantiateFunction] events (files first,
    then contents); [total_includes] and [total_instantiations] are the
    sums of these counts. *)
Theorem analyze_counts_events (self self' : Analyzer.t)
  (r : AnalysisResult.t) :
  Analyzer.analyze self = Return (r, self') ->
  map FileMetrics.include_count (AnalysisResult.file_metrics r) =
    map (count_kind KSource) (documents self) /\
  map FileMetrics.template_instantiation_count
    (AnalysisResult.file_metrics r) =
    map (count_kind KTemplate) (documents self) /\
  IncludeMetrics.total_includes (AnalysisResult.include_metrics r) =
    fold_right Z.add 0 (map (count_kind KSource) (documents self)) /\
  TemplateMetrics.total_instantiations (AnalysisResult.template_metrics r) =
    fold_right Z.add 0 (map (count_kind KTemplate) (documents self)).
Proof.
  intros H.
  assert (Hr : Analyzer._analyze_python self = Return r).
  { unfold Analyzer.analyze in H.
    destruct (Analyzer._trace_files self), (Analyzer._trace_content self);
      try discriminate;
      apply bind_Return in H as (r' & Hr' & H); injection H as <- _;
      exact Hr'. }
  clear H. unfold Analyzer._analyze_python in Hr.
  apply bind_Return in Hr as (units1 & H1 & Hr).
  apply bind_Return in Hr as (units & H2 & Hr).
  apply (parse_all_units snd fst) in H1 as (parsed1 & -> & Hp1).
  apply (parse_all_units (fun c => c) (fun _ => "<content>")) in H2
    as (parsed2 & -> & Hp2).
  simpl in *.
  assert (Hdocs : Forall2
                    (fun data u =>
                       len (CompilationUnit.includes u) =
                         count_kind KSource data /\
                       len (CompilationUnit.templates u) =
                         count_kind KTemplate data)
                    (documents self) (parsed1 ++ parsed2)).
  { unfold documents. apply Forall2_app.
    - clear - Hp1.
      induction Hp1 as [|f u fs us Hf _ IH]; simpl; constructor;
        [apply (from_json_counts _ _ _ Hf) | exact IH].
    - clear - Hp2.
      induction Hp2 as [|c u cs us Hc _ IH]; simpl; constructor;
        [apply (from_json_counts _ _ _ Hc) | exact IH]. }
  set (units := parsed1 ++ parsed2) in *.
  destruct (from_compilation_units_spec units r Hr)
    as (st & -> & Hi & Hn & Hfms & _).
  simpl.
  assert (Hinc : map FileMetrics.include_count (AnalysisResult.metrics st) =
                 map (count_kind KSource) (documents self)).
  { rewrite <- (Forall2_map_eq _ (fun u => len (CompilationUnit.includes u))
                  FileMetrics.include_count _ _ Hfms).
    - symmetry.
      apply (Forall2_map_eq _ _ _ _ _ Hdocs). intros d u (Hd & _).
      symmetry. exact Hd.
    - intros u fm (_ & ->). reflexivity. }
  assert (Htmpl : map FileMetrics.template_instantiation_count
                    (AnalysisResult.metrics st) =
                  map (count_kind KTemplate) (documents self)).
  { rewrite <- (Forall2_map_eq _
                  (fun u => len (CompilationUnit.templates u))
                  FileMetrics.template_instantiation_count _ _ Hfms).
    - symmetry.
      apply (Forall2_map_eq _ _ _ _ _ Hdocs). intros d u (_ & Hd).
      symmetry. exact Hd.
    - intros u fm (_ & ->). reflexivity. }
  split; [exact Hinc|]. split; [exact Htmpl|].
  rewrite <- Hinc, <- Htmpl.
  rewrite <- (Forall2_map_eq _ (fun u => len (CompilationUnit.includes u))
                FileMetrics.include_count _ _ Hfms)
    by (intros u fm (_ & ->); reflexivity).
  rewrite <- (Forall2_map_eq _ (fun u => len (CompilationUnit.templates u))
                FileMetrics.template_instantiation_count _ _ Hfms)
    by (intros u fm (_ & ->); reflexivity).
  rewrite <- header_paths_length, <- template_names_length.
  rewrite Hi, Hn, <- !counting_from_empty, !sum_values_counting.
  split; reflexivity.
Qed.

(** A file with two [Source] events, one without [detail], and a content
    with none. *)
Lemma analyze_counts_events_witness :
  exists r self',
    Analyzer.analyze
      (Analyzer.make
         [("a.json",
           {| traceEvents :=
                Some [ {| ev_name := Some "Source"; ev_dur := Some (NInt 7);
                          ev_args := Some [("detail", "a.h")] |};
                       {| ev_name := Some "Source"; ev_dur := Some (NInt 9);
                          ev_args := None |} ] |})]
         [trace_of 1000 []]) = Return (r, self') /\
    map FileMetrics.include_count (AnalysisResult.file_metrics r) = [1; 0].
Proof.
  destruct (Analyzer.analyze
              (Analyzer.make
                 [("a.json",
                   {| traceEvents :=
                        Some [ {| ev_name := Some "Source";
                                  ev_dur := Some (NInt 7);
                                  ev_args := Some [("detail", "a.h")] |};
                               {| ev_name := Some "Source";
                                  ev_dur := Some (NInt 9);
                                  ev_args := None |} ] |})]
                 [trace_of 1000 []])) as [[r self']|e] eqn:H;
    [|vm_compute in H; discriminate].
  exists r, self'. split; [reflexivity|].
  apply (proj1 (analyze_counts_events _ _ _ H)).
Defined.

(** ** More concrete cases *)

(** A new analyzer raises RuntimeError on [analyze]
    ([TestAnalyzer.test_no_traces_error]). *)
Lemma analyze_runtime_error_witness :
  Analyzer.analyze (Analyzer.make [] []) = Raise RuntimeError.
Proof.
  apply (proj2 (analyze_runtime_error (Analyzer.make [] []))).
  split; reflexivity.
Defined.

(** Two units of 2 s and 1 s: the aggregator's total is the trace's. *)
Lemma build_trace_total_witness :
  exists r,
    AnalysisResult.from_compilation_units
      (BuildTrace.units
         (build_trace [unit_with "a.cpp" 2000000000 [];
                       unit_with "b.cpp" 1000000000 []])) = Return r /\
    AnalysisResult.total_compile_time r =
      BuildTrace.total_build_time
        (build_trace [unit_with "a.cpp" 2000000000 [];
                      unit_with "b.cpp" 1000000000 []]).
Proof.
  destruct (AnalysisResult.from_compilation_units
              (BuildTrace.units
                 (build_trace [unit_with "a.cpp" 2000000000 [];
                               unit_with "b.cpp" 1000000000 []])))
    as [r|e] eqn:Hr; [|vm_compute in Hr; discriminate].
  exists r. split; [reflexivity|].
  destruct (build_trace_total [unit_with "a.cpp" 2000000000 [];
                               unit_with "b.cpp" 1000000000 []])
    as (_ & _ & _ & Hsame).
  apply (Hsame r Hr).
Defined.

(** Two durations are equal when [==] says so. *)
Lemma duration_order_witness :
  Duration.Duration (1 + 1) = Duration.Duration 2.
Proof.
  destruct (duration_order (Duration.Duration (1 + 1)) (Duration.Duration 2)
              Duration.default) as (_ & _ & _ & _ & Heq & _).
  apply Heq. reflexivity.
Defined.

(** A priority of 7 makes [from_native] raise ValueError. *)
Lemma suggestion_from_native_errors_witness :
  Suggestion.from_native
    (NativeSuggestion.NativeSuggestion (Some "pch") (Some 7) None None None
       None None None) = Raise ValueError.
Proof.
  destruct (Suggestion.from_native
              (NativeSuggestion.NativeSuggestion (Some "pch") (Some 7) None
                 None None None None None)) as [s|e] eqn:H;
    [vm_compute in H; discriminate|].
  f_equal.
  apply (proj2 (suggestion_from_native_errors
                  (NativeSuggestion.NativeSuggestion (Some "pch") (Some 7)
                     None None None None None None)) e H).
Defined.
